(** * Cluster topology discovery and quorum health evaluation

    A shallow embedding of the cluster part of
    [Scripts/postgresql_server.py] (class [PostgresqlServer]): topology
    resolution ([_get_cluster_addresses]), per-node status
    ([_get_node_status]), the quorum evaluation
    ([_determine_cluster_status]) and the membership operations
    ([remove_cluster_node], [set_master]), followed by the properties the
    specification states about them. *)

From Stdlib Require Import ZArith NArith List String Ascii Bool Lia.
From Stdlib Require Import Sorted DecimalString.
Import ListNotations.

Open Scope string_scope.
Open Scope Z_scope.

(** ** Python values and helpers *)

Module Py.

(** The exceptions the modelled code can raise.  [DBManagementError] and
    [DBNodeListError] carry their message, as in the source. *)
Inductive exn : Type :=
| TypeError
| IndexError
| OverflowError
| DBNodeListError (msg : string)
| DBManagementError (msg : string).

Inductive result (A : Type) : Type :=
| Ok (a : A)
| Raise (e : exn).
Arguments Ok {A} a.
Arguments Raise {A} e.

(** The source runs on CPython; the two major versions differ on
    [None < n]: version 2 orders [None] before every number, version 3
    raises [TypeError]. *)
Inductive interpreter : Type := Py2 | Py3.

(** [a < b] where [a] may be [None] and [b] is a number. *)
Definition lt_opt (py : interpreter) (a : option N) (b : N) : result bool :=
  match a with
  | Some x => Ok (N.ltb x b)
  | None => match py with Py2 => Ok true | Py3 => Raise TypeError end
  end.

(** [a - b] on possibly-[None] integers. *)
Definition sub_opt (a b : option N) : result Z :=
  match a, b with
  | Some x, Some y => Ok (Z.of_N x - Z.of_N y)
  | _, _ => Raise TypeError
  end.

(** Truth value of an optional integer: [None] and [0] are false. *)
Definition truthy (a : option N) : bool :=
  match a with
  | Some x => negb (N.eqb x 0)
  | None => false
  end.

(** [a != b] on possibly-[None] integers. *)
Definition ne_opt (a b : option N) : bool :=
  match a, b with
  | Some x, Some y => negb (N.eqb x y)
  | None, None => false
  | _, _ => true
  end.

(** [sub in s] on strings. *)
Fixpoint contains (sub s : string) : bool :=
  String.prefix sub s ||
  match s with
  | EmptyString => false
  | String _ s' => contains sub s'
  end.

(** [s.split(sep)] for a one-character separator. *)
Fixpoint split_acc (sep : ascii) (cur : string) (s : string) : list string :=
  match s with
  | EmptyString => [cur]
  | String c s' =>
      if Ascii.eqb c sep then cur :: split_acc sep EmptyString s'
      else split_acc sep (cur ++ String c EmptyString) s'
  end.

Definition split (sep : ascii) (s : string) : list string :=
  split_acc sep EmptyString s.

(** [l[i]] on a list. *)
Definition index {A : Type} (l : list A) (i : nat) : result A :=
  match nth_error l i with
  | Some x => Ok x
  | None => Raise IndexError
  end.

(** [s.replace(c, by)] for a one-character pattern. *)
Fixpoint replace (c : ascii) (by_ : string) (s : string) : string :=
  match s with
  | EmptyString => EmptyString
  | String d s' =>
      (if Ascii.eqb d c then by_ else String d EmptyString) ++ replace c by_ s'
  end.

(** Decimal digits of a natural number, as [str(n)] prints them. *)
Definition str_of_N (n : N) : string :=
  NilZero.string_of_uint (N.to_uint n).

(** *** Floats

    [int / 1024.0 / 1024.0] first converts the integer to an IEEE
    binary64 value (nearest, ties to even; [OverflowError] when the
    result would not be finite) and then divides twice by a power of
    two, which is exact.  Such a float is represented by its numerator
    over [2^20]. *)

(** Nearest multiple of [2^k] to [a >= 0], ties to the even quotient. *)
Definition round_to_multiple (a k : Z) : Z :=
  let q := Z.shiftr a k in
  let r := a - Z.shiftl q k in
  let half := Z.shiftl 1 (k - 1) in
  let q' := if (half <? r) || ((r =? half) && Z.odd q) then q + 1 else q in
  Z.shiftl q' k.

Definition float_of_int (z : Z) : result Z :=
  let a := Z.abs z in
  let k := Z.log2 a - 52 in
  let m := if k <=? 0 then a else round_to_multiple a k in
  if 2 ^ 1024 <=? m then Raise OverflowError else Ok (Z.sgn z * m).

(** A float with numerator [num] over [2^20]. *)
Record mib_float : Type := MibFloat { num : Z }.

Definition div_1024_1024 (z : Z) : result mib_float :=
  match float_of_int z with
  | Ok m => Ok (MibFloat m)
  | Raise e => Raise e
  end.

(** [x > n] for an integer [n]. *)
Definition float_gt (x : mib_float) (n : Z) : bool :=
  n * 2 ^ 20 <? num x.

(** ['{:.2f}'.format(x)]: the exact value rounded to hundredths, ties
    to even, printed with two decimals. *)
Definition hundredths (a : Z) : Z :=
  let q := (a * 100) / 2 ^ 20 in
  let r := (a * 100) mod 2 ^ 20 in
  if (2 ^ 19 <? r) || ((r =? 2 ^ 19) && Z.odd q) then q + 1 else q.

Definition format_2f (x : mib_float) : string :=
  let h := hundredths (Z.abs (num x)) in
  (if num x <? 0 then "-" else "") ++
  str_of_N (Z.to_N (h / 100)) ++ "." ++
  str_of_N (Z.to_N ((h / 10) mod 10)) ++ str_of_N (Z.to_N (h mod 10)).

End Py.
Import Py.

(** ** Stateful computations that may raise

    A computation reads and updates a state of type [S] and ends with a
    value or a raised exception; the state survives a raise, as the
    mutations of a Python program do. *)

Definition M (S A : Type) : Type := S -> S * result A.

Definition ret {S A : Type} (a : A) : M S A := fun s => (s, Ok a).

Definition bind {S A B : Type} (m : M S A) (k : A -> M S B) : M S B :=
  fun s =>
    match m s with
    | (s', Ok a) => k a s'
    | (s', Raise e) => (s', Raise e)
    end.

Definition lift {S A : Type} (r : result A) : M S A := fun s => (s, r).

Definition throw {S A : Type} (e : exn) : M S A := fun s => (s, Raise e).

Definition when {S : Type} (b : bool) (m : M S unit) : M S unit :=
  if b then m else ret tt.

Declare Scope eval_scope.
Delimit Scope eval_scope with eval.
Notation "x <- m ;; k" := (bind m (fun x => k))
  (at level 100, m at next level, right associativity) : eval_scope.
Notation "m ;;; k" := (bind m (fun _ => k))
  (at level 100, right associativity) : eval_scope.
Open Scope eval_scope.

(** ** Data model *)

(** One entry of the primary's [replication] list. *)
Record replication_entry : Type := ReplicationEntry {
  client_addr : string;
  sync_state : string
}.

Record xlog_status : Type := Xlog {
  location : option N;
  replayed_location : option N
}.

(** The JSON answer of a node's agent, read with [.get]: every field may
    be missing.  The empty dictionary is [empty_raw_status]. *)
Record raw_status_t : Type := RawStatus {
  raw_state : option string;
  raw_timeline : option N;
  raw_xlog : option xlog_status;
  raw_replication : list replication_entry
}.

Definition empty_raw_status : raw_status_t :=
  RawStatus None None None [].

(** The node dictionary built by [_get_node_status].  [log_location] and
    [timeline] are read with [.get] and are [None] when the key was never
    set. *)
Record node : Type := Node {
  node_ip : option string;
  alive : bool;
  errors : list string;
  raw_status : raw_status_t;
  log_location : option N;
  state : string;
  timeline : option N;
  etcd_state : string
}.

Definition append_error (n : node) (e : string) : node :=
  Node (node_ip n) (alive n) (errors n ++ [e]) (raw_status n)
       (log_location n) (state n) (timeline n) (etcd_state n).

(** Status codes for listing nodes. *)
Definition HEALTHY : Z := 0.
Definition DEGRADED : Z := 1.
Definition DOWN : Z := 2.

(** ** Node status *)

(** What the two HTTP endpoints of a node answer: [None] stands for an
    unreachable node (the empty dictionary of [_get_raw_node_status]). *)
Record network : Type := Network {
  db_endpoint : string -> option raw_status_t;
  etcd_endpoint : string -> option string
}.

Definition _get_raw_node_status_DB (net : network) (address : option string)
  : option raw_status_t :=
  match address with
  | None => None
  | Some a => db_endpoint net a
  end.

Definition _get_raw_node_status_etcd (net : network) (address : option string)
  : option string :=
  match address with
  | None => None
  | Some a => etcd_endpoint net a
  end.

Definition xlog_get (x : option xlog_status) (f : xlog_status -> option N)
  : option N :=
  match x with
  | Some x => f x
  | None => None
  end.

Definition _get_node_status (net : network) (address : option string)
    (sync_replica master : bool) : node :=
  let status := _get_raw_node_status_DB net address in
  let etcd_status := _get_raw_node_status_etcd net address in
  let raw := match status with Some s => s | None => empty_raw_status end in
  let node0 := Node address false [] raw None "" None "" in
  let node1 :=
    match status with
    | Some status =>
        let xlog := raw_xlog status in
        let '(log, st) :=
          if master then (xlog_get xlog location, "leader")
          else if sync_replica then (xlog_get xlog replayed_location, "sync_replica")
          else (xlog_get xlog replayed_location, "async_replica") in
        let running :=
          match raw_state status with
          | Some s => String.eqb s "running"
          | None => false
          end in
        Node address running
             (if running then errors node0 else errors node0 ++ ["Node not running"])
             raw log st (raw_timeline status) ""
    | None =>
        Node address false (errors node0 ++ ["Could not retrieve DB status"])
             raw None "dead" None ""
    end in
  match etcd_status with
  | Some st =>
      Node (node_ip node1) (alive node1) (errors node1) (raw_status node1)
           (log_location node1) (state node1) (timeline node1) st
  | None =>
      Node (node_ip node1) (alive node1)
           (errors node1 ++ ["Could not retrieve etcd status"])
           (raw_status node1) (log_location node1) (state node1)
           (timeline node1) "dead"
  end.

Fixpoint sync_ips_of (master_replication : list replication_entry)
  : list string :=
  match master_replication with
  | [] => []
  | replica :: rest =>
      if String.eqb (sync_state replica) "sync"
      then client_addr replica :: sync_ips_of rest
      else sync_ips_of rest
  end.

Definition _get_sync_replicas (master_status : raw_status_t) : list string :=
  sync_ips_of (raw_replication master_status).

(** ** Quorum evaluation

    [_determine_cluster_status], without its log messages: the verdict,
    the errors appended to the nodes and the exceptions are kept. *)

(** The local variable [status] of [_determine_cluster_status], together
    with the record of every value assigned to it, oldest first. *)
Record eval_state : Type := EvalState {
  status : Z;
  assigned : list Z
}.

Definition Eval (A : Type) : Type := M eval_state A.

(** [status = max(status, level)] *)
Definition raise_status (level : Z) : Eval unit :=
  fun s =>
    let v := Z.max (status s) level in
    (EvalState v (assigned s ++ [v]), Ok tt).

Definition get_status : Eval Z := fun s => (s, Ok (status s)).

(** The counting loop over [db_nodes]: (followers, leaders). *)
Fixpoint etcd_count (db_nodes : list node) (acc : Z * Z) : Z * Z :=
  match db_nodes with
  | [] => acc
  | n :: rest =>
      let '(etcd_followers, etcd_leaders) := acc in
      if String.eqb (etcd_state n) "StateFollower"
      then etcd_count rest (etcd_followers + 1, etcd_leaders)
      else if String.eqb (etcd_state n) "StateLeader"
      then etcd_count rest (etcd_followers, etcd_leaders + 1)
      else etcd_count rest acc
  end.

Definition lag_message (lag_mb : mib_float) : string :=
  "Lag: " ++ format_2f lag_mb ++ "MiB".

(** The body of the loop over [replicas], for one replica. *)
Definition check_replica (py : interpreter)
    (master_log_location master_timeline : option N) (replica : node)
  : Eval node :=
  replica <-
    (if String.eqb (state replica) "sync_replica" then
       behind <- lift (match master_log_location with
                       | Some m =>
                           if truthy master_log_location
                           then lt_opt py (log_location replica) m
                           else Ok false
                       | None => Ok false
                       end) ;;
       if behind then
         let replica := append_error replica "Out of sync" in
         raise_status DOWN ;;; ret replica
       else ret replica
     else
       replica <-
         (if truthy master_timeline
             && ne_opt (timeline replica) master_timeline then
            let replica := append_error replica "Out of sync" in
            raise_status DEGRADED ;;; ret replica
          else ret replica) ;;
       lag_bytes <- lift (sub_opt master_log_location (log_location replica)) ;;
       lag_mb <- lift (div_1024_1024 lag_bytes) ;;
       if float_gt lag_mb 2
       then ret (append_error replica (lag_message lag_mb))
       else ret replica) ;;
  match raw_state (raw_status replica) with
  | Some s =>
      if String.eqb s "master"
      then ret (append_error replica "EXTRA MASTER")
      else ret replica
  | None => ret replica
  end.

Fixpoint check_replicas (py : interpreter)
    (master_log_location master_timeline : option N) (replicas : list node)
  : Eval (list node) :=
  match replicas with
  | [] => ret []
  | replica :: rest =>
      replica' <- check_replica py master_log_location master_timeline replica ;;
      rest' <- check_replicas py master_log_location master_timeline rest ;;
      ret (replica' :: rest')
  end.

(** The checks under the comment [# Master checks]. *)
Definition master_checks (master : node) (sync_ips : list string) : Eval unit :=
  when (negb (alive master)) (raise_status DOWN) ;;;
  when (match sync_ips with [] => true | _ => false end) (raise_status DOWN).

(** The checks under the comment [# Etcd checks], over the nodes that
    [db_nodes] holds at that point. *)
Definition etcd_checks (db_nodes replicas : list node)
    (majority_requirement : Z) : Eval unit :=
  let '(etcd_followers, etcd_leaders) := etcd_count db_nodes (0, 0) in
  when (negb (etcd_leaders =? 1)) (raise_status DOWN) ;;;
  if etcd_followers <? majority_requirement then raise_status DOWN
  else if etcd_followers <? Z.of_nat (List.length replicas)
  then raise_status DEGRADED
  else ret tt.

Definition determine_body (py : interpreter) (db_nodes : list node)
  : Eval (Z * list node) :=
  master <- lift (index db_nodes 0) ;;
  let replicas := tl db_nodes in
  let member_count := 1 + Z.of_nat (List.length replicas) in
  let majority_requirement := member_count / 2 in
  let master_log_location := xlog_get (raw_xlog (raw_status master)) location in
  let master_timeline := raw_timeline (raw_status master) in
  let sync_ips := _get_sync_replicas (raw_status master) in
  let unresolved := match node_ip master with None => true | Some _ => false end in
  when unresolved (raise_status DOWN) ;;;
  let db_nodes := if unresolved then replicas else db_nodes in
  master_checks master sync_ips ;;;
  etcd_checks db_nodes replicas majority_requirement ;;;
  replicas' <- check_replicas py master_log_location master_timeline replicas ;;
  status <- get_status ;;
  ret (status, if unresolved then replicas' else master :: replicas').

(** [status = self.HEALTHY] opens the evaluation. *)
Definition initial_state : eval_state := EvalState HEALTHY [HEALTHY].

Definition _determine_cluster_status (py : interpreter) (db_nodes : list node)
  : eval_state * result (Z * list node) :=
  determine_body py db_nodes initial_state.

(** ** The cluster as the component sees it *)

(** Entries of [config[SERVICES_TO_INSTALL]]. *)
Inductive service : Type :=
| DATABASE_SERVICE
| MANAGER_SERVICE
| OTHER_SERVICE (name : string).

Definition is_database (s : service) : bool :=
  match s with DATABASE_SERVICE => true | _ => false end.

Definition is_manager (s : service) : bool :=
  match s with MANAGER_SERVICE => true | _ => false end.

(** A row of the load balancer's server table ([backend['svname']],
    [backend['status']]). *)
Record backend : Type := Backend {
  svname : string;
  backend_status : string
}.

(** What one round of queries finds outside: the output of
    [etcdctl cluster-health], the dictionary of [_get_etcd_members] (member
    address to member id, in iteration order), the host that
    [master_finder] finds in the output of [patronictl dsn] if there is one,
    and the rows of [common.get_haproxy_servers]. *)
Record observation : Type := Observation {
  etcd_cluster_health : string;
  etcd_members : list (string * string);
  master_dsn : option string;
  haproxy_servers : list backend
}.

(** The JSON document under [/db/postgres/config]. *)
Record patroni_config : Type := PatroniConfig {
  pg_hba : list string;
  other_settings : list (string * string)
}.

(** What an operation does to the outside, in order.  [Observed] marks a
    round of queries; the commands are taken to succeed. *)
Inductive event : Type :=
| Observed
| LogInfo (msg : string)
| LogWarning (msg : string)
| Sudo (cmd : list string)
| EtcdMemberRemove (node_id : string)
| EtcdSetConfig (conf : patroni_config)
| Patronictl (cmd : list string)
| Sleep (seconds : Z).

(** The outside changes on its own between rounds of queries (a switchover
    completes, a node dies): [outside k] is what the [k]-th round finds. *)
Record world : Type := World {
  services_to_install : list service;
  outside : nat -> observation;
  observed : nat;
  dcs_conf : patroni_config;
  journal : list event
}.

Definition Op (A : Type) : Type := M world A.

Definition emit (e : event) : Op unit :=
  fun w =>
    (World (services_to_install w) (outside w) (observed w) (dcs_conf w)
           (journal w ++ [e]), Ok tt).

Definition observe : Op observation :=
  fun w =>
    (World (services_to_install w) (outside w) (S (observed w)) (dcs_conf w)
           (journal w ++ [Observed]), Ok (outside w (observed w))).

Definition installed (p : service -> bool) : Op bool :=
  fun w => (w, Ok (existsb p (services_to_install w))).

Definition _set_patroni_dcs_conf (conf : patroni_config) : Op unit :=
  fun w =>
    (World (services_to_install w) (outside w) (observed w) conf
           (journal w ++ [EtcdSetConfig conf]), Ok tt).

Definition _get_patroni_dcs_conf : Op patroni_config :=
  fun w => (w, Ok (dcs_conf w)).

Notation "' pat <- m ;; k" :=
  (bind m (fun x => match x with pat => k end))
  (at level 100, pat pattern, m at next level, right associativity)
  : eval_scope.

(** ** Topology resolution *)

(** [a == b] where [b] may be [None]. *)
Definition eq_opt (a : string) (b : option string) : bool :=
  match b with
  | Some b => String.eqb a b
  | None => false
  end.

Definition _get_patroni_id (ip : string) : string :=
  "pg" ++ replace "." "_" ip.

(** [backend['svname'].split('_')[1]] *)
Definition server_name (b : backend) : result string :=
  index (split "_" (svname b)) 1.

(** The loop over the load balancer's rows. *)
Fixpoint haproxy_loop (backends : list backend) (master : option string)
    (replicas : list string) : result (option string * list string) :=
  match backends with
  | [] => Ok (master, replicas)
  | backend :: rest =>
      match server_name backend with
      | Raise e => Raise e
      | Ok server_name =>
          if String.eqb (backend_status backend) "UP"
          then haproxy_loop rest (Some server_name) replicas
          else haproxy_loop rest master (replicas ++ [server_name])
      end
  end.

Definition etcd_not_responding : exn :=
  DBNodeListError
    ("Etcd is not responding on this node. " ++
     "Please retry this command on another DB cluster node.").

Definition role_unsupported : exn :=
  DBNodeListError "Can only list DB nodes from a manager or DB node.".

Definition _get_cluster_addresses : Op (option string * list string) :=
  database <- installed is_database ;;
  manager <- installed is_manager ;;
  if database then
    seen <- observe ;;
    if contains "cluster is unavailable" (etcd_cluster_health seen)
       || contains "failed to list members" (etcd_cluster_health seen)
    then throw etcd_not_responding
    else
      let nodes := map fst (etcd_members seen) in
      let master := master_dsn seen in
      ret (master, filter (fun node => negb (eq_opt node master)) nodes)
  else if manager then
    seen <- observe ;;
    lift (haproxy_loop (haproxy_servers seen) None [])
  else throw role_unsupported.

Definition get_cluster_status (py : interpreter) (net : network)
  : Op (Z * list node) :=
  ' (master_address, replica_addresses) <- _get_cluster_addresses ;;
  let master := _get_node_status net master_address false true in
  let replicas :=
    map (fun address =>
           _get_node_status net (Some address)
             (existsb (String.eqb address)
                      (_get_sync_replicas (raw_status master)))
             false)
        replica_addresses in
  let db_nodes := master :: replicas in
  lift (snd (_determine_cluster_status py db_nodes)).

(** ** Membership operations *)

Definition HAPROXY_NODE_ENTRY (addr : string) : string :=
  "    server postgresql_" ++ addr ++ "_5432 " ++ addr ++ ":5432 " ++
  "maxconn 100 check check-ssl port 8008 ca-file /etc/haproxy/ca.crt".

Definition _restart_manager_db_dependent_services : Op unit :=
  emit (LogInfo "Restarting DB proxy service.") ;;;
  emit (Sudo ["systemctl"; "restart"; "haproxy"]) ;;;
  emit (LogInfo "Restarting DB-dependent services.") ;;;
  emit (Sudo ["systemctl"; "restart"; "cloudify-amqp-postgres"]) ;;;
  emit (Sudo ["systemctl"; "restart"; "cloudify-restservice"]).

(** The errors of [remove_cluster_node], under the names the
    specification gives them. *)
Definition LastReplica : exn :=
  DBManagementError
    ("The last replica cannot be removed. A new replica must be " ++
     "added before removing the target node.").

Definition CannotRemovePrimary : exn :=
  DBManagementError
    ("The currently active DB master node cannot be removed. " ++
     "Please set the master to a different node before retrying " ++
     "this command.").

Definition MemberNotFound (addr : string) : exn :=
  DBManagementError
    ("Cannot find node with address " ++ addr ++ " for removal.").

(** [pg_hba[:0] = [...]]: the two entries of a node, put in front. *)
Definition _add_node_to_pg_hba (pg_hba : list string) (node : string)
  : list string :=
  ["hostssl all postgres " ++ node ++ "/32 md5";
   "hostssl replication replicator " ++ node ++ "/32 md5"] ++ pg_hba.

(** [d.get(key)] on the member dictionary. *)
Fixpoint dict_get (key : string) (d : list (string * string)) : option string :=
  match d with
  | [] => None
  | (k, v) :: rest => if String.eqb key k then Some v else dict_get key rest
  end.

Definition remove_cluster_node (address : string) : Op unit :=
  ' (master, replicas) <- _get_cluster_addresses ;;
  if (List.length replicas <? 2)%nat then throw LastReplica
  else if eq_opt address master then throw CannotRemovePrimary
  else
    database <- installed is_database ;;
    if database then
      seen <- observe ;;
      let node_id := dict_get address (etcd_members seen) in
      match node_id with
      | None => throw (MemberNotFound address)
      | Some EmptyString => throw (MemberNotFound address)
      | Some node_id =>
          emit (LogInfo ("Removing etcd node " ++ address)) ;;;
          emit (EtcdMemberRemove node_id) ;;;
          emit (LogInfo ("Updating pg_hba to remove " ++ address)) ;;;
          patroni_config <- _get_patroni_dcs_conf ;;
          let exclusion_string := " " ++ address ++ "/32 " in
          let patroni_config :=
            PatroniConfig
              (filter (fun entry => negb (contains exclusion_string entry))
                      (pg_hba patroni_config))
              (other_settings patroni_config) in
          _set_patroni_dcs_conf patroni_config ;;;
          emit (LogInfo ("Node " ++ address ++ " removed."))
      end
    else
      emit (LogInfo "Updating DB proxy configuration.") ;;;
      let entry := replace "/" "\/" (HAPROXY_NODE_ENTRY address) in
      emit (Sudo ["sed"; "-i"; "/" ++ entry ++ "/d"; "/etc/haproxy/haproxy.cfg"]) ;;;
      _restart_manager_db_dependent_services.

Definition AlreadyPrimary : exn :=
  DBManagementError "The selected node is the current master.".

Definition NotAMember (addr : string) : exn :=
  DBManagementError
    ("Cannot make DB node " ++ addr ++ " master, as it is " ++
     "not part of the cluster.").

Definition WrongRole : exn :=
  DBManagementError "Set master can only be run from a DB node.".

(** [str(x)] for an address that may be [None]. *)
Definition str_opt (a : option string) : string :=
  match a with
  | Some a => a
  | None => "None"
  end.

Definition waiting_message (addr : string) (master : option string) : string :=
  "Waiting for master to change to " ++ addr ++ ". " ++
  "Current master is " ++ str_opt master ++ ".".

Definition changed_message (addr : string) : string :=
  "Master changed to " ++ addr.

Definition not_changed_message (addr : string) (master : option string)
  : string :=
  "Master has not changed to " ++ addr ++ ". " ++
  "Master is currently " ++ str_opt master ++ ". " ++
  "This may indicate the master changed to the specified " ++
  "node and then changed again, or that the change did not " ++
  "occur. Please check cluster health before retrying this " ++
  "operation.".

(** [for i in range(n)]: the polling loop of [set_master]; it has no
    [break]. *)
Fixpoint wait_for_master (address : string) (n : nat) (master : option string)
  : Op (option string) :=
  match n with
  | O => ret master
  | S n' =>
      ' (master, _) <- _get_cluster_addresses ;;
      (if negb (eq_opt address master) then
         emit (LogInfo (waiting_message address master)) ;;;
         emit (Sleep 1)
       else ret tt) ;;;
      wait_for_master address n' master
  end.

Definition set_master (address : string) : Op unit :=
  ' (master, replicas) <- _get_cluster_addresses ;;
  if eq_opt address master then throw AlreadyPrimary
  else if negb (existsb (fun member => eq_opt address member)
                        (master :: map Some replicas))
  then throw (NotAMember address)
  else
    database <- installed is_database ;;
    if database then
      emit (LogInfo ("Changing master to " ++ address)) ;;;
      emit (Patronictl ["switchover"; "--force"; "--candidate";
                        _get_patroni_id address]) ;;;
      master <- wait_for_master address 30 master ;;
      if eq_opt address master
      then emit (LogInfo (changed_message address))
      else emit (LogWarning (not_changed_message address master))
    else throw WrongRole.

(** * Vocabulary of the properties

    Predicates, updates of the state and sample clusters used to state
    and to exercise the properties below. *)

(** What holds of the evaluation state at every point: the assigned
    values never decrease, the first is [HEALTHY], the last is the current
    [status], and none exceeds [DOWN]. *)
Record consistent (s : eval_state) : Prop := Consistent {
  history_sorted : StronglySorted Z.le (assigned s);
  history_below : Forall (fun v => HEALTHY <= v <= status s) (assigned s);
  history_last : exists earlier : list Z, assigned s = (earlier ++ [status s])%list;
  history_first : exists later : list Z, assigned s = HEALTHY :: later;
  status_bounded : status s <= DOWN
}.

(** A computation keeps the state consistent and does not lower
    [status]. *)
Definition keeps {A : Type} (m : Eval A) : Prop :=
  forall s, consistent s ->
            consistent (fst (m s)) /\ status s <= status (fst (m s)).

(** Updates of the world, for stating what an operation leaves behind. *)
Definition after (w : world) (rounds : nat) (conf : patroni_config)
    (events : list event) : world :=
  World (services_to_install w) (outside w) (rounds + observed w) conf
        (journal w ++ events).

(** Rows paired with the address their name encodes. *)
Definition parsed (row : backend * string) : Prop :=
  server_name (fst row) = Ok (snd row).

Definition is_up (row : backend * string) : bool :=
  String.eqb (backend_status (fst row)) "UP".

Definition down_addresses (rows : list (backend * string)) : list string :=
  map snd (filter (fun row => negb (is_up row)) rows).

Fixpoint last_up (rows : list (backend * string)) (master : option string)
  : option string :=
  match rows with
  | [] => master
  | row :: rest => last_up rest (if is_up row then Some (snd row) else master)
  end.

Definition proxy_example : world :=
  World [MANAGER_SERVICE]
        (fun _ => Observation "" [] None
                    [Backend "postgresql_192.0.2.1_5432" "UP";
                     Backend "postgresql_192.0.2.2_5432" "DOWN";
                     Backend "postgresql_192.0.2.3_5432" "UP"])
        0 (PatroniConfig [] []) [].

Definition one_replica_example : world :=
  World [DATABASE_SERVICE]
        (fun _ => Observation "cluster is healthy"
                    [("192.0.2.1", "8e9e05c52164694d");
                     ("192.0.2.2", "91bc3c398fb3c146")]
                    (Some "192.0.2.1") [])
        0 (PatroniConfig [] []) [].

Definition two_replicas_example : world :=
  World [DATABASE_SERVICE]
        (fun _ => Observation "cluster is healthy"
                    [("192.0.2.1", "8e9e05c52164694d");
                     ("192.0.2.2", "91bc3c398fb3c146");
                     ("192.0.2.3", "fd422379fda50e48")]
                    (Some "192.0.2.1") [])
        0 (PatroniConfig [] []) [].

(** What the access-control rewrite of [remove_cluster_node] looks for
    in an entry. *)
Definition references (address entry : string) : bool :=
  contains (" " ++ address ++ "/32 ") entry.

Definition access_list_example : world :=
  World [DATABASE_SERVICE]
        (fun _ => Observation "cluster is healthy"
                    [("192.0.2.1", "8e9e05c52164694d");
                     ("192.0.2.2", "91bc3c398fb3c146");
                     ("192.0.2.3", "fd422379fda50e48")]
                    (Some "192.0.2.1") [])
        0
        (PatroniConfig
           (_add_node_to_pg_hba
              (_add_node_to_pg_hba
                 ["hostssl replication replicator 127.0.0.1/32 md5";
                  "hostssl all all 0.0.0.0/0 md5"]
                 "192.0.2.2")
              "192.0.2.3")
           [("loop_wait", "1")])
        [].

(** A round of queries that finds etcd answering. *)
Definition answering (seen : observation) : Prop :=
  contains "cluster is unavailable" (etcd_cluster_health seen) = false
  /\ contains "failed to list members" (etcd_cluster_health seen) = false.

(** One round of the polling loop that does not find the candidate. *)
Definition waiting_round (address : string) (w : world) (k : nat)
  : list event :=
  [Observed;
   LogInfo (waiting_message address (master_dsn (outside w k)));
   Sleep 1].

Definition is_poll (e : event) : bool :=
  match e with Observed => true | _ => false end.

Definition is_sleep (e : event) : bool :=
  match e with Sleep _ => true | _ => false end.

Definition switchover_example : world :=
  World [DATABASE_SERVICE]
        (fun k => Observation "cluster is healthy"
                    [("192.0.2.1", "8e9e05c52164694d");
                     ("192.0.2.2", "91bc3c398fb3c146");
                     ("192.0.2.3", "fd422379fda50e48")]
                    (Some (if (k <? 10)%nat then "192.0.2.1" else "192.0.2.2"))
                    [])
        0 (PatroniConfig [] []) [].

(** A node with further errors appended to its list. *)
Definition with_errors (n : node) (es : list string) : node :=
  Node (node_ip n) (alive n) (errors n ++ es) (raw_status n)
       (log_location n) (state n) (timeline n) (etcd_state n).

(** What the split-brain test at the end of the loop body appends. *)
Definition extra_master (replica : node) : list string :=
  match raw_state (raw_status replica) with
  | Some s => if String.eqb s "master" then ["EXTRA MASTER"] else []
  | None => []
  end.


(** A check that always runs to its end. *)
Definition runs (m : Eval unit) : Prop :=
  forall s, exists s1, m s = (s1, Ok tt).

(** The loop over the replicas and the [return]. *)
Definition conclude (py : interpreter) (master : node) (replicas : list node)
  : Eval (Z * list node) :=
  replicas' <- check_replicas py
                 (xlog_get (raw_xlog (raw_status master)) location)
                 (raw_timeline (raw_status master)) replicas ;;
  status <- get_status ;;
  ret (status,
       match node_ip master with
       | None => replicas'
       | Some _ => master :: replicas'
       end).

(** A cluster of three for the examples: the primary 192.0.2.1 at log
    position [m] on timeline 1, reporting 192.0.2.2 as synchronous. *)
Definition primary_at (m : N) : node :=
  Node (Some "192.0.2.1") true []
       (RawStatus (Some "running") (Some 1%N) (Some (Xlog (Some m) None))
                  [ReplicationEntry "192.0.2.2" "sync";
                   ReplicationEntry "192.0.2.3" "async"])
       (Some m) "leader" (Some 1%N) "StateLeader".

Definition sync_replica_at (l : N) : node :=
  Node (Some "192.0.2.2") true []
       (RawStatus (Some "running") (Some 1%N) (Some (Xlog None (Some l))) [])
       (Some l) "sync_replica" (Some 1%N) "StateFollower".

Definition async_replica_at (l tl : N) : node :=
  Node (Some "192.0.2.3") true []
       (RawStatus (Some "running") (Some tl) (Some (Xlog None (Some l))) [])
       (Some l) "async_replica" (Some tl) "StateFollower".

(** A replica whose agent does not answer while its etcd does. *)
Definition silent_replica : node :=
  Node (Some "192.0.2.3") false ["Could not retrieve DB status"]
       empty_raw_status None "dead" None "StateFollower".

Definition unresolved_example : world :=
  World [DATABASE_SERVICE]
        (fun _ => Observation "cluster is healthy"
                    [("192.0.2.1", "8e9e05c52164694d");
                     ("192.0.2.2", "91bc3c398fb3c146");
                     ("192.0.2.3", "fd422379fda50e48")]
                    None [])
        0 (PatroniConfig [] []) [].

(** Every agent answers as a running replica at position 4096, every
    etcd member as a follower. *)
Definition all_replicas : network :=
  Network (fun _ => Some (RawStatus (Some "running") (Some 1%N)
                                    (Some (Xlog None (Some 4096%N))) []))
          (fun _ => Some "StateFollower").

(** The same replica, had it replayed everything up to position [m]. *)
Definition caught_up (r : node) (m : N) : node :=
  Node (node_ip r) (alive r) (errors r) (raw_status r) (Some m) (state r)
       (timeline r) (etcd_state r).

(** The verdict of an evaluation, or the exception it raised. *)
Definition verdict_of (r : result (Z * list node)) : result Z :=
  match r with
  | Ok (st, _) => Ok st
  | Raise e => Raise e
  end.

(** Where a computation stops and whether it raised. *)
Definition outcome {A : Type} (x : eval_state * result A)
  : eval_state * option exn :=
  (fst x, match snd x with Ok _ => None | Raise e => Some e end).

(** The checks before the loop over the replicas. *)
Definition upto_replicas (master : node) (replicas : list node) : Eval unit :=
  let unresolved :=
    match node_ip master with None => true | Some _ => false end in
  when unresolved (raise_status DOWN) ;;;
  master_checks master (_get_sync_replicas (raw_status master)) ;;;
  etcd_checks (if unresolved then replicas else master :: replicas) replicas
              ((1 + Z.of_nat (List.length replicas)) / 2).

(** * Further operations of the component *)

(** [common.sudo(cmd, stdin=...)]: the journal keeps the input after the
    words of the command, behind the marker [<<<]. *)
Definition sudo_stdin (cmd : list string) (stdin : string) : Op unit :=
  emit (Sudo (cmd ++ ["<<<"; stdin])).

(** The errors of [add_cluster_node]. *)
Definition AddOnDatabaseNode : exn :=
  DBManagementError
    ("Database cluster nodes should be added to the cluster " ++
     "during install, by setting the appropriate entries in the " ++
     "config.yaml.").

Definition AlreadyMember (addr : string) : exn :=
  DBManagementError
    ("Cannot add DB node " ++ addr ++ " to cluster, as it is already " ++
     "part of the cluster.").

Definition NodeNotResponding (address : string) : exn :=
  DBManagementError
    ("DB cluster node " ++ address ++ " does not appear to be " ++
     "operational. Please ensure DB cluster management " ++
     "software is installed and running before trying to " ++
     "add the node.").

(** [address in [master] + replicas] *)
Definition is_member (address : string) (master : option string)
    (replicas : list string) : bool :=
  existsb (fun member => eq_opt address member) (master :: map Some replicas).

(** [add_cluster_node], its commands taken to succeed; the warning that
    [_get_raw_node_status] logs for an agent it cannot reach is not
    recorded in the journal. *)
Definition add_cluster_node (net : network) (address : string) : Op unit :=
  database <- installed is_database ;;
  if database then throw AddOnDatabaseNode
  else
    ' (master, replicas) <- _get_cluster_addresses ;;
    if is_member address master replicas then throw (AlreadyMember address)
    else
      match _get_raw_node_status_DB net (Some address) with
      | None => throw (NodeNotResponding address)
      | Some _ =>
          emit (LogInfo "Updating DB proxy configuration.") ;;;
          sudo_stdin ["tee"; "-a"; "/etc/haproxy/haproxy.cfg"]
                     (HAPROXY_NODE_ENTRY address ++ String "010" EmptyString) ;;;
          _restart_manager_db_dependent_services
      end.

(** The errors of [reinit_cluster_node]. *)
Definition CannotReinitPrimary : exn :=
  DBManagementError
    "The currently active DB master node cannot be reinitialised.".

Definition ReinitNotAMember (addr : string) : exn :=
  DBManagementError
    ("Cannot reinitialise DB node " ++ addr ++ ", as it is " ++
     "not part of the cluster.").

Definition ReinitWrongRole : exn :=
  DBManagementError "Reinitialise can only be run from a DB node.".

(** [reinit_cluster_node], its command taken to succeed. *)
Definition reinit_cluster_node (address : string) : Op unit :=
  ' (master, replicas) <- _get_cluster_addresses ;;
  if eq_opt address master then throw CannotReinitPrimary
  else if negb (is_member address master replicas)
  then throw (ReinitNotAMember address)
  else
    database <- installed is_database ;;
    if database then
      emit (LogInfo ("Reinitialising DB node " ++ address)) ;;;
      emit (Patronictl ["reinit"; "--force"; "postgres";
                        _get_patroni_id address]) ;;;
      emit (LogInfo ("DB node " ++ address ++ " reinitialised."))
    else throw ReinitWrongRole.

Definition _get_etcd_id (ip : string) : string :=
  "etcd" ++ replace "." "_" ip.

(** The [pg_hba] list that [_create_patroni_config] puts under
    [bootstrap.dcs.postgresql]: the two default entries, then the entries
    of every node of [config[POSTGRESQL_SERVER]['cluster']['nodes']], each
    put in front in turn. *)
Definition bootstrap_pg_hba (ssl_client_verification : bool)
    (nodes : list string) : list string :=
  fold_left _add_node_to_pg_hba nodes
    ["hostssl replication replicator 127.0.0.1/32 md5";
     "hostssl all all 0.0.0.0/0 md5" ++
     (if ssl_client_verification then " clientcert=1" else "")].

(** The step of [_configure_cluster] that runs when etcd requires
    authentication (lines 441-451): the node joins the access-control list
    of the stored configuration unless an entry references it already. *)
Definition join_access_list (node_ip : string) : Op unit :=
  patroni_conf <- _get_patroni_dcs_conf ;;
  if negb (existsb (fun entry => contains (" " ++ node_ip ++ "/32 ") entry)
                   (pg_hba patroni_conf))
  then _set_patroni_dcs_conf
         (PatroniConfig (_add_node_to_pg_hba (pg_hba patroni_conf) node_ip)
                        (other_settings patroni_conf))
  else ret tt.

(** ** Vocabulary of the further properties *)


(** No character [c] in [s]. *)
Fixpoint lacks (c : ascii) (s : string) : bool :=
  match s with
  | EmptyString => true
  | String d s' => negb (Ascii.eqb d c) && lacks c s'
  end.

(** An address as the access-control entries expect it: no space and no
    slash in it. *)
Definition plain_address (a : string) : Prop :=
  lacks " " a = true /\ lacks "/" a = true.

(** Two nodes that differ at most in what their agent answered raw and
    in the errors recorded so far. *)
Definition same_report (r r0 : node) : Prop :=
  node_ip r = node_ip r0 /\ alive r = alive r0
  /\ log_location r = log_location r0 /\ state r = state r0
  /\ timeline r = timeline r0 /\ etcd_state r = etcd_state r0.

(** A node as the evaluation may return it: the same node, with errors
    appended. *)
Definition annotated (r r' : node) : Prop :=
  exists es, r' = with_errors r es.

(** The world that a run of queries alone leaves behind: [n] rounds
    observed, the stored configuration as it was, no command issued. *)
Definition only_queried (w w' : world) : Prop :=
  exists n, w' = after w n (dcs_conf w) (repeat Observed n).

(** The node list that [get_cluster_status] builds from the resolved
    addresses. *)
Definition probed (net : network) (master_address : option string)
    (replica_addresses : list string) : list node :=
  let master := _get_node_status net master_address false true in
  master ::
  map (fun address =>
         _get_node_status net (Some address)
           (existsb (String.eqb address)
                    (_get_sync_replicas (raw_status master)))
           false)
      replica_addresses.

(** ** The verdict in closed form *)

(** A synchronous replica that the loop finds behind the primary. *)
Definition behind (py : interpreter) (master_log_location : option N)
    (replica : node) : bool :=
  String.eqb (state replica) "sync_replica" &&
  match master_log_location with
  | Some m =>
      truthy master_log_location &&
      match lt_opt py (log_location replica) m with
      | Ok b => b
      | Raise _ => false
      end
  | None => false
  end.

(** A replica that is not synchronous and not on the primary's timeline. *)
Definition off_timeline (master_timeline : option N) (replica : node) : bool :=
  negb (String.eqb (state replica) "sync_replica") &&
  (truthy master_timeline && ne_opt (timeline replica) master_timeline).

(** What makes a cluster [DOWN]: no primary address, the primary not
    alive, no synchronous replica reported by the primary, a number of etcd
    leaders other than one, fewer etcd followers than half the members,
    a synchronous replica behind the primary. *)
Definition down_cause (py : interpreter) (master : node)
    (replicas : list node) : bool :=
  let followers := fst (etcd_count (master :: replicas) (0, 0)) in
  let leaders := snd (etcd_count (master :: replicas) (0, 0)) in
  (match node_ip master with None => true | Some _ => false end
   || negb (alive master)
   || match _get_sync_replicas (raw_status master) with
      | [] => true
      | _ => false
      end
   || negb (leaders =? 1)
   || (followers <? (1 + Z.of_nat (List.length replicas)) / 2))
  || existsb (behind py (xlog_get (raw_xlog (raw_status master)) location))
             replicas.

(** What makes it [DEGRADED] when nothing makes it [DOWN]: fewer etcd
    followers than replicas, a replica on another timeline. *)
Definition degraded_cause (master : node) (replicas : list node) : bool :=
  (fst (etcd_count (master :: replicas) (0, 0))
   <? Z.of_nat (List.length replicas))
  || existsb (off_timeline (raw_timeline (raw_status master))) replicas.

Definition verdict_table (py : interpreter) (master : node)
    (replicas : list node) : Z :=
  if down_cause py master replicas then DOWN
  else if degraded_cause master replicas then DEGRADED
  else HEALTHY.

(** Log positions that can be compared and subtracted: the primary and
    every replica report one, below [2^64]. *)
Definition measurable (master : node) (replicas : list node) : Prop :=
  (exists m, xlog_get (raw_xlog (raw_status master)) location = Some m
             /\ (m < 2 ^ 64)%N)
  /\ Forall (fun r => exists l, log_location r = Some l /\ (l < 2 ^ 64)%N)
            replicas.

(** A server table with a row whose name holds no underscore. *)
Definition proxy_bad_row_example : world :=
  World [MANAGER_SERVICE]
        (fun _ => Observation "" [] None
                    [Backend "postgresql_192.0.2.1_5432" "UP";
                     Backend "BACKEND" "UP"])
        0 (PatroniConfig [] []) [].

(** A server table without a row that is UP. *)
Definition proxy_all_down_example : world :=
  World [MANAGER_SERVICE]
        (fun _ => Observation "" [] None
                    [Backend "postgresql_192.0.2.1_5432" "DOWN";
                     Backend "postgresql_192.0.2.2_5432" "MAINT"])
        0 (PatroniConfig [] []) [].

(** What [_restart_manager_db_dependent_services] leaves in the journal. *)
Definition restart_events : list event :=
  [LogInfo "Restarting DB proxy service.";
   Sudo ["systemctl"; "restart"; "haproxy"];
   LogInfo "Restarting DB-dependent services.";
   Sudo ["systemctl"; "restart"; "cloudify-amqp-postgres"];
   Sudo ["systemctl"; "restart"; "cloudify-restservice"]].



(** ** Access-control entries as lines of words *)

(** [' '.join(ws)] *)
Fixpoint join_words (ws : list string) : string :=
  match ws with
  | [] => ""
  | w :: rest =>
      match rest with
      | [] => w
      | _ :: _ => w ++ " " ++ join_words rest
      end
  end.

(** The words of a line between its first and its last. *)
Definition inner_words (ws : list string) : list string :=
  removelast (List.tl ws).

(** ** Clusters whose agents do not all answer *)

(** The agents of the three-node examples: the primary 192.0.2.1 answers
    at position [m]; [second] and [third] are what the agents of 192.0.2.2
    and 192.0.2.3 answer, if they do.  Every etcd member answers, 192.0.2.1
    as the leader. *)
Definition agents_example (m : N) (second third : option raw_status_t)
  : network :=
  Network (fun a => if String.eqb a "192.0.2.1"
                    then Some (raw_status (primary_at m))
                    else if String.eqb a "192.0.2.2" then second
                    else if String.eqb a "192.0.2.3" then third
                    else None)
          (fun a => Some (if String.eqb a "192.0.2.1" then "StateLeader"
                          else "StateFollower")).

(** The node 192.0.2.2 as [_get_node_status] reports it when its agent
    does not answer while its etcd does. *)
Definition silent_sync_replica : node :=
  Node (Some "192.0.2.2") false ["Could not retrieve DB status"]
       empty_raw_status None "dead" None "StateFollower".

(** A server table in which the address of an "UP" row comes again in a
    row that is not "UP". *)
Definition proxy_repeated_example : world :=
  World [MANAGER_SERVICE]
        (fun _ => Observation "" [] None
                    [Backend "postgresql_192.0.2.1_5432" "UP";
                     Backend "postgresql_192.0.2.1_5432" "DOWN";
                     Backend "postgresql_192.0.2.3_5432" "UP"])
        0 (PatroniConfig [] []) [].

(** The events that are commands, as opposed to queries and log lines. *)
Definition is_command (e : event) : bool :=
  match e with
  | Sudo _ | EtcdMemberRemove _ | EtcdSetConfig _ | Patronictl _ => true
  | Observed | LogInfo _ | LogWarning _ | Sleep _ => false
  end.

(** * Properties *)

(** ** Laws of the computations *)

Lemma bind_ok {S A B : Type} (m : M S A) (k : A -> M S B) s s' a :
  m s = (s', Ok a) -> bind m k s = k a s'.
Proof. intros H. unfold bind. now rewrite H. Qed.

Lemma bind_raise {S A B : Type} (m : M S A) (k : A -> M S B) s s' e :
  m s = (s', Raise e) -> bind m k s = (s', Raise e).
Proof. intros H. unfold bind. now rewrite H. Qed.

Lemma bind_ok_inv {S A B : Type} (m : M S A) (k : A -> M S B) s s' b :
  bind m k s = (s', Ok b) ->
  exists s1 a, m s = (s1, Ok a) /\ k a s1 = (s', Ok b).
Proof.
  unfold bind. destruct (m s) as [s1 [a | e]]; intros H.
  - now exists s1, a.
  - discriminate.
Qed.

(** ** The history of [status] *)

Lemma sorted_snoc (l : list Z) (x : Z) :
  StronglySorted Z.le l -> Forall (fun v => v <= x) l ->
  StronglySorted Z.le (l ++ [x]).
Proof.
  induction 1 as [| a l Hs IH Ha]; intros Hx; simpl.
  - repeat constructor.
  - inversion Hx; subst. constructor.
    + now apply IH.
    + apply Forall_app. split; [assumption | now constructor].
Qed.

Lemma initial_consistent : consistent initial_state.
Proof.
  constructor; simpl.
  - repeat constructor.
  - repeat constructor; unfold HEALTHY; lia.
  - now exists [].
  - now exists [].
  - unfold HEALTHY, DOWN; lia.
Qed.

Lemma keeps_ret {A : Type} (a : A) : keeps (ret a).
Proof. intros s H. split; [exact H | apply Z.le_refl]. Qed.

Lemma keeps_lift {A : Type} (r : result A) : keeps (lift r).
Proof. intros s H. split; [exact H | apply Z.le_refl]. Qed.

Lemma keeps_get_status : keeps get_status.
Proof. intros s H. split; [exact H | apply Z.le_refl]. Qed.

Lemma keeps_bind {A B : Type} (m : Eval A) (k : A -> Eval B) :
  keeps m -> (forall a, keeps (k a)) -> keeps (bind m k).
Proof.
  intros Hm Hk s H. unfold bind. destruct (Hm s H) as [Hc Hle].
  destruct (m s) as [s1 [a | e]]; simpl in *.
  - destruct (Hk a s1 Hc) as [Hc' Hle']. split; [exact Hc' | lia].
  - now split.
Qed.

Lemma keeps_raise_status (level : Z) :
  HEALTHY <= level <= DOWN -> keeps (raise_status level).
Proof.
  intros Hl s [Hs Hb [earlier Hlast] [later Hfirst] Hd].
  unfold raise_status; split; [| cbn [status fst]; lia].
  constructor; unfold HEALTHY, DOWN in *; cbn [status assigned fst].
  - apply sorted_snoc; [assumption |].
    eapply Forall_impl; [| exact Hb]. intros v Hv; cbn beta in *; lia.
  - apply Forall_app. split.
    + eapply Forall_impl; [| exact Hb]. intros v Hv; cbn beta in *; lia.
    + repeat constructor; lia.
  - now exists (assigned s).
  - exists (later ++ [Z.max (status s) level])%list. now rewrite Hfirst.
  - lia.
Qed.

Lemma keeps_when (b : bool) (m : Eval unit) : keeps m -> keeps (when b m).
Proof. destruct b; simpl; [trivial | intros _; apply keeps_ret]. Qed.

Lemma down_in_range : HEALTHY <= DOWN <= DOWN.
Proof. unfold HEALTHY, DOWN; lia. Qed.

Lemma degraded_in_range : HEALTHY <= DEGRADED <= DOWN.
Proof. unfold HEALTHY, DEGRADED, DOWN; lia. Qed.

Create HintDb keeps_db.
#[local] Hint Resolve keeps_ret keeps_lift keeps_get_status keeps_raise_status
  keeps_when down_in_range degraded_in_range : keeps_db.

(** Peels the binds and the branches of a computation. *)
Ltac keeps_step :=
  match goal with
  | |- keeps (bind _ _) => apply keeps_bind; [| intros ?]
  | |- keeps (if ?b then _ else _) => destruct b
  | |- keeps (match ?x with _ => _ end) => destruct x
  | |- keeps _ => solve [auto with keeps_db]
  | |- keeps _ => assumption
  end.

Lemma keeps_check_replica py mlog mtl replica :
  keeps (check_replica py mlog mtl replica).
Proof. unfold check_replica. repeat keeps_step. Qed.

#[local] Hint Resolve keeps_check_replica : keeps_db.

Lemma keeps_check_replicas py mlog mtl replicas :
  keeps (check_replicas py mlog mtl replicas).
Proof.
  induction replicas as [| r rest IH]; simpl.
  - apply keeps_ret.
  - repeat keeps_step.
Qed.

#[local] Hint Resolve keeps_check_replicas : keeps_db.

Lemma keeps_master_checks master sync_ips :
  keeps (master_checks master sync_ips).
Proof. unfold master_checks. repeat keeps_step. Qed.

Lemma keeps_etcd_checks db_nodes replicas majority :
  keeps (etcd_checks db_nodes replicas majority).
Proof. unfold etcd_checks. repeat keeps_step. Qed.

#[local] Hint Resolve keeps_master_checks keeps_etcd_checks : keeps_db.

Lemma keeps_determine_body py db_nodes : keeps (determine_body py db_nodes).
Proof.
  unfold determine_body.
  repeat keeps_step.
Qed.

(** The verdict returned is the last value assigned to [status]. *)
Lemma determine_returns_status py db_nodes s s' st nodes :
  determine_body py db_nodes s = (s', Ok (st, nodes)) -> st = status s'.
Proof.
  unfold determine_body. intros H.
  repeat match type of H with
         | bind _ _ _ = (_, Ok _) =>
             let Hm := fresh "Hm" in
             apply bind_ok_inv in H; destruct H as (? & ? & Hm & H)
         | (let '(_, _) := ?p in _) _ = _ => destruct p
         end.
  match goal with
  | Hg : get_status _ = _ |- _ => unfold get_status in Hg; inversion Hg; subst
  end.
  unfold ret in H. now inversion H.
Qed.

Lemma sorted_after (l : list Z) :
  StronglySorted Z.le l ->
  forall before v later, l = (before ++ v :: later)%list ->
  Forall (fun w => v <= w) later.
Proof.
  intros Hs before. revert l Hs.
  induction before as [| b before IH]; intros l Hs v later ->; simpl in Hs.
  - now inversion Hs.
  - inversion Hs; subst. now apply (IH _ H1).
Qed.

(** C1. For every node list (and on either interpreter), the values
    assigned to [status] during one evaluation, in the order of the checks,
    start at [HEALTHY] and never decrease: every later value is at least
    every earlier one, all lie between [HEALTHY] and [DOWN], so once a check
    has raised the status to [DOWN] every later value is [DOWN]; and the
    verdict returned is the last of these values. *)
Theorem status_monotonic :
  forall (py : interpreter) (db_nodes : list node),
    let final := fst (_determine_cluster_status py db_nodes) in
    StronglySorted Z.le (assigned final)
    /\ (exists later : list Z, assigned final = HEALTHY :: later)
    /\ Forall (fun v => v = HEALTHY \/ v = DEGRADED \/ v = DOWN) (assigned final)
    /\ (forall (before : list Z) (v : Z) (later : list Z),
           assigned final = (before ++ v :: later)%list ->
           Forall (fun w => v <= w) later
           /\ (v = DOWN -> Forall (fun w => w = DOWN) later))
    /\ (forall st nodes,
           snd (_determine_cluster_status py db_nodes) = Ok (st, nodes) ->
           exists earlier : list Z, assigned final = (earlier ++ [st])%list).
Proof.
  intros py db_nodes final.
  assert (Hc : consistent final)
    by (apply keeps_determine_body, initial_consistent).
  destruct Hc as [Hs Hb [earlier Hlast] Hfirst Hd].
  assert (Hrange : Forall (fun v => HEALTHY <= v <= DOWN) (assigned final)).
  { eapply Forall_impl; [| exact Hb]. intros v Hv; cbn beta in *; lia. }
  split; [exact Hs | split; [exact Hfirst | split; [| split]]].
  - eapply Forall_impl; [| exact Hrange].
    unfold HEALTHY, DEGRADED, DOWN; intros v Hv; cbn beta in *; lia.
  - intros before v later Hsplit.
    pose proof (sorted_after _ Hs before v later Hsplit) as Hge.
    split; [exact Hge | intros ->].
    rewrite Hsplit in Hrange. apply Forall_app in Hrange as [_ Hrange].
    inversion Hrange as [| ? ? _ Hlater]; subst.
    rewrite Forall_forall in *. intros x Hx.
    specialize (Hge x Hx). specialize (Hlater x Hx). cbn beta in *. lia.
  - intros st nodes Hret. exists earlier.
    unfold final, _determine_cluster_status in *.
    destruct (determine_body py db_nodes initial_state) as [s' r] eqn:E.
    simpl in *. subst r.
    now rewrite (determine_returns_status _ _ _ _ _ _ E).
Qed.

(** ** Node status *)

(** C7. For every node address whose agent probe returns nothing (the
    address is [None], or the endpoint does not answer), the node status
    has the state the source writes ['dead'] (the role the specification
    calls unknown: it is none of leader, sync_replica, async_replica), is
    not alive, and its error list, empty before, receives
    "Could not retrieve DB status" first; only the error of the consensus
    probe may follow it. *)
Theorem node_status_without_agent :
  forall (net : network) (address : option string) (sync_replica master : bool),
    _get_raw_node_status_DB net address = None ->
    let n := _get_node_status net address sync_replica master in
    state n = "dead"
    /\ state n <> "leader" /\ state n <> "sync_replica"
    /\ state n <> "async_replica"
    /\ alive n = false
    /\ node_ip n = address
    /\ raw_status n = empty_raw_status
    /\ log_location n = None
    /\ errors n =
         "Could not retrieve DB status" ::
         match _get_raw_node_status_etcd net address with
         | Some _ => []
         | None => ["Could not retrieve etcd status"]
         end.
Proof.
  intros net address sync_replica master Hdb n.
  unfold n, _get_node_status. rewrite Hdb.
  destruct (_get_raw_node_status_etcd net address); simpl;
    repeat split; congruence.
Qed.

Lemma node_status_without_agent_witness :
  let net := Network (fun _ => None) (fun _ => Some "StateFollower") in
  let n := _get_node_status net (Some "192.0.2.2") true false in
  state n = "dead" /\ alive n = false
  /\ errors n = ["Could not retrieve DB status"].
Proof.
  intros net n.
  destruct (node_status_without_agent net (Some "192.0.2.2") true false
              eq_refl)
    as (Hstate & _ & _ & _ & Halive & _ & _ & _ & Herrors).
  repeat split; assumption.
Defined.

(** ** Topology resolution *)

Lemma resolve_database (w : world) :
  existsb is_database (services_to_install w) = true ->
  _get_cluster_addresses w =
    (after w 1 (dcs_conf w) [Observed],
     let seen := outside w (observed w) in
     if contains "cluster is unavailable" (etcd_cluster_health seen)
        || contains "failed to list members" (etcd_cluster_health seen)
     then Raise etcd_not_responding
     else Ok (master_dsn seen,
              filter (fun node => negb (eq_opt node (master_dsn seen)))
                     (map fst (etcd_members seen)))).
Proof.
  intros Hdb. unfold _get_cluster_addresses, bind, installed, observe.
  rewrite Hdb. cbv zeta.
  destruct (contains "cluster is unavailable" _ || _); reflexivity.
Qed.

Lemma resolve_manager (w : world) :
  existsb is_database (services_to_install w) = false ->
  existsb is_manager (services_to_install w) = true ->
  _get_cluster_addresses w =
    (after w 1 (dcs_conf w) [Observed],
     haproxy_loop (haproxy_servers (outside w (observed w))) None []).
Proof.
  intros Hdb Hm. unfold _get_cluster_addresses, bind, installed, observe.
  rewrite Hdb, Hm. reflexivity.
Qed.

Lemma haproxy_loop_parsed (rows : list (backend * string)) :
  Forall parsed rows ->
  forall master replicas,
    haproxy_loop (map fst rows) master replicas =
      Ok (last_up rows master, (replicas ++ down_addresses rows)%list).
Proof.
  induction 1 as [| [b a] rows Hp _ IH]; intros master replicas; simpl.
  - now rewrite app_nil_r.
  - unfold parsed in Hp; simpl in Hp. rewrite Hp.
    unfold down_addresses, is_up; simpl.
    destruct (String.eqb (backend_status b) "UP"); simpl; rewrite IH.
    + reflexivity.
    + now rewrite <- app_assoc.
Qed.

Lemma last_up_app (pre post : list (backend * string)) master :
  last_up (pre ++ post) master = last_up post (last_up pre master).
Proof.
  revert master. induction pre as [| row pre IH]; intros master; simpl.
  - reflexivity.
  - apply IH.
Qed.

Lemma last_up_none (rows : list (backend * string)) master :
  Forall (fun row => is_up row = false) rows -> last_up rows master = master.
Proof.
  induction 1 as [| row rows Hrow _ IH]; simpl.
  - reflexivity.
  - now rewrite Hrow.
Qed.

Lemma down_addresses_app (pre post : list (backend * string)) :
  down_addresses (pre ++ post) =
    (down_addresses pre ++ down_addresses post)%list.
Proof. unfold down_addresses. now rewrite filter_app, map_app. Qed.

Lemma in_down_addresses (rows : list (backend * string)) (a : string) :
  In a (down_addresses rows) ->
  exists b, In (b, a) rows /\ is_up (b, a) = false.
Proof.
  unfold down_addresses. rewrite in_map_iff.
  intros [[b a'] [Ha Hin]]. simpl in Ha; subst a'.
  apply filter_In in Hin as [Hin Hdown].
  exists b. split; [assumption |]. now apply negb_true_iff.
Qed.

Lemma nodup_snd_functional {A B : Type} (l : list (A * B)) (x y : A) (b : B) :
  NoDup (map snd l) -> In (x, b) l -> In (y, b) l -> x = y.
Proof.
  induction l as [| [z c] l IH]; simpl; intros Hnd Hx Hy.
  - contradiction.
  - inversion Hnd as [| ? ? Hnotin Hnd']; subst.
    destruct Hx as [Hx | Hx], Hy as [Hy | Hy].
    + congruence.
    + inversion Hx; subst. exfalso. apply Hnotin.
      apply in_map_iff. now exists (y, b).
    + inversion Hy; subst. exfalso. apply Hnotin.
      apply in_map_iff. now exists (x, b).
    + now apply IH.
Qed.

(** C10, as stated, fails: the table has two rows "UP", and the address
    of the earlier one is returned among the replicas, a later row that is
    not "UP" carrying the same address. *)
Lemma earlier_up_address_kept :
  let table := haproxy_servers (outside proxy_repeated_example 0) in
  map backend_status table = ["UP"; "DOWN"; "UP"]
  /\ map server_name table
     = [Ok "192.0.2.1"; Ok "192.0.2.1"; Ok "192.0.2.3"]
  /\ snd (_get_cluster_addresses proxy_repeated_example)
     = Ok (Some "192.0.2.3", ["192.0.2.1"])
  /\ In "192.0.2.1" ["192.0.2.1"].
Proof. intros table. repeat split. now left. Qed.

(** C10, amended. In the proxy-observed strategy (manager role, not
    database role), take any server table whose rows all carry a parseable address
    and in which a row [last] is the final one with status "UP", at least
    one earlier row being "UP" as well.  Resolution returns the address of
    [last] as primary and exactly the addresses of the rows that are not
    "UP" as replicas, in table order; so, the rows naming distinct
    addresses, the address of every earlier "UP" row is neither the primary
    nor among the replicas. *)
Theorem proxy_keeps_last_up_only :
  forall (w : world) (pre post : list (backend * string))
         (last : backend) (a_last : string),
    existsb is_database (services_to_install w) = false ->
    existsb is_manager (services_to_install w) = true ->
    haproxy_servers (outside w (observed w)) =
      (map fst pre ++ last :: map fst post)%list ->
    Forall parsed pre -> parsed (last, a_last) -> Forall parsed post ->
    Exists (fun row => is_up row = true) pre ->
    is_up (last, a_last) = true ->
    Forall (fun row => is_up row = false) post ->
    let replicas := (down_addresses pre ++ down_addresses post)%list in
    snd (_get_cluster_addresses w) = Ok (Some a_last, replicas)
    /\ (NoDup (map snd pre ++ a_last :: map snd post) ->
        forall row, In row pre -> is_up row = true ->
                    snd row <> a_last /\ ~ In (snd row) replicas).
Proof.
  intros w pre post last a_last Hdb Hm Htable Hpre Hlast Hpost _ Hup Hdown
         replicas.
  split.
  - rewrite (resolve_manager w Hdb Hm). cbn [snd]. rewrite Htable.
    change (map fst pre ++ last :: map fst post)%list
      with (map fst pre ++ map fst ((last, a_last) :: post))%list.
    rewrite <- map_app.
    rewrite haproxy_loop_parsed
      by (apply Forall_app; split; [| constructor]; assumption).
    rewrite last_up_app. simpl last_up. rewrite Hup.
    rewrite (last_up_none post _ Hdown).
    rewrite down_addresses_app. unfold down_addresses at 2. simpl filter.
    rewrite Hup. reflexivity.
  - intros Hnd [b a] Hin Hrow. simpl.
    assert (Hall : NoDup (map snd (pre ++ (last, a_last) :: post)))
      by now rewrite map_app.
    split.
    + intros ->.
      assert (b = last).
      { apply (nodup_snd_functional _ b last a_last Hall);
          apply in_or_app; [left | right; left]; auto. }
      subst b. apply NoDup_remove_2 in Hnd. apply Hnd.
      apply in_or_app. left. apply in_map_iff. now exists (last, a_last).
    + intros Hrep. unfold replicas in Hrep.
      rewrite <- down_addresses_app in Hrep.
      apply in_down_addresses in Hrep as [b' [Hin' Hdown']].
      assert (b = b').
      { apply (nodup_snd_functional _ b b' a Hall).
        - apply in_or_app; now left.
        - apply in_app_or in Hin' as [? | ?]; apply in_or_app;
            [left | right; right]; assumption. }
      subst b'. congruence.
Qed.

(** Closes [NoDup] and membership goals on lists of literal strings. *)
Ltac literal_list :=
  repeat match goal with
         | |- NoDup [] => constructor
         | |- NoDup (_ :: _) => constructor
         | |- ~ In _ _ => simpl; intuition discriminate
         | |- Forall _ [] => constructor
         | |- Forall _ (_ :: _) => constructor
         | |- Exists _ (_ :: _) => constructor
         | |- _ = _ => reflexivity
         | |- parsed _ => reflexivity
         end.

Lemma proxy_keeps_last_up_only_witness :
  snd (_get_cluster_addresses proxy_example)
    = Ok (Some "192.0.2.3", ["192.0.2.2"])
  /\ "192.0.2.1" <> "192.0.2.3"
  /\ ~ In "192.0.2.1" ["192.0.2.2"].
Proof.
  destruct (proxy_keeps_last_up_only proxy_example
              [(Backend "postgresql_192.0.2.1_5432" "UP", "192.0.2.1");
               (Backend "postgresql_192.0.2.2_5432" "DOWN", "192.0.2.2")]
              []
              (Backend "postgresql_192.0.2.3_5432" "UP") "192.0.2.3")
    as [Hresolved Hdropped]; try solve [literal_list].
  split; [exact Hresolved |].
  apply (Hdropped ltac:(simpl; literal_list)
           (Backend "postgresql_192.0.2.1_5432" "UP", "192.0.2.1"));
    [now left | reflexivity].
Defined.

(** ** Removing a node *)

Lemma remove_after_resolve (address : string) (w w1 : world) master replicas :
  _get_cluster_addresses w = (w1, Ok (master, replicas)) ->
  remove_cluster_node address w =
    (if (List.length replicas <? 2)%nat then throw LastReplica
     else if eq_opt address master then throw CannotRemovePrimary
     else
       database <- installed is_database ;;
       if database then
         seen <- observe ;;
         match dict_get address (etcd_members seen) with
         | None => throw (MemberNotFound address)
         | Some EmptyString => throw (MemberNotFound address)
         | Some node_id =>
             emit (LogInfo ("Removing etcd node " ++ address)) ;;;
             emit (EtcdMemberRemove node_id) ;;;
             emit (LogInfo ("Updating pg_hba to remove " ++ address)) ;;;
             patroni_config <- _get_patroni_dcs_conf ;;
             _set_patroni_dcs_conf
               (PatroniConfig
                  (filter (fun entry =>
                             negb (contains (" " ++ address ++ "/32 ") entry))
                          (pg_hba patroni_config))
                  (other_settings patroni_config)) ;;;
             emit (LogInfo ("Node " ++ address ++ " removed."))
         end
       else
         emit (LogInfo "Updating DB proxy configuration.") ;;;
         emit (Sudo ["sed"; "-i";
                     "/" ++ replace "/" "\/" (HAPROXY_NODE_ENTRY address) ++ "/d";
                     "/etc/haproxy/haproxy.cfg"]) ;;;
         _restart_manager_db_dependent_services) w1.
Proof.
  intros Hresolve. unfold remove_cluster_node.
  now rewrite (bind_ok _ _ _ _ _ Hresolve).
Qed.

(** C2, as stated, fails: with the primary 192.0.2.1 and the single
    replica 192.0.2.2 resolved, removing the primary is refused with the
    last-replica error, which is not the cannot-remove-primary error. *)
Lemma remove_primary_with_one_replica :
  snd (_get_cluster_addresses one_replica_example)
    = Ok (Some "192.0.2.1", ["192.0.2.2"])
  /\ snd (remove_cluster_node "192.0.2.1" one_replica_example)
       = Raise LastReplica
  /\ snd (remove_cluster_node "192.0.2.1" one_replica_example)
       <> Raise CannotRemovePrimary.
Proof.
  assert (H : snd (remove_cluster_node "192.0.2.1" one_replica_example)
              = Raise LastReplica) by reflexivity.
  split; [reflexivity | split].
  - exact H.
  - rewrite H. discriminate.
Qed.

(** C2, amended. For every resolved topology, [remove_cluster_node] with
    the primary's address fails with the cannot-remove-primary error when at
    least two replicas are resolved; when fewer than two are resolved it
    fails with the last-replica error, whatever the address.  Either way
    nothing has been done beyond the round of queries that resolved the
    topology. *)
Theorem remove_primary_refused :
  forall (address : string) (w w1 : world)
         (master : option string) (replicas : list string),
    _get_cluster_addresses w = (w1, Ok (master, replicas)) ->
    ((2 <= List.length replicas)%nat -> master = Some address ->
     remove_cluster_node address w = (w1, Raise CannotRemovePrimary))
    /\ ((List.length replicas < 2)%nat ->
        remove_cluster_node address w = (w1, Raise LastReplica)).
Proof.
  intros address w w1 master replicas Hresolve.
  rewrite (remove_after_resolve address w w1 master replicas Hresolve).
  split.
  - intros Hlen ->.
    destruct (Nat.ltb_spec (List.length replicas) 2) as [Hlt | _]; [lia |].
    simpl. now rewrite String.eqb_refl.
  - intros Hlen.
    destruct (Nat.ltb_spec (List.length replicas) 2) as [_ | Hge]; [| lia].
    reflexivity.
Qed.

Lemma remove_primary_refused_witness :
  snd (remove_cluster_node "192.0.2.1" two_replicas_example)
    = Raise CannotRemovePrimary
  /\ journal (fst (remove_cluster_node "192.0.2.1" two_replicas_example))
       = [Observed].
Proof.
  destruct (remove_primary_refused "192.0.2.1" two_replicas_example
              (after two_replicas_example 1 (PatroniConfig [] []) [Observed])
              (Some "192.0.2.1") ["192.0.2.2"; "192.0.2.3"] eq_refl)
    as [Hprimary _].
  rewrite (Hprimary ltac:(simpl; lia) eq_refl). now split.
Defined.

Lemma prefix_append (sub rest : string) : String.prefix sub (sub ++ rest) = true.
Proof.
  induction sub as [| c sub IH]; simpl.
  - now destruct rest.
  - destruct (ascii_dec c c) as [_ | Hne]; [exact IH | congruence].
Qed.

Lemma contains_unfold (sub s : string) :
  contains sub s =
    String.prefix sub s ||
    match s with
    | EmptyString => false
    | String _ s' => contains sub s'
    end.
Proof. now destruct s. Qed.

Lemma contains_append (sub before rest : string) :
  contains sub (before ++ sub ++ rest) = true.
Proof.
  induction before as [| c before IH].
  - change ("" ++ sub ++ rest) with (sub ++ rest).
    now rewrite contains_unfold, prefix_append.
  - rewrite contains_unfold. simpl. rewrite IH. apply orb_true_r.
Qed.

Lemma append_assoc (a b c : string) : (a ++ b) ++ c = a ++ b ++ c.
Proof.
  induction a as [| x a IH]; simpl; [reflexivity | now rewrite IH].
Qed.

Lemma contains_address_field (before address : string) :
  contains (" " ++ address ++ "/32 ") (before ++ " " ++ address ++ "/32 md5")
    = true.
Proof.
  replace (before ++ " " ++ address ++ "/32 md5")
    with (before ++ (" " ++ address ++ "/32 ") ++ "md5").
  - apply contains_append.
  - simpl. now rewrite append_assoc.
Qed.

Lemma eq_opt_false (a : string) (m : option string) :
  m <> Some a -> eq_opt a m = false.
Proof.
  destruct m as [b |]; simpl; intros H; [| reflexivity].
  apply String.eqb_neq. congruence.
Qed.

Lemma after_after (w : world) a b c1 c2 e1 e2 :
  after (after w a c1 e1) b c2 e2 = after w (a + b) c2 (e1 ++ e2).
Proof.
  unfold after; simpl. f_equal; [lia | now rewrite app_assoc].
Qed.

(** C8. For every configuration blob and every address whose removal
    goes through on a database node (two replicas or more resolved, the
    address not the primary, a member id found for it), the blob read back
    afterwards holds exactly the access-control entries of the original
    that do not reference the address, byte for byte and in their original
    order, the other settings being untouched: no entry left references the
    address (in particular none of the entries [_add_node_to_pg_hba] writes
    for it), and every entry that did not reference it is still there. *)
Theorem remove_filters_access_list :
  forall (address : string) (w : world) (master : option string)
         (replicas : list string) (c : ascii) (id_rest : string),
    existsb is_database (services_to_install w) = true ->
    snd (_get_cluster_addresses w) = Ok (master, replicas) ->
    (2 <= List.length replicas)%nat ->
    master <> Some address ->
    dict_get address (etcd_members (outside w (S (observed w))))
      = Some (String c id_rest) ->
    let original := pg_hba (dcs_conf w) in
    let kept := filter (fun entry => negb (references address entry)) original in
    let conf := PatroniConfig kept (other_settings (dcs_conf w)) in
    let w' := fst (remove_cluster_node address w) in
    remove_cluster_node address w =
      (after w 2 conf
         [Observed; Observed;
          LogInfo ("Removing etcd node " ++ address);
          EtcdMemberRemove (String c id_rest);
          LogInfo ("Updating pg_hba to remove " ++ address);
          EtcdSetConfig conf;
          LogInfo ("Node " ++ address ++ " removed.")],
       Ok tt)
    /\ snd (_get_patroni_dcs_conf w') = Ok conf
    /\ Forall (fun entry => references address entry = false) kept
    /\ (forall entry, In entry (_add_node_to_pg_hba [] address) ->
                      ~ In entry kept)
    /\ (forall entry, In entry original -> references address entry = false ->
                      In entry kept).
Proof.
  intros address w master replicas c id_rest Hdb Hresolve Hlen Hmaster Hid
         original kept conf w'.
  assert (Hrun : remove_cluster_node address w =
                 (after w 2 conf
                    [Observed; Observed;
                     LogInfo ("Removing etcd node " ++ address);
                     EtcdMemberRemove (String c id_rest);
                     LogInfo ("Updating pg_hba to remove " ++ address);
                     EtcdSetConfig conf;
                     LogInfo ("Node " ++ address ++ " removed.")],
                  Ok tt)).
  { pose proof (resolve_database w Hdb) as Hr.
    rewrite Hr in Hresolve. cbn [snd] in Hresolve. cbv zeta in Hr.
    rewrite Hresolve in Hr.
    rewrite (remove_after_resolve _ _ _ _ _ Hr).
    destruct (Nat.ltb_spec (List.length replicas) 2) as [Hlt | _]; [lia |].
    rewrite (eq_opt_false _ _ Hmaster).
    unfold bind, installed, observe, emit, _get_patroni_dcs_conf,
      _set_patroni_dcs_conf, after.
    cbn [services_to_install outside observed dcs_conf journal Nat.add].
    rewrite Hdb.
    cbn [services_to_install outside observed dcs_conf journal Nat.add].
    rewrite Hid.
    cbn [services_to_install outside observed dcs_conf journal Nat.add
         pg_hba other_settings].
    repeat rewrite <- app_assoc. reflexivity. }
  split; [exact Hrun |].
  split; [unfold w'; now rewrite Hrun |].
  split; [| split].
  - apply Forall_forall. intros entry Hin.
    apply filter_In in Hin as [_ Hin]. now apply negb_true_iff.
  - intros entry Hadded Hkept.
    apply filter_In in Hkept as [_ Hkept]. apply negb_true_iff in Hkept.
    unfold references in Hkept.
    destruct Hadded as [<- | [<- | []]].
    + pose proof (contains_address_field "hostssl all postgres" address)
        as Href.
      simpl in Href, Hkept. congruence.
    + pose proof (contains_address_field "hostssl replication replicator"
                    address) as Href.
      simpl in Href, Hkept. congruence.
  - intros entry Hin Hfree. apply filter_In. split; [assumption |].
    now rewrite Hfree.
Qed.

Lemma remove_filters_access_list_witness :
  snd (remove_cluster_node "192.0.2.3" access_list_example) = Ok tt
  /\ dcs_conf (fst (remove_cluster_node "192.0.2.3" access_list_example))
     = PatroniConfig
         ["hostssl all postgres 192.0.2.2/32 md5";
          "hostssl replication replicator 192.0.2.2/32 md5";
          "hostssl replication replicator 127.0.0.1/32 md5";
          "hostssl all all 0.0.0.0/0 md5"]
         [("loop_wait", "1")].
Proof.
  destruct (remove_filters_access_list "192.0.2.3" access_list_example
              (Some "192.0.2.1") ["192.0.2.2"; "192.0.2.3"]
              "f" "d422379fda50e48"
              eq_refl eq_refl ltac:(simpl; lia) ltac:(discriminate) eq_refl)
    as [Hrun _].
  rewrite Hrun. split; reflexivity.
Defined.

(** ** Changing the primary *)

Lemma resolve_answering (w : world) :
  existsb is_database (services_to_install w) = true ->
  answering (outside w (observed w)) ->
  _get_cluster_addresses w =
    (after w 1 (dcs_conf w) [Observed],
     Ok (master_dsn (outside w (observed w)),
         filter (fun node =>
                   negb (eq_opt node (master_dsn (outside w (observed w)))))
                (map fst (etcd_members (outside w (observed w)))))).
Proof.
  intros Hdb [H1 H2]. rewrite (resolve_database w Hdb). cbv zeta.
  now rewrite H1, H2.
Qed.

Lemma wait_for_master_pending (address : string) (n : nat) :
  forall (rest : nat) (w : world) (m0 : option string),
    existsb is_database (services_to_install w) = true ->
    (forall k, (observed w <= k < observed w + n)%nat ->
               answering (outside w k)
               /\ master_dsn (outside w k) <> Some address) ->
    wait_for_master address (n + rest) m0 w =
      wait_for_master address rest
        (fold_left (fun _ k => master_dsn (outside w k))
                   (seq (observed w) n) m0)
        (after w n (dcs_conf w)
           (flat_map (waiting_round address w) (seq (observed w) n))).
Proof.
  induction n as [| n IH]; intros rest w m0 Hdb Hpending.
  - simpl. unfold after. simpl. rewrite app_nil_r. now destruct w.
  - destruct (Hpending (observed w) ltac:(lia)) as [Hans Hother].
    cbn [Nat.add wait_for_master].
    rewrite (bind_ok _ _ _ _ _ (resolve_answering w Hdb Hans)).
    rewrite (eq_opt_false _ _ Hother). cbn [negb].
    unfold bind at 1. unfold bind at 1. unfold emit.
    cbn [journal services_to_install outside observed dcs_conf after].
    match goal with
    | |- wait_for_master _ _ _ ?w1 = _ =>
        replace w1 with (after w 1 (dcs_conf w) (waiting_round address w (observed w)))
          by (unfold after, waiting_round; simpl;
              now rewrite <- !app_assoc)
    end.
    rewrite IH.
    + rewrite after_after. cbn [seq fold_left flat_map].
      cbn [after outside observed Nat.add].
      reflexivity.
    + exact Hdb.
    + cbn [after outside observed Nat.add]. intros k Hk.
      apply Hpending. lia.
Qed.

Lemma wait_for_master_settled (address : string) (n : nat) :
  forall (w : world) (m0 : option string),
    existsb is_database (services_to_install w) = true ->
    (forall k, (observed w <= k < observed w + n)%nat ->
               answering (outside w k)
               /\ master_dsn (outside w k) = Some address) ->
    wait_for_master address n m0 w =
      (after w n (dcs_conf w) (repeat Observed n),
       Ok (match n with O => m0 | S _ => Some address end)).
Proof.
  induction n as [| n IH]; intros w m0 Hdb Hsettled.
  - simpl. unfold ret, after. simpl. rewrite app_nil_r. now destruct w.
  - destruct (Hsettled (observed w) ltac:(lia)) as [Hans Hnew].
    cbn [wait_for_master].
    rewrite (bind_ok _ _ _ _ _ (resolve_answering w Hdb Hans)).
    rewrite Hnew. cbn [eq_opt]. rewrite String.eqb_refl. cbn [negb].
    unfold bind at 1, ret at 1.
    rewrite IH.
    + rewrite after_after. cbn [repeat app]. f_equal. now destruct n.
    + exact Hdb.
    + cbn [after outside observed Nat.add]. intros k Hk.
      apply Hsettled. lia.
Qed.

Lemma candidate_is_member (address : string) (master : option string)
    (members : list string) :
  master <> Some address -> In address members ->
  existsb (fun member => eq_opt address member)
          (master ::
           map Some (filter (fun node => negb (eq_opt node master)) members))
    = true.
Proof.
  intros Hother Hin. apply existsb_exists. exists (Some address). split.
  - right. apply in_map. apply filter_In. split; [assumption |].
    now rewrite (eq_opt_false _ _ Hother).
  - simpl. apply String.eqb_refl.
Qed.

(** C9. Let [set_master] be called on a database node for a candidate
    that is a replica, and let the rounds of queries answer so that the
    polls 1 to 9 after the switchover do not find the candidate as primary
    and the polls 10 to 30 do.  Then the call returns normally, having
    polled exactly 30 times; it slept one second after each of the first 9
    polls and not once from the 10th poll on, and it ends by reporting the
    change, not the warning. *)
Theorem set_master_confirms_at_tenth_poll :
  forall (address : string) (w : world),
    existsb is_database (services_to_install w) = true ->
    answering (outside w (observed w)) ->
    master_dsn (outside w (observed w)) <> Some address ->
    In address (map fst (etcd_members (outside w (observed w)))) ->
    (forall k, (1 <= k <= 9)%nat ->
               answering (outside w (observed w + k))
               /\ master_dsn (outside w (observed w + k)) <> Some address) ->
    (forall k, (10 <= k <= 30)%nat ->
               answering (outside w (observed w + k))
               /\ master_dsn (outside w (observed w + k)) = Some address) ->
    let waiting :=
      flat_map (waiting_round address w) (seq (S (observed w)) 9) in
    let polling := (waiting ++ repeat Observed 21)%list in
    set_master address w =
      (after w 31 (dcs_conf w)
         ([Observed;
           LogInfo ("Changing master to " ++ address);
           Patronictl ["switchover"; "--force"; "--candidate";
                       _get_patroni_id address]]
          ++ polling ++ [LogInfo (changed_message address)]),
       Ok tt)
    /\ List.length (filter is_poll polling) = 30%nat
    /\ List.length (filter is_sleep waiting) = 9%nat
    /\ filter is_sleep (repeat Observed 21) = [].
Proof.
  intros address w Hdb Hans Hother Hmember Hpending Hsettled waiting polling.
  split; [| repeat split].
  unfold set_master.
  rewrite (bind_ok _ _ _ _ _ (resolve_answering w Hdb Hans)).
  rewrite (eq_opt_false _ _ Hother).
  rewrite (candidate_is_member _ _ _ Hother Hmember). cbn [negb].
  unfold bind at 1, installed at 1.
  cbn [after services_to_install]. rewrite Hdb.
  unfold bind at 1, emit at 1. unfold bind at 1, emit at 1.
  cbn [after services_to_install outside observed dcs_conf journal Nat.add].
  unfold bind at 1. change 30%nat with (9 + 21)%nat.
  rewrite wait_for_master_pending; [| exact Hdb |].
  - rewrite wait_for_master_settled; [| exact Hdb |].
    + cbn [eq_opt]. rewrite String.eqb_refl. unfold emit, after.
      cbn [after services_to_install outside observed dcs_conf journal Nat.add].
      unfold polling, waiting. f_equal. f_equal.
      repeat rewrite <- app_assoc. reflexivity.
    + cbn [after services_to_install outside observed dcs_conf journal Nat.add].
      intros k Hk.
      replace k with (observed w + (k - observed w))%nat by lia.
      apply Hsettled. lia.
  - cbn [after services_to_install outside observed dcs_conf journal Nat.add].
    intros k Hk.
    replace k with (observed w + (k - observed w))%nat by lia.
    apply Hpending. lia.
Qed.

Lemma set_master_confirms_at_tenth_poll_witness :
  snd (set_master "192.0.2.2" switchover_example) = Ok tt
  /\ observed (fst (set_master "192.0.2.2" switchover_example)) = 31%nat
  /\ List.length
       (filter is_sleep
               (journal (fst (set_master "192.0.2.2" switchover_example))))
     = 9%nat
  /\ last (journal (fst (set_master "192.0.2.2" switchover_example))) Observed
     = LogInfo "Master changed to 192.0.2.2".
Proof.
  destruct (set_master_confirms_at_tenth_poll "192.0.2.2" switchover_example)
    as [Hrun _].
  - reflexivity.
  - split; reflexivity.
  - discriminate.
  - simpl. tauto.
  - intros k Hk. split; [split; reflexivity |]. simpl.
    destruct (Nat.ltb_spec k 10); [discriminate | lia].
  - intros k Hk. split; [split; reflexivity |]. simpl.
    destruct (Nat.ltb_spec k 10); [lia | reflexivity].
  - rewrite Hrun. repeat split.
Defined.

(** ** The checks on one replica *)

Lemma with_errors_nil (n : node) : with_errors n [] = n.
Proof. destruct n. unfold with_errors. simpl. now rewrite app_nil_r. Qed.

Lemma append_error_with_errors (n : node) (es : list string) (e : string) :
  append_error (with_errors n es) e = with_errors n (es ++ [e]).
Proof. unfold append_error, with_errors. simpl. now rewrite app_assoc. Qed.

(** The split-brain test, as the last step of [check_replica]. *)
Lemma extra_master_step (replica : node) (es : list string) (s : eval_state) :
  (match raw_state (raw_status (with_errors replica es)) with
   | Some st =>
       if String.eqb st "master"
       then ret (append_error (with_errors replica es) "EXTRA MASTER")
       else ret (with_errors replica es)
   | None => ret (with_errors replica es)
   end) s
  = (s, Ok (with_errors replica (es ++ extra_master replica))).
Proof.
  unfold extra_master. cbn [raw_status with_errors].
  destruct (raw_state (raw_status replica)) as [st |].
  - destruct (String.eqb st "master").
    + now rewrite append_error_with_errors.
    + now rewrite app_nil_r.
  - now rewrite app_nil_r.
Qed.

Lemma ne_opt_same (a : option N) : ne_opt a a = false.
Proof. destruct a as [x |]; simpl; [| reflexivity]. now rewrite N.eqb_refl. Qed.

(** A synchronous replica behind the primary: the status is raised to
    [DOWN] and the replica marked. *)
Lemma check_replica_sync_behind py (m l : N) mtl (replica : node) s :
  state replica = "sync_replica" ->
  log_location replica = Some l ->
  (l < m)%N ->
  check_replica py (Some m) mtl replica s =
    (EvalState (Z.max (status s) DOWN)
               (assigned s ++ [Z.max (status s) DOWN]),
     Ok (with_errors replica ("Out of sync" :: extra_master replica))).
Proof.
  intros Hstate Hlog Hlt. unfold check_replica.
  rewrite Hstate, Hlog. cbn [String.eqb Ascii.eqb Bool.eqb truthy lt_opt].
  replace (N.eqb m 0) with false by (symmetry; apply N.eqb_neq; lia).
  replace (N.ltb l m) with true by (symmetry; now apply N.ltb_lt).
  cbn [negb]. unfold bind at 1. unfold bind at 1, lift at 1.
  unfold bind at 1, raise_status at 1, ret at 1.
  change (append_error replica "Out of sync")
    with (with_errors replica ["Out of sync"]).
  apply extra_master_step.
Qed.

(** An asynchronous replica on the primary's timeline whose log position
    is 3 MiB behind: no assignment to [status], one lag diagnostic. *)
Lemma check_replica_lag_3mib py (l : N) mtl (replica : node) s :
  state replica = "async_replica" ->
  timeline replica = mtl ->
  log_location replica = Some l ->
  check_replica py (Some (l + 3145728)%N) mtl replica s =
    (s, Ok (with_errors replica ("Lag: 3.00MiB" :: extra_master replica))).
Proof.
  intros Hstate Htl Hlog. unfold check_replica.
  rewrite Hstate, Htl, ne_opt_same, andb_false_r.
  cbn [String.eqb Ascii.eqb Bool.eqb].
  rewrite (bind_ok _ _ s s (with_errors replica ["Lag: 3.00MiB"])).
  - apply extra_master_step.
  - unfold bind, ret, lift. rewrite Hlog. cbn [sub_opt].
    replace (Z.of_N (l + 3145728) - Z.of_N l) with 3145728 by lia.
    reflexivity.
Qed.

Lemma extra_master_last (replica : node) (s : eval_state) :
  (match raw_state (raw_status replica) with
   | Some st =>
       if String.eqb st "master"
       then ret (append_error replica "EXTRA MASTER")
       else ret replica
   | None => ret replica
   end) s
  = (s, Ok (with_errors replica (extra_master replica))).
Proof.
  unfold extra_master.
  destruct (raw_state (raw_status replica)) as [st |].
  - destruct (String.eqb st "master"); [reflexivity |].
    now rewrite with_errors_nil.
  - now rewrite with_errors_nil.
Qed.

(** ** Integers as floats *)

Lemma round_to_multiple_bound (a k : Z) :
  0 <= a -> 0 < k -> round_to_multiple a k <= a + 2 ^ k.
Proof.
  intros Ha Hk. unfold round_to_multiple.
  rewrite !Z.shiftl_mul_pow2, Z.shiftr_div_pow2 by lia.
  assert (Hpow : 0 < 2 ^ k) by (apply Z.pow_pos_nonneg; lia).
  pose proof (Z.mul_div_le a (2 ^ k) Hpow) as Hq.
  destruct ((_ <? _) || _); nia.
Qed.

(** Differences of 64-bit positions convert to a float. *)
Lemma float_of_int_defined (z : Z) :
  Z.abs z < 2 ^ 64 -> exists f, float_of_int z = Ok f.
Proof.
  intros Hz. unfold float_of_int.
  set (a := Z.abs z) in *. set (k := Z.log2 a - 52).
  assert (Ha : 0 <= a) by apply Z.abs_nonneg.
  assert (Hbig : 2 ^ 64 + 2 ^ 12 < 2 ^ 1024) by reflexivity.
  remember (2 ^ 1024) as huge. remember (2 ^ 64) as word.
  assert (Hm : (if k <=? 0 then a else round_to_multiple a k) < huge).
  { destruct (Z.leb_spec k 0) as [_ | Hk]; [lia |].
    pose proof (round_to_multiple_bound a k Ha Hk) as Hr.
    assert (Hlog : Z.log2 a < 64).
    { destruct (Z.eq_dec a 0) as [-> | Hne]; [reflexivity |].
      apply Z.log2_lt_pow2; subst word; lia. }
    assert (Hpow : 2 ^ k <= 2 ^ 12)
      by (apply Z.pow_le_mono_r; unfold k; lia).
    lia. }
  destruct (Z.leb_spec huge (if k <=? 0 then a else round_to_multiple a k));
    [lia | eauto].
Qed.

Lemma div_1024_1024_defined (m l : N) :
  (m < 2 ^ 64)%N -> (l < 2 ^ 64)%N ->
  exists f, div_1024_1024 (Z.of_N m - Z.of_N l) = Ok f.
Proof.
  intros Hm Hl. unfold div_1024_1024.
  destruct (float_of_int_defined (Z.of_N m - Z.of_N l)) as [f ->]; [| eauto].
  change (2 ^ 64)%N with (Z.to_N (2 ^ 64)) in Hm, Hl.
  assert (0 < 2 ^ 64) by reflexivity. lia.
Qed.

(** ** Evaluations that leave the status alone *)



(** ** The evaluation, check by check *)

Lemma runs_ret : runs (ret tt).
Proof. intros s. now exists s. Qed.

Lemma runs_raise_status (level : Z) : runs (raise_status level).
Proof. intros s. unfold raise_status. eauto. Qed.

Lemma runs_when (b : bool) (m : Eval unit) : runs m -> runs (when b m).
Proof. destruct b; simpl; [trivial | intros _; apply runs_ret]. Qed.

Lemma runs_seq (m k : Eval unit) : runs m -> runs k -> runs (m ;;; k).
Proof.
  intros Hm Hk s. destruct (Hm s) as [s1 H1]. destruct (Hk s1) as [s2 H2].
  exists s2. now rewrite (bind_ok _ _ _ _ _ H1).
Qed.

Lemma runs_master_checks master sync_ips : runs (master_checks master sync_ips).
Proof.
  unfold master_checks.
  apply runs_seq; apply runs_when, runs_raise_status.
Qed.

Lemma runs_etcd_checks db_nodes replicas majority :
  runs (etcd_checks db_nodes replicas majority).
Proof.
  unfold etcd_checks. destruct (etcd_count db_nodes (0, 0)) as [f l].
  apply runs_seq; [apply runs_when, runs_raise_status |].
  destruct (f <? majority); [apply runs_raise_status |].
  destruct (f <? _); [apply runs_raise_status | apply runs_ret].
Qed.



Lemma determine_body_cons py master replicas s :
  consistent s ->
  exists s1,
    consistent s1
    /\ determine_body py (master :: replicas) s = conclude py master replicas s1.
Proof.
  intros Hs. unfold determine_body. cbn [index nth_error tl].
  unfold bind at 1, lift at 1. cbv zeta.
  set (unresolved := match node_ip master with None => true | Some _ => false end).
  set (upto := when unresolved (raise_status DOWN) ;;;
               master_checks master (_get_sync_replicas (raw_status master)) ;;;
               etcd_checks (if unresolved then replicas else master :: replicas)
                           replicas
                           ((1 + Z.of_nat (List.length replicas)) / 2)).
  assert (Hruns : runs upto).
  { repeat apply runs_seq; auto using runs_when, runs_raise_status,
      runs_master_checks, runs_etcd_checks. }
  assert (Hkeeps : keeps upto) by (unfold upto; repeat keeps_step).
  destruct (Hruns s) as [s1 H1]. exists s1. split.
  - destruct (Hkeeps s Hs) as [Hc _]. now rewrite H1 in Hc.
  - unfold upto in H1.
    apply bind_ok_inv in H1 as (sa & [] & Ha & H1).
    apply bind_ok_inv in H1 as (sb & [] & Hb & H1).
    rewrite (bind_ok _ _ _ _ _ Ha), (bind_ok _ _ _ _ _ Hb),
      (bind_ok _ _ _ _ _ H1).
    unfold conclude, unresolved. destruct (node_ip master); reflexivity.
Qed.

Lemma conclude_ok_inv py master replicas s s' st nodes :
  conclude py master replicas s = (s', Ok (st, nodes)) ->
  exists replicas',
    check_replicas py (xlog_get (raw_xlog (raw_status master)) location)
                   (raw_timeline (raw_status master)) replicas s
      = (s', Ok replicas')
    /\ st = status s'
    /\ nodes = match node_ip master with
               | None => replicas'
               | Some _ => master :: replicas'
               end.
Proof.
  unfold conclude. intros H.
  apply bind_ok_inv in H as (s1 & replicas' & Hloop & H).
  unfold bind, get_status, ret in H. inversion H; subst.
  now exists replicas'.
Qed.

Lemma check_replicas_split py mlog mtl (pre : list node) (r : node)
    (post : list node) :
  forall s s' out,
    check_replicas py mlog mtl (pre ++ r :: post) s = (s', Ok out) ->
    exists s1 s2 pre' r' post',
      check_replicas py mlog mtl pre s = (s1, Ok pre')
      /\ check_replica py mlog mtl r s1 = (s2, Ok r')
      /\ check_replicas py mlog mtl post s2 = (s', Ok post')
      /\ out = (pre' ++ r' :: post')%list
      /\ List.length pre' = List.length pre.
Proof.
  induction pre as [| x pre IH]; intros s s' out H; cbn [app check_replicas] in H.
  - apply bind_ok_inv in H as (s2 & r' & Hr & H).
    apply bind_ok_inv in H as (s3 & post' & Hpost & H).
    unfold ret in H. inversion H; subst.
    exists s, s2, [], r', post'. repeat split; assumption.
  - apply bind_ok_inv in H as (sx & x' & Hx & H).
    apply bind_ok_inv in H as (s3 & rest' & Hrest & H).
    unfold ret in H. inversion H; subst.
    destruct (IH _ _ _ Hrest) as (s1 & s2 & pre' & r' & post' & Hpre & Hr
                                  & Hpost & -> & Hlen).
    exists s1, s2, (x' :: pre'), r', post'. repeat split; try assumption.
    + cbn [check_replicas].
      now rewrite (bind_ok _ _ _ _ _ Hx), (bind_ok _ _ _ _ _ Hpre).
    + simpl. now rewrite Hlen.
Qed.

Lemma check_replicas_total py mlog mtl (replicas : list node) :
  (forall x, In x replicas ->
             forall s, exists s' x', check_replica py mlog mtl x s = (s', Ok x')) ->
  forall s, exists s' out, check_replicas py mlog mtl replicas s = (s', Ok out).
Proof.
  induction replicas as [| x rest IH]; intros Hall s.
  - exists s, []. reflexivity.
  - destruct (Hall x (or_introl eq_refl) s) as (s1 & x' & Hx).
    destruct (IH (fun y Hy => Hall y (or_intror Hy)) s1) as (s2 & rest' & Hrest).
    exists s2, (x' :: rest'). cbn [check_replicas].
    now rewrite (bind_ok _ _ _ _ _ Hx), (bind_ok _ _ _ _ _ Hrest).
Qed.

(** ** Verdicts *)




(** *** No primary resolved *)

(** Without a position reported by the primary, the lag subtraction of
    the first replica that is not synchronous raises. *)
Lemma lag_without_primary_position_raises py master r rest :
  xlog_get (raw_xlog (raw_status master)) location = None ->
  state r <> "sync_replica" ->
  snd (_determine_cluster_status py (master :: r :: rest)) = Raise TypeError.
Proof.
  intros Hlog Hstate. unfold _determine_cluster_status.
  destruct (determine_body_cons py master (r :: rest) initial_state
              initial_consistent) as (s1 & _ & ->).
  unfold conclude. rewrite Hlog. cbn [check_replicas].
  assert (Hraise : exists s2,
             check_replica py None (raw_timeline (raw_status master)) r s1
             = (s2, Raise TypeError)).
  { unfold check_replica.
    apply String.eqb_neq in Hstate. rewrite Hstate.
    destruct (truthy _ && ne_opt _ _);
      unfold bind, raise_status, ret, lift; cbn [sub_opt]; eauto. }
  destruct Hraise as [s2 Hraise].
  now rewrite (bind_raise _ _ _ _ _ (bind_raise _ _ _ _ _ Hraise)).
Qed.

(** C3: the code where no primary address was resolved.  No primary is
    resolved (the DSN query names none), the three members of etcd are
    taken as replicas, each answers with a log position; the evaluation
    does not complete: the lag subtraction against the missing primary
    position raises [TypeError], on either interpreter. *)
Theorem unresolved_primary_raises_type_error :
  snd (_get_cluster_addresses unresolved_example)
    = Ok (None, ["192.0.2.1"; "192.0.2.2"; "192.0.2.3"])
  /\ (forall py,
        snd (get_cluster_status py all_replicas unresolved_example)
        = Raise TypeError)
  /\ (forall py,
        snd (_determine_cluster_status py
               [_get_node_status all_replicas None false true; silent_replica])
        = Raise TypeError).
Proof.
  split; [reflexivity | split]; intros py.
  - unfold get_cluster_status.
    rewrite (bind_ok _ _ _ _ _
               (resolve_answering unresolved_example eq_refl
                  (conj eq_refl eq_refl))).
    unfold lift. cbn [snd].
    apply lag_without_primary_position_raises; [reflexivity | discriminate].
  - apply lag_without_primary_position_raises; [reflexivity | discriminate].
Qed.

(** *** A synchronous replica behind the primary *)

(** A synchronous replica behind the primary, in general.  Let a
    synchronous replica report a log position below the one the primary
    reports.  Its check always completes, raises [status] to
    [DOWN] and appends "Out of sync" to its errors; every verdict an
    evaluation of a node list holding that replica returns is [DOWN], with
    the marked replica in its place among the nodes returned; and the
    evaluation does return whenever the checks of the other replicas
    complete. *)
Theorem sync_replica_behind_is_down :
  forall (py : interpreter) (master : node) (pre : list node) (r : node)
         (post : list node) (m l : N),
    xlog_get (raw_xlog (raw_status master)) location = Some m ->
    state r = "sync_replica" ->
    log_location r = Some l ->
    (l < m)%N ->
    let mtl := raw_timeline (raw_status master) in
    let marked := with_errors r ("Out of sync" :: extra_master r) in
    let db_nodes := master :: (pre ++ r :: post)%list in
    In "Out of sync" (errors marked)
    /\ (forall s, consistent s ->
          exists s', check_replica py (Some m) mtl r s = (s', Ok marked)
                     /\ status s' = DOWN)
    /\ (forall st nodes,
          snd (_determine_cluster_status py db_nodes) = Ok (st, nodes) ->
          st = DOWN
          /\ exists pre' post',
               List.length pre' = List.length pre
               /\ nodes = ((match node_ip master with
                            | None => []
                            | Some _ => [master]
                            end) ++ pre' ++ marked :: post')%list)
    /\ ((forall x, In x (pre ++ post) ->
           forall s, exists s' x',
             check_replica py (Some m) mtl x s = (s', Ok x')) ->
        exists nodes,
          snd (_determine_cluster_status py db_nodes) = Ok (DOWN, nodes)).
Proof.
  intros py master pre r post m l Hm Hstate Hlog Hlt mtl marked db_nodes.
  assert (Hcheck : forall s,
             check_replica py (Some m) mtl r s =
             (EvalState (Z.max (status s) DOWN)
                        (assigned s ++ [Z.max (status s) DOWN]),
              Ok marked))
    by (intros s; now apply check_replica_sync_behind with (l := l)).
  assert (Hany : forall st nodes,
             snd (_determine_cluster_status py db_nodes) = Ok (st, nodes) ->
             st = DOWN
             /\ exists pre' post',
                  List.length pre' = List.length pre
                  /\ nodes = ((match node_ip master with
                               | None => []
                               | Some _ => [master]
                               end) ++ pre' ++ marked :: post')%list).
  { intros st nodes Hret. unfold _determine_cluster_status in Hret.
    unfold mtl in *.
    pose proof (keeps_determine_body py db_nodes initial_state
                  initial_consistent) as [Hfinal _].
    destruct (determine_body_cons py master (pre ++ r :: post) initial_state
                initial_consistent) as (s1 & Hs1 & Hbody).
    fold db_nodes in Hbody. rewrite Hbody in Hret, Hfinal.
    destruct (conclude py master (pre ++ r :: post) s1) as [s' res] eqn:E.
    cbn [snd fst] in Hret, Hfinal. subst res.
    apply conclude_ok_inv in E as (out & Hloop & -> & ->).
    rewrite Hm in Hloop.
    apply check_replicas_split in Hloop
      as (sa & sb & pre' & r' & post' & Hpre & Hr & Hpost & -> & Hlen).
    rewrite Hcheck in Hr. inversion Hr; subst sb r'.
    assert (Hsa : consistent sa).
    { pose proof (keeps_check_replicas py (Some m)
                    (raw_timeline (raw_status master)) pre s1 Hs1) as [H _].
      now rewrite Hpre in H. }
    pose proof (keeps_raise_status DOWN down_in_range sa Hsa) as [Hsb _].
    unfold raise_status in Hsb. cbn [fst] in Hsb.
    pose proof (keeps_check_replicas py (Some m)
                  (raw_timeline (raw_status master)) post _ Hsb) as [_ Hle].
    rewrite Hpost in Hle. cbn [fst status] in Hle.
    pose proof (status_bounded _ Hfinal) as Hup.
    split; [lia |].
    exists pre', post'. split; [exact Hlen |].
    destruct (node_ip master); reflexivity. }
  split; [| split; [| split]].
  - unfold marked, with_errors. cbn [errors].
    apply in_or_app. right. now left.
  - intros s Hs. eexists. split; [apply Hcheck |].
    cbn [status]. pose proof (status_bounded _ Hs). lia.
  - exact Hany.
  - intros Hothers.
    destruct (determine_body_cons py master (pre ++ r :: post) initial_state
                initial_consistent) as (s1 & Hs1 & Hbody).
    destruct (check_replicas_total py (Some m) mtl (pre ++ r :: post))
      with (s := s1) as (s2 & out & Hloop).
    { intros x Hx s. apply in_app_or in Hx as [Hx | [<- | Hx]].
      - apply Hothers, in_or_app. now left.
      - rewrite Hcheck. eauto.
      - apply Hothers, in_or_app. now right. }
    assert (Hret : snd (_determine_cluster_status py db_nodes)
                   = Ok (status s2,
                         match node_ip master with
                         | None => out
                         | Some _ => master :: out
                         end)).
    { unfold _determine_cluster_status. fold db_nodes in Hbody.
      rewrite Hbody. unfold conclude. rewrite Hm. fold mtl.
      now rewrite (bind_ok _ _ _ _ _ Hloop). }
    destruct (Hany _ _ Hret) as [Hdown _].
    rewrite Hdown in Hret. eauto.
Qed.

Lemma sync_replica_behind_is_down_witness :
  exists nodes,
    snd (_determine_cluster_status Py3
           [primary_at 4096; sync_replica_at 4000; async_replica_at 4096 1])
    = Ok (DOWN, nodes).
Proof.
  destruct (sync_replica_behind_is_down Py3 (primary_at 4096) []
              (sync_replica_at 4000) [async_replica_at 4096 1]
              4096%N 4000%N eq_refl eq_refl eq_refl eq_refl)
    as (_ & _ & _ & Hreturns).
  apply Hreturns. intros x [<- | []] s.
  eexists. eexists. reflexivity.
Defined.

(** C5: the code where another replica reports no log position.  The
    agents of the primary 192.0.2.1 (position 4096) and of its synchronous
    replica 192.0.2.2 (position 4000, behind) answer, the agent of
    192.0.2.3 does not.  The check of the synchronous replica assigns
    [DOWN], but the lag subtraction of line 893 then raises [TypeError] at
    192.0.2.3, on either interpreter: the status query returns no verdict
    and no node list. *)
Theorem sync_behind_yet_no_verdict :
  let net :=
    agents_example 4096 (Some (raw_status (sync_replica_at 4000))) None in
  let db_nodes := [primary_at 4096; sync_replica_at 4000; silent_replica] in
  probed net (Some "192.0.2.1") ["192.0.2.2"; "192.0.2.3"] = db_nodes
  /\ state (sync_replica_at 4000) = "sync_replica"
  /\ log_location (sync_replica_at 4000) = Some 4000%N
  /\ xlog_get (raw_xlog (raw_status (primary_at 4096))) location
     = Some 4096%N
  /\ (4000 < 4096)%N
  /\ (forall py,
        status (fst (_determine_cluster_status py db_nodes)) = DOWN
        /\ snd (_determine_cluster_status py db_nodes) = Raise TypeError)
  /\ (forall py,
        snd (get_cluster_status py net two_replicas_example)
        = Raise TypeError).
Proof.
  intros net db_nodes.
  repeat split; try reflexivity; destruct py; reflexivity.
Qed.

(** *** An asynchronous replica lagging by 3 MiB *)

Lemma bind_assoc {S A B C : Type} (m : M S A) (k : A -> M S B)
    (h : B -> M S C) s :
  bind (bind m k) h s = bind m (fun a => bind (k a) h) s.
Proof. unfold bind. now destruct (m s) as [s1 [a | e]]. Qed.

Lemma bind_cong {S A B : Type} (m : M S A) (k k' : A -> M S B) s :
  (forall a s1, k a s1 = k' a s1) -> bind m k s = bind m k' s.
Proof. intros H. unfold bind. destruct (m s) as [s1 [a | e]]; auto. Qed.

Lemma determine_body_eq py master replicas s :
  determine_body py (master :: replicas) s =
    bind (upto_replicas master replicas)
         (fun _ => conclude py master replicas) s.
Proof.
  unfold determine_body, upto_replicas. cbn [index nth_error tl].
  unfold bind at 1, lift at 1. cbv zeta.
  rewrite bind_assoc. unfold conclude.
  apply bind_cong. intros _ s1. rewrite bind_assoc.
  destruct (node_ip master); reflexivity.
Qed.

Lemma etcd_count_same_states (l1 l2 : list node) :
  map etcd_state l1 = map etcd_state l2 ->
  forall acc, etcd_count l1 acc = etcd_count l2 acc.
Proof.
  revert l2. induction l1 as [| a l1 IH]; intros [| b l2] Hmap acc;
    try discriminate; [reflexivity |].
  simpl in Hmap. inversion Hmap as [[Hab Hrest]].
  cbn [etcd_count]. rewrite Hab. destruct acc as [f l].
  destruct (String.eqb (etcd_state b) "StateFollower"); [now apply IH |].
  destruct (String.eqb (etcd_state b) "StateLeader"); now apply IH.
Qed.

Lemma upto_replicas_same_states master (l1 l2 : list node) s :
  map etcd_state l1 = map etcd_state l2 ->
  upto_replicas master l1 s = upto_replicas master l2 s.
Proof.
  intros Hmap. unfold upto_replicas, etcd_checks. cbv zeta.
  assert (Hlen : List.length l1 = List.length l2)
    by (rewrite <- (length_map etcd_state l1), Hmap; apply length_map).
  rewrite Hlen.
  destruct (node_ip master).
  - rewrite (etcd_count_same_states (master :: l1) (master :: l2))
      by (simpl; now rewrite Hmap).
    reflexivity.
  - now rewrite (etcd_count_same_states l1 l2 Hmap).
Qed.

Lemma outcome_bind_ret {A B : Type} (m : Eval A) (f : A -> B) s :
  outcome (bind m (fun a => ret (f a)) s) = outcome (m s).
Proof. unfold bind, outcome. now destruct (m s) as [s1 [a | e]]. Qed.

(** Exchanging a replica for another whose check also assigns nothing
    to [status] changes neither where the loop stops nor how. *)
Lemma check_replicas_exchange py mlog mtl (r r0 a a0 : node)
    (post : list node) :
  (forall s, check_replica py mlog mtl r s = (s, Ok a)) ->
  (forall s, check_replica py mlog mtl r0 s = (s, Ok a0)) ->
  forall pre s,
    outcome (check_replicas py mlog mtl (pre ++ r :: post) s)
    = outcome (check_replicas py mlog mtl (pre ++ r0 :: post) s).
Proof.
  intros Hr Hr0. induction pre as [| x pre IH]; intros s;
    cbn [app check_replicas].
  - rewrite (bind_ok _ _ _ _ _ (Hr s)), (bind_ok _ _ _ _ _ (Hr0 s)).
    now rewrite !outcome_bind_ret.
  - unfold bind at 1 3.
    destruct (check_replica py mlog mtl x s) as [s1 [x' | e]];
      [| reflexivity].
    rewrite !outcome_bind_ret. apply IH.
Qed.

Lemma check_replica_caught_up py (m : N) mtl (replica : node) s :
  state replica = "async_replica" ->
  timeline replica = mtl ->
  check_replica py (Some m) mtl (caught_up replica m) s =
    (s, Ok (with_errors (caught_up replica m)
                        (extra_master (caught_up replica m)))).
Proof.
  intros Hstate Htl. unfold check_replica.
  cbn [state timeline caught_up]. rewrite Hstate, Htl, ne_opt_same, andb_false_r.
  cbn [String.eqb Ascii.eqb Bool.eqb].
  rewrite (bind_ok _ _ s s (caught_up replica m)).
  - apply extra_master_last.
  - unfold bind, ret, lift. cbn [log_location caught_up sub_opt].
    rewrite Z.sub_diag. reflexivity.
Qed.

(** A lag of 3 MiB, in general.  Let an asynchronous replica be on the
    primary's timeline with a log position exactly 3145728 bytes (3 MiB)
    below the primary's.  Its
    check always completes, assigns nothing to [status] and appends the
    diagnostic "Lag: 3.00MiB" to its errors; the evaluation of a node list
    holding that replica goes through the same values of [status] and ends
    with the same verdict (or the same exception) as if the replica had not
    lagged at all; and whenever it returns, the replica is returned with
    the diagnostic, in its place. *)
Theorem lag_of_3mib_is_reported :
  forall (py : interpreter) (master : node) (pre : list node) (r : node)
         (post : list node) (l : N),
    xlog_get (raw_xlog (raw_status master)) location
      = Some (l + 3145728)%N ->
    state r = "async_replica" ->
    timeline r = raw_timeline (raw_status master) ->
    log_location r = Some l ->
    let m := (l + 3145728)%N in
    let mtl := raw_timeline (raw_status master) in
    let noted := with_errors r ("Lag: 3.00MiB" :: extra_master r) in
    let db_nodes := master :: (pre ++ r :: post)%list in
    let without_lag := master :: (pre ++ caught_up r m :: post)%list in
    (exists e, In e (errors noted) /\ contains "3.00MiB" e = true)
    /\ (forall s, check_replica py (Some m) mtl r s = (s, Ok noted))
    /\ fst (_determine_cluster_status py db_nodes)
       = fst (_determine_cluster_status py without_lag)
    /\ verdict_of (snd (_determine_cluster_status py db_nodes))
       = verdict_of (snd (_determine_cluster_status py without_lag))
    /\ (forall st nodes,
          snd (_determine_cluster_status py db_nodes) = Ok (st, nodes) ->
          exists pre' post',
            List.length pre' = List.length pre
            /\ nodes = ((match node_ip master with
                         | None => []
                         | Some _ => [master]
                         end) ++ pre' ++ noted :: post')%list).
Proof.
  intros py master pre r post l Hm Hstate Htl Hlog m mtl noted db_nodes
         without_lag.
  assert (Hcheck : forall s, check_replica py (Some m) mtl r s = (s, Ok noted))
    by (intros s; now apply check_replica_lag_3mib).
  assert (Hruns : forall s1,
             fst (conclude py master (pre ++ r :: post) s1)
             = fst (conclude py master (pre ++ caught_up r m :: post) s1)
             /\ verdict_of (snd (conclude py master (pre ++ r :: post) s1))
                = verdict_of
                    (snd (conclude py master (pre ++ caught_up r m :: post) s1))).
  { intros s1. unfold conclude. rewrite Hm. fold m mtl.
    pose proof (check_replicas_exchange py (Some m) mtl r (caught_up r m)
                  _ _ post Hcheck
                  (fun s => check_replica_caught_up py m mtl r s Hstate Htl)
                  pre s1) as Hout.
    unfold bind.
    destruct (check_replicas py (Some m) mtl (pre ++ r :: post) s1)
      as [sa [out | e]];
      destruct (check_replicas py (Some m) mtl
                  (pre ++ caught_up r m :: post) s1) as [sb [out0 | e0]];
      unfold outcome in Hout; cbn [fst snd] in Hout; inversion Hout; subst;
      split; reflexivity. }
  assert (Hstates : map etcd_state (pre ++ r :: post)
                    = map etcd_state (pre ++ caught_up r m :: post))
    by (now rewrite !map_app).
  assert (Hwhole : fst (_determine_cluster_status py db_nodes)
                   = fst (_determine_cluster_status py without_lag)
                   /\ verdict_of (snd (_determine_cluster_status py db_nodes))
                      = verdict_of
                          (snd (_determine_cluster_status py without_lag))).
  { unfold _determine_cluster_status, db_nodes, without_lag.
    rewrite !determine_body_eq.
    unfold bind.
    rewrite (upto_replicas_same_states master _ _ initial_state Hstates).
    destruct (upto_replicas master (pre ++ caught_up r m :: post)
                initial_state) as [s1 [[] | e]].
    - apply Hruns.
    - split; reflexivity. }
  split; [| split; [exact Hcheck | split; [apply Hwhole | split; [apply Hwhole |]]]].
  - exists "Lag: 3.00MiB". split; [| reflexivity].
    unfold noted, with_errors. cbn [errors].
    apply in_or_app. right. now left.
  - intros st nodes Hret. unfold _determine_cluster_status in Hret.
    destruct (determine_body_cons py master (pre ++ r :: post) initial_state
                initial_consistent) as (s1 & _ & Hbody).
    fold db_nodes in Hbody. rewrite Hbody in Hret.
    destruct (conclude py master (pre ++ r :: post) s1) as [s' res] eqn:E.
    cbn [snd] in Hret. subst res.
    apply conclude_ok_inv in E as (out & Hloop & _ & ->).
    rewrite Hm in Hloop.
    apply check_replicas_split in Hloop
      as (sa & sb & pre' & r' & post' & _ & Hr & _ & -> & Hlen).
    fold m in Hr. unfold mtl in Hcheck. rewrite Hcheck in Hr.
    inversion Hr; subst sb r'.
    exists pre', post'. split; [exact Hlen |].
    destruct (node_ip master); reflexivity.
Qed.

Lemma lag_of_3mib_is_reported_witness :
  let lagging := async_replica_at 4096 1 in
  (forall s,
     check_replica Py3 (Some 3149824%N) (Some 1%N) lagging s
     = (s, Ok (with_errors lagging ["Lag: 3.00MiB"])))
  /\ verdict_of
       (snd (_determine_cluster_status Py3
               [primary_at 3149824; sync_replica_at 3149824; lagging]))
     = verdict_of
         (snd (_determine_cluster_status Py3
                 [primary_at 3149824; sync_replica_at 3149824;
                  caught_up lagging 3149824])).
Proof.
  intros lagging.
  destruct (lag_of_3mib_is_reported Py3 (primary_at 3149824)
              [sync_replica_at 3149824] lagging []
              4096%N eq_refl eq_refl eq_refl eq_refl)
    as (_ & Hcheck & _ & Hverdict & _).
  split; [exact Hcheck | exact Hverdict].
Defined.

(** C6: the code where an earlier replica reports no log position.  The
    primary 192.0.2.1 is at position 3149824, the asynchronous replica
    192.0.2.3 on its timeline exactly 3145728 bytes behind; the agent of
    192.0.2.2, listed before it, does not answer.  The lag subtraction of
    line 893 raises [TypeError] at 192.0.2.2, on either interpreter, before
    the lagging replica is visited: it gains no diagnostic, and the status
    query returns nothing. *)
Theorem lagging_replica_never_checked :
  let net :=
    agents_example 3149824 None
      (Some (raw_status (async_replica_at 4096 1))) in
  let db_nodes :=
    [primary_at 3149824; silent_sync_replica; async_replica_at 4096 1] in
  probed net (Some "192.0.2.1") ["192.0.2.2"; "192.0.2.3"] = db_nodes
  /\ state (async_replica_at 4096 1) = "async_replica"
  /\ timeline (async_replica_at 4096 1)
     = raw_timeline (raw_status (primary_at 3149824))
  /\ sub_opt (xlog_get (raw_xlog (raw_status (primary_at 3149824))) location)
             (log_location (async_replica_at 4096 1))
     = Ok 3145728
  /\ (forall py s,
        snd (check_replica py (Some 3149824%N) (Some 1%N)
               silent_sync_replica s)
        = Raise TypeError)
  /\ (forall py,
        snd (_determine_cluster_status py db_nodes) = Raise TypeError)
  /\ (forall py,
        snd (get_cluster_status py net two_replicas_example)
        = Raise TypeError).
Proof.
  intros net db_nodes.
  repeat split; try reflexivity; intros; destruct py; reflexivity.
Qed.

(** * Further properties *)

(** ** Topology resolution *)

Lemma after_nothing (w : world) : after w 0 (dcs_conf w) [] = w.
Proof. destruct w. unfold after. simpl. now rewrite app_nil_r. Qed.

Lemma only_queried_refl (w : world) : only_queried w w.
Proof. exists 0%nat. symmetry. apply after_nothing. Qed.

Lemma only_queried_step (w w1 : world) :
  only_queried w w1 -> only_queried w (after w1 1 (dcs_conf w1) [Observed]).
Proof.
  intros [n ->]. exists (S n). rewrite after_after.
  unfold after. cbn [dcs_conf]. f_equal; [lia |].
  f_equal. change [Observed] with (repeat Observed 1). rewrite <- repeat_app.
  f_equal. lia.
Qed.

Lemma only_queried_commands (w w1 : world) :
  only_queried w w1 ->
  filter is_command (journal w1) = filter is_command (journal w)
  /\ dcs_conf w1 = dcs_conf w.
Proof.
  intros [n ->]. unfold after. cbn [journal dcs_conf]. split; [| reflexivity].
  rewrite filter_app.
  replace (filter is_command (repeat Observed n)) with (@nil event).
  - apply app_nil_r.
  - induction n as [| n IH]; [reflexivity | exact IH].
Qed.

Lemma resolve_only_queries (w : world) :
  only_queried w (fst (_get_cluster_addresses w)).
Proof.
  destruct (existsb is_database (services_to_install w)) eqn:Hdb.
  - rewrite (resolve_database w Hdb). cbn [fst].
    apply only_queried_step, only_queried_refl.
  - destruct (existsb is_manager (services_to_install w)) eqn:Hm.
    + rewrite (resolve_manager w Hdb Hm). cbn [fst].
      apply only_queried_step, only_queried_refl.
    + unfold _get_cluster_addresses, bind, installed. rewrite Hdb, Hm.
      apply only_queried_refl.
Qed.

(** X1. On a database node, a health report of etcd that contains
    "cluster is unavailable" or "failed to list members" makes resolution
    raise the etcd-not-responding error.  Whenever resolution returns, the
    report contained neither, the primary is the host found in the DSN
    ([None] when it names none), and the replicas are the etcd members
    other than the primary, in member order: the primary is never among
    them. *)
Theorem database_resolution :
  forall (w : world),
    existsb is_database (services_to_install w) = true ->
    let seen := outside w (observed w) in
    let members := map fst (etcd_members seen) in
    (~ answering seen ->
     snd (_get_cluster_addresses w) = Raise etcd_not_responding)
    /\ (forall master replicas,
          snd (_get_cluster_addresses w) = Ok (master, replicas) ->
          answering seen
          /\ master = master_dsn seen
          /\ replicas = filter (fun node => negb (eq_opt node master)) members
          /\ (forall a, In a replicas <-> In a members /\ master <> Some a)
          /\ (forall m, master = Some m -> ~ In m replicas)).
Proof.
  intros w Hdb seen members.
  rewrite (resolve_database w Hdb). cbn [snd]. cbv zeta. fold seen.
  destruct (contains "cluster is unavailable" (etcd_cluster_health seen))
    eqn:H1; cbn [orb].
  { split; [reflexivity | discriminate]. }
  destruct (contains "failed to list members" (etcd_cluster_health seen))
    eqn:H2.
  { split; [reflexivity | discriminate]. }
  split.
  { intros Hnot. exfalso. apply Hnot. now split. }
  intros master replicas Hret. inversion Hret; subst master. clear Hret.
  fold members.
  assert (Hin : forall a,
             In a (filter (fun node => negb (eq_opt node (master_dsn seen)))
                          members)
             <-> In a members /\ master_dsn seen <> Some a).
  { intros a. rewrite filter_In, negb_true_iff. split; intros [Hm Hne].
    - split; [exact Hm |]. intros Heq. rewrite Heq in Hne. simpl in Hne.
      now rewrite String.eqb_refl in Hne.
    - split; [exact Hm | now apply eq_opt_false]. }
  split; [now split |]. split; [reflexivity |]. split; [reflexivity |].
  split; [exact Hin |].
  intros m Hm Hrep. apply Hin in Hrep as [_ Hne]. congruence.
Qed.

Lemma database_resolution_witness :
  answering (outside two_replicas_example 0)
  /\ ~ In "192.0.2.1" ["192.0.2.2"; "192.0.2.3"].
Proof.
  destruct (database_resolution two_replicas_example eq_refl)
    as [_ Hreturned].
  destruct (Hreturned (Some "192.0.2.1") ["192.0.2.2"; "192.0.2.3"] eq_refl)
    as (Hanswering & _ & _ & _ & Hnot).
  split; [exact Hanswering | now apply Hnot].
Defined.

(** ** The proxy-observed strategy *)

Lemma append_nil_r (s : string) : (s ++ "")%string = s.
Proof. induction s; simpl; congruence. Qed.

Lemma split_acc_whole (sep : ascii) (s cur : string) :
  lacks sep s = true -> split_acc sep cur s = [(cur ++ s)%string].
Proof.
  revert cur. induction s as [| c s IH]; intros cur Hl; simpl in *.
  - now rewrite append_nil_r.
  - apply andb_true_iff in Hl as [Hc Hs]. apply negb_true_iff in Hc.
    rewrite Hc, (IH _ Hs), append_assoc. reflexivity.
Qed.

Lemma split_acc_nonempty (sep : ascii) (s cur : string) :
  (1 <= List.length (split_acc sep cur s))%nat.
Proof.
  revert cur. induction s as [| c s IH]; intros cur; simpl; [lia |].
  destruct (Ascii.eqb c sep); simpl; [lia | apply IH].
Qed.

Lemma split_acc_parts (sep : ascii) (s cur : string) :
  lacks sep s = false -> (2 <= List.length (split_acc sep cur s))%nat.
Proof.
  revert cur. induction s as [| c s IH]; intros cur Hl; simpl in *.
  - discriminate.
  - destruct (Ascii.eqb c sep); simpl in *.
    + pose proof (split_acc_nonempty sep s EmptyString). lia.
    + now apply IH.
Qed.

(** X2. A row of the server table carries an address exactly when its
    name holds an underscore.  One row without it, at any place in the
    table and whatever its status, makes the proxy-observed resolution
    raise [IndexError]. *)
Theorem proxy_row_without_underscore :
  forall (w : world) (pre : list (backend * string)) (bad : backend)
         (post : list backend),
    existsb is_database (services_to_install w) = false ->
    existsb is_manager (services_to_install w) = true ->
    haproxy_servers (outside w (observed w))
      = (map fst pre ++ bad :: post)%list ->
    Forall parsed pre ->
    lacks "_" (svname bad) = true ->
    snd (_get_cluster_addresses w) = Raise IndexError
    /\ (forall b, (exists a, server_name b = Ok a)
                  <-> lacks "_" (svname b) = false).
Proof.
  intros w pre bad post Hdb Hm Htable Hpre Hbad. split.
  - rewrite (resolve_manager w Hdb Hm). cbn [snd]. rewrite Htable.
    assert (Hraise : server_name bad = Raise IndexError).
    { unfold server_name, split. now rewrite (split_acc_whole _ _ _ Hbad). }
    clear Htable. generalize (@None string) ([] : list string).
    induction Hpre as [| [b a] rows Hrow _ IH]; intros master replicas; simpl.
    + now rewrite Hraise.
    + unfold parsed in Hrow. simpl in Hrow. rewrite Hrow.
      destruct (String.eqb (backend_status b) "UP"); apply IH.
  - intros b. unfold server_name, split, index. split.
    + intros [a Ha]. destruct (lacks "_" (svname b)) eqn:Hl; [| reflexivity].
      rewrite (split_acc_whole _ _ _ Hl) in Ha. discriminate.
    + intros Hl. pose proof (split_acc_parts "_" (svname b) EmptyString Hl).
      destruct (split_acc "_" "" (svname b)) as [| x [| y l]];
        simpl in *; try lia. eauto.
Qed.

Lemma proxy_row_without_underscore_witness :
  snd (_get_cluster_addresses proxy_bad_row_example) = Raise IndexError.
Proof.
  exact (proj1 (proxy_row_without_underscore proxy_bad_row_example
                  [(Backend "postgresql_192.0.2.1_5432" "UP", "192.0.2.1")]
                  (Backend "BACKEND" "UP") []
                  eq_refl eq_refl eq_refl ltac:(literal_list) eq_refl)).
Defined.

Lemma down_addresses_all (rows : list (backend * string)) :
  Forall (fun row => is_up row = false) rows ->
  down_addresses rows = map snd rows.
Proof.
  unfold down_addresses.
  induction 1 as [| row rows Hrow _ IH]; simpl; [reflexivity |].
  rewrite Hrow. simpl. now rewrite IH.
Qed.

(** X3. In the proxy-observed strategy a table without any "UP" row
    resolves to no primary at all, every address being returned as a
    replica, in table order. *)
Theorem proxy_without_up_row :
  forall (w : world) (rows : list (backend * string)),
    existsb is_database (services_to_install w) = false ->
    existsb is_manager (services_to_install w) = true ->
    haproxy_servers (outside w (observed w)) = map fst rows ->
    Forall parsed rows ->
    Forall (fun row => is_up row = false) rows ->
    snd (_get_cluster_addresses w) = Ok (None, map snd rows).
Proof.
  intros w rows Hdb Hm Htable Hparsed Hdown.
  rewrite (resolve_manager w Hdb Hm). cbn [snd]. rewrite Htable.
  rewrite (haproxy_loop_parsed rows Hparsed), (last_up_none rows None Hdown).
  cbn [app]. now rewrite (down_addresses_all rows Hdown).
Qed.

Lemma proxy_without_up_row_witness :
  snd (_get_cluster_addresses proxy_all_down_example)
    = Ok (None, ["192.0.2.1"; "192.0.2.2"]).
Proof.
  apply (proxy_without_up_row proxy_all_down_example
           [(Backend "postgresql_192.0.2.1_5432" "DOWN", "192.0.2.1");
            (Backend "postgresql_192.0.2.2_5432" "MAINT", "192.0.2.2")]);
    literal_list.
Defined.

(** ** Adding, reinitialising and removing a node *)

Lemma is_member_iff (address : string) (master : option string)
    (replicas : list string) :
  is_member address master replicas = true
  <-> master = Some address \/ In address replicas.
Proof.
  unfold is_member. rewrite existsb_exists. split.
  - intros [member [Hin Heq]]. destruct member as [m |]; [| discriminate].
    simpl in Heq. apply String.eqb_eq in Heq. subst m.
    destruct Hin as [-> | Hin]; [now left | right].
    apply in_map_iff in Hin as (a & Ha & Hin). now inversion Ha; subst.
  - intros [-> | Hin]; exists (Some address).
    + split; [now left | apply String.eqb_refl].
    + split; [right; now apply in_map | apply String.eqb_refl].
Qed.

Lemma eq_opt_true (a : string) (m : option string) :
  eq_opt a m = true <-> m = Some a.
Proof.
  destruct m as [b |]; simpl; [| split; discriminate].
  rewrite String.eqb_eq. split; congruence.
Qed.

Lemma restart_runs (w : world) :
  _restart_manager_db_dependent_services w
  = (after w 0 (dcs_conf w) restart_events, Ok tt).
Proof.
  unfold _restart_manager_db_dependent_services, bind, emit, after,
    restart_events.
  cbn [services_to_install outside observed dcs_conf journal Nat.add].
  repeat rewrite <- app_assoc. reflexivity.
Qed.

Lemma add_cases (net : network) (address : string) (w : world) :
  add_cluster_node net address w =
    if existsb is_database (services_to_install w)
    then (w, Raise AddOnDatabaseNode)
    else
      match _get_cluster_addresses w with
      | (w1, Raise e) => (w1, Raise e)
      | (w1, Ok (master, replicas)) =>
          if is_member address master replicas
          then (w1, Raise (AlreadyMember address))
          else
            match db_endpoint net address with
            | None => (w1, Raise (NodeNotResponding address))
            | Some _ =>
                (after w1 0 (dcs_conf w1)
                   ([LogInfo "Updating DB proxy configuration.";
                       Sudo ["tee"; "-a"; "/etc/haproxy/haproxy.cfg"; "<<<";
                             HAPROXY_NODE_ENTRY address
                             ++ String "010" EmptyString]]
                      ++ restart_events),
                 Ok tt)
            end
      end.
Proof.
  unfold add_cluster_node. unfold bind at 1, installed at 1.
  destruct (existsb is_database (services_to_install w)); [reflexivity |].
  unfold bind at 1.
  destruct (_get_cluster_addresses w) as [w1 [[master replicas] | e0]];
    [| reflexivity].
  destruct (is_member address master replicas); [reflexivity |].
  cbn [_get_raw_node_status_DB].
  destruct (db_endpoint net address); [| reflexivity].
  unfold bind at 1, emit at 1. unfold bind at 1, sudo_stdin, emit at 1.
  rewrite restart_runs. unfold after.
  cbn [services_to_install outside observed dcs_conf journal Nat.add app].
  repeat rewrite <- app_assoc. reflexivity.
Qed.

(** X4. [add_cluster_node] refuses on a database node before any query.
    Elsewhere, for an address that is not a resolved member: when the agent
    of the node gives no answer it raises the not-operational error with no
    command issued and the stored configuration as before; when the agent
    answers, what follows the resolving query is the log line and the
    append of the node's proxy entry, in this order. *)
Theorem add_cluster_node_guards :
  forall (net : network) (address : string) (w : world),
    (existsb is_database (services_to_install w) = true ->
     add_cluster_node net address w = (w, Raise AddOnDatabaseNode))
    /\ (existsb is_database (services_to_install w) = false ->
        forall w1 master replicas,
          _get_cluster_addresses w = (w1, Ok (master, replicas)) ->
          master <> Some address -> ~ In address replicas ->
          let w' := fst (add_cluster_node net address w) in
          (db_endpoint net address = None ->
           snd (add_cluster_node net address w)
           = Raise (NodeNotResponding address)
           /\ filter is_command (journal w') = filter is_command (journal w)
           /\ dcs_conf w' = dcs_conf w)
          /\ (db_endpoint net address <> None ->
              exists rest,
                journal w'
                = List.app (journal w1)
                    (LogInfo "Updating DB proxy configuration."
                     :: Sudo ["tee"; "-a"; "/etc/haproxy/haproxy.cfg"; "<<<";
                              HAPROXY_NODE_ENTRY address
                              ++ String "010" EmptyString]
                     :: rest))).
Proof.
  intros net address w. rewrite add_cases.
  destruct (existsb is_database (services_to_install w)) eqn:Hdb.
  { split; [reflexivity | discriminate]. }
  split; [discriminate |]. intros _ w1 master replicas Hres Hmaster Hnot.
  pose proof (resolve_only_queries w) as Hq.
  rewrite Hres in Hq |- *. cbn [fst] in Hq.
  assert (Hmem : is_member address master replicas = false).
  { destruct (is_member address master replicas) eqn:Hmem; [| reflexivity].
    apply is_member_iff in Hmem as [Heq | Hin]; contradiction. }
  rewrite Hmem.
  destruct (db_endpoint net address) as [answer |]; cbv zeta; cbn [fst snd].
  - split; [discriminate |]. intros _. exists restart_events.
    reflexivity.
  - split; [| congruence]. intros _. split; [reflexivity |].
    apply (only_queried_commands w w1 Hq).
Qed.

(** X5. On a manager node, [add_cluster_node] with an address that is
    already the resolved primary or one of the resolved replicas raises the
    already-part-of-the-cluster error; nothing but the resolving query has
    happened, and the node is not even probed. *)
Theorem add_existing_member_refused :
  forall (net : network) (address : string) (w w1 : world)
         (master : option string) (replicas : list string),
    existsb is_database (services_to_install w) = false ->
    _get_cluster_addresses w = (w1, Ok (master, replicas)) ->
    master = Some address \/ In address replicas ->
    add_cluster_node net address w = (w1, Raise (AlreadyMember address))
    /\ only_queried w w1.
Proof.
  intros net address w w1 master replicas Hdb Hres Hmember.
  split.
  - rewrite add_cases, Hdb, Hres.
    now rewrite (proj2 (is_member_iff address master replicas) Hmember).
  - pose proof (resolve_only_queries w) as Hq. now rewrite Hres in Hq.
Qed.

Lemma add_existing_member_refused_witness :
  snd (add_cluster_node (Network (fun _ => None) (fun _ => None))
         "192.0.2.2" proxy_all_down_example)
  = Raise (AlreadyMember "192.0.2.2").
Proof.
  destruct (add_existing_member_refused
              (Network (fun _ => None) (fun _ => None)) "192.0.2.2"
              proxy_all_down_example
              (after proxy_all_down_example 1 (PatroniConfig [] []) [Observed])
              None ["192.0.2.1"; "192.0.2.2"] eq_refl eq_refl
              (or_intror (or_intror (or_introl eq_refl))))
    as [Hrun _].
  now rewrite Hrun.
Defined.

Lemma reinit_cases (address : string) (w : world) :
  reinit_cluster_node address w =
    match _get_cluster_addresses w with
    | (w1, Raise e) => (w1, Raise e)
    | (w1, Ok (master, replicas)) =>
        if eq_opt address master then (w1, Raise CannotReinitPrimary)
        else if negb (is_member address master replicas)
        then (w1, Raise (ReinitNotAMember address))
        else if existsb is_database (services_to_install w1)
        then (after w1 0 (dcs_conf w1)
                [LogInfo ("Reinitialising DB node " ++ address);
                 Patronictl ["reinit"; "--force"; "postgres";
                             _get_patroni_id address];
                 LogInfo ("DB node " ++ address ++ " reinitialised.")],
              Ok tt)
        else (w1, Raise ReinitWrongRole)
    end.
Proof.
  unfold reinit_cluster_node. unfold bind at 1.
  destruct (_get_cluster_addresses w) as [w1 [[master replicas] | e0]];
    [| reflexivity].
  destruct (eq_opt address master); [reflexivity |].
  destruct (negb (is_member address master replicas)); [reflexivity |].
  unfold bind at 1, installed at 1.
  destruct (existsb is_database (services_to_install w1)); [| reflexivity].
  unfold bind, emit, after.
  cbn [services_to_install outside observed dcs_conf journal Nat.add].
  repeat rewrite <- app_assoc. reflexivity.
Qed.

(** X6. [reinit_cluster_node] checks, in this order, that the address
    is not the resolved primary, that it is a resolved replica, and that
    the node runs the database service; each failure raises its own error
    with nothing but the resolving query made, so that no reinit is ever
    issued for the primary, for a node outside the cluster, or from a node
    without the database role.  When the three checks pass, what follows
    the resolving query is the log line and one forced reinit against the
    Patroni name of the address. *)
Theorem reinit_cluster_node_refusals :
  forall (address : string) (w w1 : world) (master : option string)
         (replicas : list string),
    _get_cluster_addresses w = (w1, Ok (master, replicas)) ->
    only_queried w w1
    /\ (master = Some address ->
        reinit_cluster_node address w = (w1, Raise CannotReinitPrimary))
    /\ (master <> Some address -> ~ In address replicas ->
        reinit_cluster_node address w
        = (w1, Raise (ReinitNotAMember address)))
    /\ (master <> Some address -> In address replicas ->
        existsb is_database (services_to_install w) = false ->
        reinit_cluster_node address w = (w1, Raise ReinitWrongRole))
    /\ (master <> Some address -> In address replicas ->
        existsb is_database (services_to_install w) = true ->
        exists rest,
          journal (fst (reinit_cluster_node address w))
          = List.app (journal w1)
              (LogInfo ("Reinitialising DB node " ++ address)
               :: Patronictl ["reinit"; "--force"; "postgres";
                              _get_patroni_id address]
               :: rest)).
Proof.
  intros address w w1 master replicas Hres.
  pose proof (resolve_only_queries w) as Hq. rewrite Hres in Hq.
  cbn [fst] in Hq. rewrite reinit_cases, Hres.
  assert (Hsame : services_to_install w1 = services_to_install w)
    by (destruct Hq as [n ->]; reflexivity).
  rewrite Hsame.
  split; [exact Hq | split; [| split; [| split]]].
  - intros ->. simpl. now rewrite String.eqb_refl.
  - intros Hne Hnot. rewrite (eq_opt_false _ _ Hne).
    destruct (is_member address master replicas) eqn:Hmem; [| reflexivity].
    apply is_member_iff in Hmem as [Heq | Hin]; contradiction.
  - intros Hne Hin Hdb. rewrite (eq_opt_false _ _ Hne).
    rewrite (proj2 (is_member_iff address master replicas) (or_intror Hin)).
    cbn [negb]. now rewrite Hdb.
  - intros Hne Hin Hdb. rewrite (eq_opt_false _ _ Hne).
    rewrite (proj2 (is_member_iff address master replicas) (or_intror Hin)).
    cbn [negb]. rewrite Hdb. cbn [fst after journal].
    exists [LogInfo ("DB node " ++ address ++ " reinitialised.")].
    reflexivity.
Qed.

Lemma reinit_cluster_node_refusals_witness :
  snd (reinit_cluster_node "192.0.2.1" two_replicas_example)
  = Raise CannotReinitPrimary
  /\ snd (reinit_cluster_node "192.0.2.9" two_replicas_example)
     = Raise (ReinitNotAMember "192.0.2.9").
Proof.
  split.
  - destruct (reinit_cluster_node_refusals "192.0.2.1" two_replicas_example
                (after two_replicas_example 1 (PatroniConfig [] []) [Observed])
                (Some "192.0.2.1") ["192.0.2.2"; "192.0.2.3"] eq_refl)
      as (_ & Hprimary & _).
    now rewrite (Hprimary eq_refl).
  - destruct (reinit_cluster_node_refusals "192.0.2.9" two_replicas_example
                (after two_replicas_example 1 (PatroniConfig [] []) [Observed])
                (Some "192.0.2.1") ["192.0.2.2"; "192.0.2.3"] eq_refl)
      as (_ & _ & Hmember & _).
    rewrite (Hmember ltac:(discriminate) ltac:(simpl; intuition discriminate)).
    reflexivity.
Defined.

Lemma remove_cases (address : string) (w : world) :
  remove_cluster_node address w =
    match _get_cluster_addresses w with
    | (w1, Raise e) => (w1, Raise e)
    | (w1, Ok (master, replicas)) =>
        if (List.length replicas <? 2)%nat then (w1, Raise LastReplica)
        else if eq_opt address master then (w1, Raise CannotRemovePrimary)
        else if existsb is_database (services_to_install w1) then
          match dict_get address (etcd_members (outside w1 (observed w1))) with
          | None | Some EmptyString =>
              (after w1 1 (dcs_conf w1) [Observed],
               Raise (MemberNotFound address))
          | Some node_id =>
              let conf :=
                PatroniConfig
                  (filter (fun entry => negb (references address entry))
                          (pg_hba (dcs_conf w1)))
                  (other_settings (dcs_conf w1)) in
              (after w1 1 conf
                 [Observed;
                  LogInfo ("Removing etcd node " ++ address);
                  EtcdMemberRemove node_id;
                  LogInfo ("Updating pg_hba to remove " ++ address);
                  EtcdSetConfig conf;
                  LogInfo ("Node " ++ address ++ " removed.")],
               Ok tt)
          end
        else
          (after w1 0 (dcs_conf w1)
             ([LogInfo "Updating DB proxy configuration.";
               Sudo ["sed"; "-i";
                     "/" ++ replace "/" "\/" (HAPROXY_NODE_ENTRY address)
                     ++ "/d";
                     "/etc/haproxy/haproxy.cfg"]]
              ++ restart_events),
           Ok tt)
    end.
Proof.
  destruct (_get_cluster_addresses w) as [w1 [[master replicas] | e0]] eqn:Hres.
  2: { unfold remove_cluster_node. now rewrite (bind_raise _ _ _ _ _ Hres). }
  rewrite (remove_after_resolve _ _ _ _ _ Hres).
  destruct (List.length replicas <? 2)%nat; [reflexivity |].
  destruct (eq_opt address master); [reflexivity |].
  unfold bind at 1, installed at 1.
  destruct (existsb is_database (services_to_install w1)).
  - unfold bind at 1, observe at 1.
    cbn [services_to_install outside observed dcs_conf journal].
    destruct (dict_get address (etcd_members (outside w1 (observed w1))))
      as [[| c id] |]; try reflexivity.
    unfold bind, emit, _get_patroni_dcs_conf, _set_patroni_dcs_conf, after,
      references.
    cbn [services_to_install outside observed dcs_conf journal Nat.add
         pg_hba other_settings].
    repeat rewrite <- app_assoc. reflexivity.
  - unfold bind at 1, emit at 1. unfold bind at 1, emit at 1.
    rewrite restart_runs. unfold after.
    cbn [services_to_install outside observed dcs_conf journal Nat.add app].
    repeat rewrite <- app_assoc. reflexivity.
Qed.



(** ** Changing the primary, in general *)








Lemma set_master_cases (address : string) (w : world) :
  set_master address w =
    match _get_cluster_addresses w with
    | (w1, Raise e) => (w1, Raise e)
    | (w1, Ok (master, replicas)) =>
        if eq_opt address master then (w1, Raise AlreadyPrimary)
        else if negb (is_member address master replicas)
        then (w1, Raise (NotAMember address))
        else if existsb is_database (services_to_install w1) then
          (emit (LogInfo ("Changing master to " ++ address)) ;;;
           emit (Patronictl ["switchover"; "--force"; "--candidate";
                             _get_patroni_id address]) ;;;
           master <- wait_for_master address 30 master ;;
           if eq_opt address master
           then emit (LogInfo (changed_message address))
           else emit (LogWarning (not_changed_message address master))) w1
        else (w1, Raise WrongRole)
    end.
Proof.
  unfold set_master. unfold bind at 1.
  destruct (_get_cluster_addresses w) as [w1 [[master replicas] | e0]];
    [| reflexivity].
  destruct (eq_opt address master); [reflexivity |].
  unfold is_member.
  destruct (negb (existsb _ _)); [reflexivity |].
  unfold bind at 1, installed at 1.
  now destruct (existsb is_database (services_to_install w1)).
Qed.

(** X10. [set_master] checks, in this order, that the address is not
    the resolved primary, that it is a resolved replica, and that the node
    runs the database service; each failure raises its own error with
    nothing but the resolving query made, so that no switchover is ever
    issued for the current primary, for a node outside the cluster, or from
    a node without the database role. *)
Theorem set_master_refusals :
  forall (address : string) (w w1 : world) (master : option string)
         (replicas : list string),
    _get_cluster_addresses w = (w1, Ok (master, replicas)) ->
    only_queried w w1
    /\ (master = Some address ->
        set_master address w = (w1, Raise AlreadyPrimary))
    /\ (master <> Some address -> ~ In address replicas ->
        set_master address w = (w1, Raise (NotAMember address)))
    /\ (master <> Some address -> In address replicas ->
        existsb is_database (services_to_install w) = false ->
        set_master address w = (w1, Raise WrongRole)).
Proof.
  intros address w w1 master replicas Hres.
  pose proof (resolve_only_queries w) as Hq. rewrite Hres in Hq.
  cbn [fst] in Hq. rewrite set_master_cases, Hres.
  split; [exact Hq | split; [| split]].
  - intros ->. simpl. now rewrite String.eqb_refl.
  - intros Hne Hnot. rewrite (eq_opt_false _ _ Hne).
    destruct (is_member address master replicas) eqn:Hmem; [| reflexivity].
    apply is_member_iff in Hmem as [Heq | Hin]; contradiction.
  - intros Hne Hin Hdb. rewrite (eq_opt_false _ _ Hne).
    rewrite (proj2 (is_member_iff address master replicas) (or_intror Hin)).
    cbn [negb]. destruct Hq as [n ->]. cbn [after services_to_install].
    now rewrite Hdb.
Qed.

Lemma set_master_refusals_witness :
  snd (set_master "192.0.2.1" two_replicas_example) = Raise AlreadyPrimary
  /\ snd (set_master "192.0.2.9" two_replicas_example)
     = Raise (NotAMember "192.0.2.9").
Proof.
  split.
  - destruct (set_master_refusals "192.0.2.1" two_replicas_example
                (after two_replicas_example 1 (PatroniConfig [] []) [Observed])
                (Some "192.0.2.1") ["192.0.2.2"; "192.0.2.3"] eq_refl)
      as (_ & Hprimary & _).
    now rewrite (Hprimary eq_refl).
  - destruct (set_master_refusals "192.0.2.9" two_replicas_example
                (after two_replicas_example 1 (PatroniConfig [] []) [Observed])
                (Some "192.0.2.1") ["192.0.2.2"; "192.0.2.3"] eq_refl)
      as (_ & _ & Hmember & _).
    rewrite (Hmember ltac:(discriminate) ltac:(simpl; intuition discriminate)).
    reflexivity.
Defined.

(** ** What the evaluation leaves of the nodes *)

Lemma with_errors_app (n : node) (es fs : list string) :
  with_errors (with_errors n es) fs = with_errors n (es ++ fs).
Proof. unfold with_errors. simpl. now rewrite app_assoc. Qed.

Lemma annotated_refl (r : node) : annotated r r.
Proof. exists []. symmetry. apply with_errors_nil. Qed.

Lemma annotated_append (r r' : node) (e : string) :
  annotated r r' -> annotated r (append_error r' e).
Proof.
  intros [es ->]. exists (es ++ [e])%list. apply append_error_with_errors.
Qed.

Lemma check_replica_annotates py mlog mtl (r : node) s s' r' :
  check_replica py mlog mtl r s = (s', Ok r') -> annotated r r'.
Proof.
  unfold check_replica. intros H.
  apply bind_ok_inv in H as (s1 & r1 & Hfirst & Hlast).
  assert (H1 : annotated r r1).
  { destruct (String.eqb (state r) "sync_replica").
    - apply bind_ok_inv in Hfirst as (s2 & behind & _ & Hfirst).
      destruct behind.
      + apply bind_ok_inv in Hfirst as (s3 & [] & _ & Hfirst).
        unfold ret in Hfirst. inversion Hfirst; subst.
        apply annotated_append, annotated_refl.
      + unfold ret in Hfirst. inversion Hfirst; subst. apply annotated_refl.
    - apply bind_ok_inv in Hfirst as (s2 & r2 & Htl & Hfirst).
      assert (H2 : annotated r r2).
      { destruct (truthy mtl && ne_opt (timeline r) mtl).
        - apply bind_ok_inv in Htl as (s3 & [] & _ & Htl).
          unfold ret in Htl. inversion Htl; subst.
          apply annotated_append, annotated_refl.
        - unfold ret in Htl. inversion Htl; subst. apply annotated_refl. }
      apply bind_ok_inv in Hfirst as (s3 & lag & _ & Hfirst).
      apply bind_ok_inv in Hfirst as (s4 & lag_mb & _ & Hfirst).
      destruct (float_gt lag_mb 2); unfold ret in Hfirst;
        inversion Hfirst; subst; [now apply annotated_append | exact H2]. }
  rewrite extra_master_last in Hlast. inversion Hlast; subst.
  destruct H1 as [es ->]. rewrite with_errors_app. now eexists.
Qed.

Lemma check_replicas_annotate py mlog mtl (replicas : list node) :
  forall s s' out,
    check_replicas py mlog mtl replicas s = (s', Ok out) ->
    Forall2 annotated replicas out.
Proof.
  induction replicas as [| r rest IH]; intros s s' out H;
    cbn [check_replicas] in H.
  - unfold ret in H. inversion H. constructor.
  - apply bind_ok_inv in H as (s1 & r' & Hr & H).
    apply bind_ok_inv in H as (s2 & rest' & Hrest & H).
    unfold ret in H. inversion H; subst. constructor.
    + exact (check_replica_annotates _ _ _ _ _ _ _ Hr).
    + exact (IH _ _ _ Hrest).
Qed.

(** X11. Whatever [_determine_cluster_status] returns, it returns the
    nodes it was given, in their order: the primary untouched and first
    (left out when its address is [None]), every replica with all its
    fields as before except that errors may have been appended to its
    list; nothing is ever cleared, reordered or dropped. *)
Theorem evaluation_only_annotates :
  forall (py : interpreter) (db_nodes : list node) (st : Z)
         (nodes : list node),
    snd (_determine_cluster_status py db_nodes) = Ok (st, nodes) ->
    exists master replicas replicas',
      db_nodes = master :: replicas
      /\ Forall2 annotated replicas replicas'
      /\ nodes = match node_ip master with
                 | None => replicas'
                 | Some _ => master :: replicas'
                 end
      /\ map node_ip replicas' = map node_ip replicas
      /\ map state replicas' = map state replicas.
Proof.
  intros py db_nodes st nodes Hret.
  destruct db_nodes as [| master replicas]; [discriminate |].
  unfold _determine_cluster_status in Hret.
  destruct (determine_body_cons py master replicas initial_state
              initial_consistent) as (s1 & _ & Hbody).
  rewrite Hbody in Hret.
  destruct (conclude py master replicas s1) as [s' res] eqn:E.
  cbn [snd] in Hret. subst res.
  apply conclude_ok_inv in E as (out & Hloop & _ & ->).
  apply check_replicas_annotate in Hloop.
  exists master, replicas, out.
  split; [reflexivity | split; [exact Hloop | split; [reflexivity |]]].
  clear -Hloop. induction Hloop as [| r r' rs rs' [es ->] _ [IH1 IH2]];
    [now split |].
  simpl. now rewrite IH1, IH2.
Qed.

Lemma evaluation_only_annotates_witness :
  exists replicas',
    Forall2 annotated [sync_replica_at 4000; async_replica_at 4096 1] replicas'
    /\ snd (_determine_cluster_status Py3
              [primary_at 4096; sync_replica_at 4000; async_replica_at 4096 1])
       = Ok (DOWN, primary_at 4096 :: replicas').
Proof.
  destruct (evaluation_only_annotates Py3
              [primary_at 4096; sync_replica_at 4000; async_replica_at 4096 1]
              DOWN
              [primary_at 4096;
               with_errors (sync_replica_at 4000) ["Out of sync"];
               async_replica_at 4096 1]
              eq_refl)
    as (master & replicas & replicas' & Hnodes & Hann & Hout & _).
  inversion Hnodes; subst master replicas. simpl in Hout.
  exists replicas'. split; [exact Hann |]. now rewrite <- Hout.
Defined.

(** ** Checks that decide the verdict on their own *)

Lemma raised_to_down (s : eval_state) :
  consistent s ->
  consistent (fst (raise_status DOWN s))
  /\ status (fst (raise_status DOWN s)) = DOWN.
Proof.
  intros Hs. destruct (keeps_raise_status DOWN down_in_range s Hs) as [Hc _].
  split; [exact Hc |]. unfold raise_status. cbn [fst status].
  pose proof (status_bounded _ Hs). lia.
Qed.

Lemma stays_down {A : Type} (m : Eval A) (s : eval_state) :
  keeps m -> consistent s -> status s = DOWN ->
  consistent (fst (m s)) /\ status (fst (m s)) = DOWN.
Proof.
  intros Hm Hs Hdown. destruct (Hm s Hs) as [Hc Hle].
  split; [exact Hc |]. pose proof (status_bounded _ Hc). lia.
Qed.

Lemma fst_bind {A B : Type} (m : Eval A) (k : A -> Eval B) s s1 a :
  m s = (s1, Ok a) -> fst (bind m k s) = fst (k a s1).
Proof. intros H. now rewrite (bind_ok _ _ _ _ _ H). Qed.

(** Once a step has left [status] at [DOWN], the steps after it leave it
    there. *)
Lemma down_then {A B : Type} (m : Eval A) (k : A -> Eval B) s :
  (forall a, keeps (k a)) ->
  consistent (fst (m s)) /\ status (fst (m s)) = DOWN ->
  consistent (fst (bind m k s)) /\ status (fst (bind m k s)) = DOWN.
Proof.
  intros Hk [Hc Hd]. unfold bind. destruct (m s) as [s1 [a | e]]; cbn [fst] in *.
  - now apply stays_down.
  - now split.
Qed.

(** A step that returns hands over to the steps after it. *)
Lemma then_down (m k : Eval unit) s :
  keeps m -> runs m -> consistent s ->
  (forall s1, consistent s1 ->
              consistent (fst (k s1)) /\ status (fst (k s1)) = DOWN) ->
  consistent (fst ((m ;;; k) s)) /\ status (fst ((m ;;; k) s)) = DOWN.
Proof.
  intros Hm Hr Hs Hk. destruct (Hr s) as [s1 H1].
  rewrite (bind_ok _ _ _ _ _ H1). apply Hk.
  destruct (Hm s Hs) as [Hc _]. now rewrite H1 in Hc.
Qed.

Lemma master_checks_down (master : node) s :
  consistent s ->
  alive master = false \/ _get_sync_replicas (raw_status master) = [] ->
  consistent (fst (master_checks master
                     (_get_sync_replicas (raw_status master)) s))
  /\ status (fst (master_checks master
                     (_get_sync_replicas (raw_status master)) s)) = DOWN.
Proof.
  intros Hs [Halive | Hsync]; unfold master_checks.
  - rewrite Halive. cbn [negb when].
    apply down_then; [intros ?; repeat keeps_step | now apply raised_to_down].
  - rewrite Hsync. cbn [when].
    apply then_down;
      [repeat keeps_step | apply runs_when, runs_raise_status | exact Hs |].
    intros s1 Hs1. now apply raised_to_down.
Qed.

Lemma etcd_checks_down (db_nodes replicas : list node) (majority : Z) s :
  consistent s ->
  snd (etcd_count db_nodes (0, 0)) <> 1
  \/ fst (etcd_count db_nodes (0, 0)) < majority ->
  consistent (fst (etcd_checks db_nodes replicas majority s))
  /\ status (fst (etcd_checks db_nodes replicas majority s)) = DOWN.
Proof.
  intros Hs Htrigger. unfold etcd_checks.
  destruct (etcd_count db_nodes (0, 0)) as [followers leaders].
  cbn [fst snd] in Htrigger. destruct Htrigger as [Hleaders | Hfollowers].
  - replace (leaders =? 1) with false by (symmetry; now apply Z.eqb_neq).
    cbn [negb when].
    apply down_then; [intros ?; repeat keeps_step | now apply raised_to_down].
  - apply then_down;
      [repeat keeps_step | apply runs_when, runs_raise_status | exact Hs |].
    intros s1 Hs1.
    replace (followers <? majority) with true
      by (symmetry; now apply Z.ltb_lt).
    now apply raised_to_down.
Qed.

Lemma upto_replicas_down (master : node) (replicas : list node) s :
  consistent s ->
  node_ip master = None
  \/ alive master = false
  \/ _get_sync_replicas (raw_status master) = []
  \/ snd (etcd_count (master :: replicas) (0, 0)) <> 1
  \/ fst (etcd_count (master :: replicas) (0, 0))
     < (1 + Z.of_nat (List.length replicas)) / 2 ->
  consistent (fst (upto_replicas master replicas s))
  /\ status (fst (upto_replicas master replicas s)) = DOWN.
Proof.
  intros Hs Htrigger. unfold upto_replicas. cbv zeta.
  destruct (node_ip master) as [ip |] eqn:Hip.
  - destruct Htrigger as [H | Htrigger]; [discriminate |].
    apply then_down; [repeat keeps_step | apply runs_when, runs_raise_status
                      | exact Hs |].
    clear s Hs. intros s Hs.
    destruct Htrigger as [Halive | [Hsync | Hetcd]].
    + apply down_then; [intros ?; repeat keeps_step |].
      apply master_checks_down; auto.
    + apply down_then; [intros ?; repeat keeps_step |].
      apply master_checks_down; auto.
    + apply then_down;
        [repeat keeps_step | apply runs_master_checks | exact Hs |].
      intros s1 Hs1. now apply etcd_checks_down.
  - cbn [when].
    apply down_then; [intros ?; repeat keeps_step | now apply raised_to_down].
Qed.

Lemma runs_upto_replicas master replicas : runs (upto_replicas master replicas).
Proof.
  unfold upto_replicas. cbv zeta.
  repeat apply runs_seq; auto using runs_when, runs_raise_status,
    runs_master_checks, runs_etcd_checks.
Qed.

(** X12. Each of these alone makes the cluster [DOWN]: no primary
    address resolved, the primary not alive, no synchronous replica in the
    primary's replication list, a number of etcd leaders other than one,
    fewer etcd followers than the majority requirement.  [status] is [DOWN]
    when the evaluation ends, whether it returns or raises, and every
    verdict returned is [DOWN], whatever the replicas report. *)
Theorem down_conditions :
  forall (py : interpreter) (master : node) (replicas : list node),
    node_ip master = None
    \/ alive master = false
    \/ _get_sync_replicas (raw_status master) = []
    \/ snd (etcd_count (master :: replicas) (0, 0)) <> 1
    \/ fst (etcd_count (master :: replicas) (0, 0))
       < (1 + Z.of_nat (List.length replicas)) / 2 ->
    status (fst (_determine_cluster_status py (master :: replicas))) = DOWN
    /\ (forall st nodes,
          snd (_determine_cluster_status py (master :: replicas))
          = Ok (st, nodes) ->
          st = DOWN).
Proof.
  intros py master replicas Htrigger.
  assert (Hfinal : status (fst (_determine_cluster_status py
                                  (master :: replicas))) = DOWN).
  { unfold _determine_cluster_status. 
    destruct (upto_replicas_down master replicas initial_state
                initial_consistent Htrigger) as [Hc Hd].
    destruct (upto_replicas master replicas initial_state) as [s1 r] eqn:E.
    assert (Hr : r = Ok tt).
    { destruct (runs_upto_replicas master replicas initial_state)
        as [s2 H2].
      congruence. }
    subst r. cbn [fst] in Hc, Hd.
    rewrite determine_body_eq, (fst_bind _ _ _ _ _ E).
    apply stays_down; [| exact Hc | exact Hd].
    unfold conclude. repeat keeps_step. }
  split; [exact Hfinal |].
  intros st nodes Hret. unfold _determine_cluster_status in *.
  destruct (determine_body py (master :: replicas) initial_state)
    as [s' r] eqn:E.
  cbn [snd fst] in *. subst r.
  now rewrite (determine_returns_status _ _ _ _ _ _ E).
Qed.

Lemma down_conditions_witness :
  status (fst (_determine_cluster_status Py3
                 [primary_at 4096;
                  Node (Some "192.0.2.2") true [] empty_raw_status
                       (Some 4096%N) "sync_replica" (Some 1%N) "StateLeader"]))
  = DOWN.
Proof.
  assert (H : snd (etcd_count
                     [primary_at 4096;
                      Node (Some "192.0.2.2") true [] empty_raw_status
                           (Some 4096%N) "sync_replica" (Some 1%N)
                           "StateLeader"] (0, 0)) <> 1).
  { vm_compute. discriminate. }
  apply (down_conditions Py3 (primary_at 4096)
           [Node (Some "192.0.2.2") true [] empty_raw_status
                 (Some 4096%N) "sync_replica" (Some 1%N) "StateLeader"]).
  right; right; right; left; exact H.
Defined.

(** ** The status query *)

Lemma status_after_resolve py net (w w1 : world) master replicas :
  _get_cluster_addresses w = (w1, Ok (master, replicas)) ->
  get_cluster_status py net w
  = (w1, snd (_determine_cluster_status py (probed net master replicas))).
Proof.
  intros Hres. unfold get_cluster_status.
  now rewrite (bind_ok _ _ _ _ _ Hres).
Qed.

Lemma node_status_silent_primary net master :
  _get_raw_node_status_DB net master = None ->
  raw_status (_get_node_status net master false true) = empty_raw_status
  /\ alive (_get_node_status net master false true) = false
  /\ node_ip (_get_node_status net master false true) = master.
Proof.
  intros Hdb. unfold _get_node_status. rewrite Hdb.
  now destruct (_get_raw_node_status_etcd net master).
Qed.

Lemma node_status_not_sync net address master :
  state (_get_node_status net address false master) <> "sync_replica".
Proof.
  unfold _get_node_status.
  destruct (_get_raw_node_status_DB net address),
    (_get_raw_node_status_etcd net address), master; discriminate.
Qed.

(** X13. When the agent of the primary gives no answer (no primary was
    resolved, or its agent is unreachable), the status query returns a
    verdict only for a cluster without replicas, and then [DOWN]; with one
    replica or more it raises [TypeError] on either interpreter, for no
    replica is then taken as synchronous and the lag of the first one is
    computed against a missing position. *)
Theorem status_without_primary_position :
  forall (py : interpreter) (net : network) (w : world)
         (master : option string) (replicas : list string),
    snd (_get_cluster_addresses w) = Ok (master, replicas) ->
    _get_raw_node_status_DB net master = None ->
    (replicas <> [] -> snd (get_cluster_status py net w) = Raise TypeError)
    /\ (replicas = [] ->
        snd (get_cluster_status py net w)
        = Ok (DOWN, match master with
                    | None => []
                    | Some _ => [_get_node_status net master false true]
                    end)).
Proof.
  intros py net w master replicas Hres Hdb.
  destruct (_get_cluster_addresses w) as [w1 res] eqn:E.
  cbn [snd] in Hres. subst res.
  rewrite (status_after_resolve py net w w1 master replicas E). cbn [snd].
  destruct (node_status_silent_primary net master Hdb)
    as (Hraw & Halive & Hip).
  unfold probed. cbv zeta. split.
  - intros Hne. destruct replicas as [| a rest]; [congruence |].
    cbn [map]. apply lag_without_primary_position_raises.
    + now rewrite Hraw.
    + rewrite Hraw. cbn [_get_sync_replicas raw_replication empty_raw_status
                          sync_ips_of existsb].
      apply node_status_not_sync.
  - intros ->. cbn [map].
    destruct (_get_node_status net master false true)
      as [ip live errs raw log st tline etcd].
    cbn [raw_status alive node_ip] in Hraw, Halive, Hip. subst raw live ip.
    destruct master; [| reflexivity].
    unfold _determine_cluster_status. rewrite determine_body_eq.
    match goal with
    | |- context [upto_replicas ?m []] =>
        destruct (runs_upto_replicas m [] initial_state) as [s1 H1];
        destruct (upto_replicas_down m [] initial_state initial_consistent
                    (or_intror (or_introl eq_refl))) as [_ Hdown]
    end.
    rewrite H1 in Hdown. rewrite (bind_ok _ _ _ _ _ H1).
    unfold conclude, bind, get_status, ret. cbn [check_replicas ret snd fst].
    cbn [fst] in Hdown. now rewrite Hdown.
Qed.

Lemma status_without_primary_position_witness :
  snd (get_cluster_status Py3
         (Network (fun a => if String.eqb a "192.0.2.1" then None
                            else db_endpoint all_replicas a)
                  (etcd_endpoint all_replicas))
         two_replicas_example)
  = Raise TypeError.
Proof.
  apply (status_without_primary_position Py3
           (Network (fun a => if String.eqb a "192.0.2.1" then None
                              else db_endpoint all_replicas a)
                    (etcd_endpoint all_replicas))
           two_replicas_example (Some "192.0.2.1")
           ["192.0.2.2"; "192.0.2.3"] eq_refl eq_refl).
  discriminate.
Defined.

(** X14. What [_get_node_status] reports of a node: the node is alive
    exactly when its agent answers with the state "running"; its error
    list is empty exactly when it is alive and its etcd answers, and never
    holds more than two entries; its role is ['dead'] exactly when the
    agent gives no answer, and otherwise the role it was probed for, the
    primary's role taking precedence, with the timeline the agent gave. *)
Theorem node_status_report :
  forall (net : network) (address : option string) (sync_replica master : bool),
    let n := _get_node_status net address sync_replica master in
    let agent := _get_raw_node_status_DB net address in
    let etcd := _get_raw_node_status_etcd net address in
    node_ip n = address
    /\ (alive n = true <->
        exists answer, agent = Some answer /\ raw_state answer = Some "running")
    /\ (errors n = [] <-> alive n = true /\ etcd <> None)
    /\ (List.length (errors n) <= 2)%nat
    /\ (state n = "dead" <-> agent = None)
    /\ (forall answer,
          agent = Some answer ->
          state n = (if master then "leader"
                     else if sync_replica then "sync_replica"
                     else "async_replica")
          /\ timeline n = raw_timeline answer
          /\ raw_status n = answer
          /\ log_location n
             = xlog_get (raw_xlog answer)
                 (if master then location else replayed_location))
    /\ etcd_state n = match etcd with Some st => st | None => "dead" end.
Proof.
  intros net address sync_replica master n agent etcd.
  unfold n, _get_node_status. fold agent etcd.
  destruct agent as [answer |] eqn:Hagent.
  - assert (Hrun : (match raw_state answer with
                    | Some s => String.eqb s "running"
                    | None => false
                    end) = true
                   <-> raw_state answer = Some "running").
    { destruct (raw_state answer) as [s |]; [| split; discriminate].
      rewrite String.eqb_eq. split; congruence. }
    destruct (match raw_state answer with
              | Some s => String.eqb s "running"
              | None => false
              end) eqn:Hrunning;
      destruct etcd as [st |], master, sync_replica; cbn;
      repeat match goal with
             | |- _ /\ _ => split
             | |- _ <-> _ => split
             | |- forall _, _ => intros ?
             end;
      try reflexivity; try discriminate; try lia; try congruence;
      try (eexists; split; [reflexivity | now apply Hrun]);
      try (match goal with
           | H : exists _, _ |- _ =>
               destruct H as (? & Heq & Hstate); inversion Heq; subst;
               apply Hrun in Hstate; discriminate
           end);
      try (match goal with
           | H : _ /\ _ |- _ => destruct H; congruence
           end);
      try (match goal with
           | H : Some ?a = Some ?b |- _ => inversion H; subst; reflexivity
           end).
  - destruct etcd as [st |]; cbn;
      repeat match goal with
             | |- _ /\ _ => split
             | |- _ <-> _ => split
             | |- forall _, _ => intros ?
             end;
      try reflexivity; try discriminate; try lia; try congruence;
      try (match goal with
           | H : exists _, _ |- _ => destruct H as (? & Heq & _); discriminate
           end);
      try (match goal with
           | H : _ /\ _ |- _ => destruct H; congruence
           end).
Qed.

(** ** The verdict in closed form *)

Lemma upto_replicas_level (master : node) (replicas : list node) s :
  HEALTHY <= status s <= DOWN ->
  exists s1,
    upto_replicas master replicas s = (s1, Ok tt)
    /\ status s1
       = Z.max (status s)
           (if match node_ip master with None => true | Some _ => false end
               || negb (alive master)
               || match _get_sync_replicas (raw_status master) with
                  | [] => true
                  | _ => false
                  end
               || negb (snd (etcd_count (master :: replicas) (0, 0)) =? 1)
               || (fst (etcd_count (master :: replicas) (0, 0))
                   <? (1 + Z.of_nat (List.length replicas)) / 2)
            then DOWN
            else if fst (etcd_count (master :: replicas) (0, 0))
                    <? Z.of_nat (List.length replicas)
                 then DEGRADED
                 else HEALTHY).
Proof.
  intros Hs. unfold upto_replicas, master_checks, etcd_checks. cbv zeta.
  unfold HEALTHY, DEGRADED, DOWN in *.
  destruct (node_ip master);
    destruct (etcd_count (master :: replicas) (0, 0)) as [f l];
    try destruct (etcd_count replicas (0, 0)) as [f0 l0];
    cbn [fst snd];
    destruct (alive master);
    destruct (_get_sync_replicas (raw_status master));
    repeat match goal with
           | |- context [?a =? ?b] => destruct (a =? b)
           | |- context [?a <? ?b] => destruct (a <? b)
           end;
    cbn; eexists; (split; [reflexivity | cbn [status]; lia]).
Qed.

Lemma check_replica_level py mlog mtl (r : node) s s' r' :
  HEALTHY <= status s ->
  check_replica py mlog mtl r s = (s', Ok r') ->
  status s'
  = Z.max (status s)
      (if behind py mlog r then DOWN
       else if off_timeline mtl r then DEGRADED else HEALTHY).
Proof.
  unfold check_replica, behind, off_timeline. intros Hs H.
  apply bind_ok_inv in H as (s1 & r1 & Hfirst & Hlast).
  rewrite extra_master_last in Hlast. inversion Hlast; subst s' r'. clear Hlast.
  unfold HEALTHY, DEGRADED, DOWN in *.
  destruct (String.eqb (state r) "sync_replica"); cbn [andb negb].
  - apply bind_ok_inv in Hfirst as (s2 & b & Hb & Hfirst).
    unfold lift in Hb. inversion Hb as [[Hs2 Hres]]. subst s2. clear Hb.
    destruct mlog as [m |].
    + destruct (truthy (Some m)); cbn [andb].
      * rewrite Hres. destruct b.
        -- unfold bind, raise_status, ret in Hfirst.
           inversion Hfirst; subst. cbn [status]. lia.
        -- unfold ret in Hfirst. inversion Hfirst; subst. lia.
      * inversion Hres; subst b.
        unfold ret in Hfirst. inversion Hfirst; subst. lia.
    + inversion Hres; subst b.
      unfold ret in Hfirst. inversion Hfirst; subst. lia.
  - apply bind_ok_inv in Hfirst as (s2 & r2 & Htl & Hfirst).
    apply bind_ok_inv in Hfirst as (s3 & lag & Hlag & Hfirst).
    apply bind_ok_inv in Hfirst as (s4 & lag_mb & Hmb & Hfirst).
    unfold lift in Hlag, Hmb. inversion Hlag; inversion Hmb; subst s3 s4.
    assert (Hs1 : s1 = s2)
      by (destruct (float_gt lag_mb 2); unfold ret in Hfirst;
          now inversion Hfirst).
    subst s1.
    destruct (truthy mtl && ne_opt (timeline r) mtl).
    + unfold bind, raise_status, ret in Htl. inversion Htl; subst.
      cbn [status]. lia.
    + unfold ret in Htl. inversion Htl; subst. lia.
Qed.

Lemma check_replicas_level py mlog mtl (replicas : list node) :
  forall s s' out,
    HEALTHY <= status s ->
    check_replicas py mlog mtl replicas s = (s', Ok out) ->
    status s'
    = Z.max (status s)
        (if existsb (behind py mlog) replicas then DOWN
         else if existsb (off_timeline mtl) replicas then DEGRADED
              else HEALTHY).
Proof.
  induction replicas as [| r rest IH]; intros s s' out Hs H;
    cbn [check_replicas existsb] in *.
  - unfold ret in H. inversion H; subst. unfold HEALTHY in *. lia.
  - apply bind_ok_inv in H as (s1 & r' & Hr & H).
    apply bind_ok_inv in H as (s2 & rest' & Hrest & H).
    unfold ret in H. inversion H; subst s2 out. clear H.
    pose proof (check_replica_level _ _ _ _ _ _ _ Hs Hr) as H1.
    assert (Hs1 : HEALTHY <= status s1) by lia.
    rewrite (IH _ _ _ Hs1 Hrest), H1.
    unfold HEALTHY, DEGRADED, DOWN in *.
    destruct (behind py mlog r), (off_timeline mtl r),
      (existsb (behind py mlog) rest), (existsb (off_timeline mtl) rest);
      cbn [orb]; lia.
Qed.

Lemma check_replica_measured py (m l : N) mtl (r : node) s :
  log_location r = Some l -> (m < 2 ^ 64)%N -> (l < 2 ^ 64)%N ->
  exists s' r', check_replica py (Some m) mtl r s = (s', Ok r').
Proof.
  intros Hlog Hm Hl. unfold check_replica.
  match goal with
  | |- exists s' r', bind ?first _ _ = _ =>
      assert (Hfirst : exists s1 r1, first s = (s1, Ok r1))
  end.
  { destruct (String.eqb (state r) "sync_replica").
    - rewrite Hlog. cbn [lt_opt]. unfold bind at 1, lift at 1.
      destruct (truthy (Some m)); [destruct (l <? m)%N |];
        unfold bind, raise_status, ret; eauto.
    - destruct (div_1024_1024_defined m l Hm Hl) as [f Hf].
      assert (Htl : exists s2 r2,
                 (if truthy mtl && ne_opt (timeline r) mtl
                  then raise_status DEGRADED ;;;
                       ret (append_error r "Out of sync")
                  else ret r) s = (s2, Ok r2)
                 /\ log_location r2 = Some l).
      { destruct (truthy mtl && ne_opt (timeline r) mtl);
          unfold bind, raise_status, ret; eauto. }
      destruct Htl as (s2 & r2 & Htl & Hlog2).
      rewrite (bind_ok _ _ _ _ _ Htl).
      unfold bind, lift. rewrite Hlog2. cbn [sub_opt]. rewrite Hf.
      destruct (float_gt f 2); unfold ret; eauto. }
  destruct Hfirst as (s1 & r1 & Hfirst).
  rewrite (bind_ok _ _ _ _ _ Hfirst), extra_master_last. eauto.
Qed.

(** X15. The verdict in closed form.  Every verdict that
    [_determine_cluster_status] returns is the one of the table: [DOWN]
    when no primary address was resolved, or the primary is not alive, or
    it reports no synchronous replica, or etcd does not have exactly one
    leader, or has fewer followers than half the members, or a synchronous
    replica is behind the primary; otherwise [DEGRADED] when etcd has fewer
    followers than there are replicas or a replica that is not synchronous
    is on another timeline than the primary; otherwise [HEALTHY].  What the
    agents of the replicas answered raw, a replica claiming to be master
    included, and the size of a lag have no part in it.  The evaluation
    does return when the primary and every replica report a log position
    below [2^64]. *)
Theorem verdict_in_closed_form :
  forall (py : interpreter) (master : node) (replicas : list node),
    (forall st nodes,
       snd (_determine_cluster_status py (master :: replicas)) = Ok (st, nodes) ->
       st = verdict_table py master replicas)
    /\ (measurable master replicas ->
        exists nodes,
          snd (_determine_cluster_status py (master :: replicas))
          = Ok (verdict_table py master replicas, nodes)).
Proof.
  intros py master replicas.
  assert (Hpartial : forall st nodes,
             snd (_determine_cluster_status py (master :: replicas))
             = Ok (st, nodes) ->
             st = verdict_table py master replicas).
  { intros st nodes Hret. unfold _determine_cluster_status in Hret.
    rewrite determine_body_eq in Hret.
    destruct (upto_replicas_level master replicas initial_state)
      as (s1 & H1 & Hlevel).
    { cbn [status initial_state]. unfold HEALTHY, DOWN. lia. }
    rewrite (bind_ok _ _ _ _ _ H1) in Hret.
    destruct (conclude py master replicas s1) as [s' res] eqn:E.
    cbn [snd] in Hret. subst res.
    apply conclude_ok_inv in E as (out & Hloop & -> & _).
    cbn [status initial_state] in Hlevel.
    assert (Hs1 : HEALTHY <= status s1).
    { rewrite Hlevel. unfold HEALTHY. lia. }
    rewrite (check_replicas_level _ _ _ _ _ _ _ Hs1 Hloop), Hlevel.
    unfold verdict_table, down_cause, degraded_cause. cbv zeta.
    unfold HEALTHY, DEGRADED, DOWN.
    set (pre := _ || _ || _ || _ || _).
    set (few := _ <? Z.of_nat _).
    set (late := existsb (behind _ _) _).
    set (off := existsb (off_timeline _) _).
    destruct pre, few, late, off; reflexivity. }
  split; [exact Hpartial |].
  intros [(m & Hm & Hbound) Hall].
  assert (Hreturns : exists st nodes,
             snd (_determine_cluster_status py (master :: replicas))
             = Ok (st, nodes)).
  { unfold _determine_cluster_status.
    destruct (determine_body_cons py master replicas initial_state
                initial_consistent) as (s1 & _ & ->).
    unfold conclude. rewrite Hm.
    destruct (check_replicas_total py (Some m)
                (raw_timeline (raw_status master)) replicas) with (s := s1)
      as (s2 & out & Hloop).
    { intros x Hx s. rewrite Forall_forall in Hall.
      destruct (Hall x Hx) as (l & Hlog & Hl).
      now apply (check_replica_measured py m l). }
    rewrite (bind_ok _ _ _ _ _ Hloop).
    unfold bind, get_status, ret. cbn [snd]. eauto. }
  destruct Hreturns as (st & nodes & Hret).
  exists nodes. now rewrite <- (Hpartial st nodes Hret).
Qed.

Lemma verdict_in_closed_form_witness :
  exists nodes,
    snd (_determine_cluster_status Py3
           [primary_at 4096; sync_replica_at 4096; async_replica_at 4000 2])
    = Ok (DEGRADED, nodes).
Proof.
  destruct (verdict_in_closed_form Py3 (primary_at 4096)
              [sync_replica_at 4096; async_replica_at 4000 2])
    as [_ Hreturns].
  apply Hreturns. split.
  - exists 4096%N. split; reflexivity.
  - repeat constructor; eexists; split; reflexivity.
Defined.

(** ** The check of an asynchronous replica *)

Lemma float_of_int_exact (z : Z) : Z.abs z < 2 ^ 53 -> float_of_int z = Ok z.
Proof.
  intros Hz. unfold float_of_int.
  set (a := Z.abs z) in *. set (k := Z.log2 a - 52).
  assert (Hbig : 2 ^ 53 < 2 ^ 1024) by reflexivity.
  remember (2 ^ 1024) as huge. remember (2 ^ 53) as word.
  assert (Hk : k <= 0).
  { destruct (Z.eq_dec a 0) as [-> | Hne]; [unfold k; simpl; lia |].
    assert (Z.log2 a < 53)
      by (apply Z.log2_lt_pow2; subst word; unfold a in *; lia).
    unfold k. lia. }
  destruct (Z.leb_spec k 0); [| lia].
  destruct (Z.leb_spec huge a); [lia |].
  f_equal. unfold a. lia.
Qed.

Lemma float_of_int_threshold (z v : Z) :
  float_of_int z = Ok v -> (2097152 <? v) = (2097152 <? z).
Proof.
  unfold float_of_int.
  set (a := Z.abs z). set (k := Z.log2 a - 52).
  destruct (Z.leb_spec k 0) as [Hk | Hk].
  - destruct (2 ^ 1024 <=? a); [discriminate |].
    intros H. inversion H. f_equal. unfold a. lia.
  - destruct (2 ^ 1024 <=? round_to_multiple a k); [discriminate |].
    intros H. inversion H as [Hv]. clear H.
    assert (Hpos : 0 < a).
    { destruct (Z.eq_dec a 0) as [H0 | Hne].
      - unfold k in Hk. rewrite H0 in Hk. simpl in Hk. lia.
      - unfold a in *. lia. }
    assert (Ha : 2 ^ (k + 52) <= a).
    { replace (k + 52) with (Z.log2 a) by (unfold k; lia).
      now apply Z.log2_spec. }
    assert (Hr : 2 ^ 53 <= round_to_multiple a k).
    { unfold round_to_multiple.
      rewrite !Z.shiftl_mul_pow2, Z.shiftr_div_pow2 by lia.
      assert (Hpow : 2 ^ 1 <= 2 ^ k) by (apply Z.pow_le_mono_r; lia).
      rewrite Z.pow_add_r in Ha by lia.
      assert (Hq : 2 ^ 52 <= a / 2 ^ k).
      { apply Z.div_le_lower_bound; lia. }
      change (2 ^ 53) with (2 ^ 52 * 2 ^ 1).
      remember (2 ^ 52) as w. remember (2 ^ k) as p. remember (2 ^ 1) as two.
      assert (0 < w) by (subst w; reflexivity).
      assert (0 < two) by (subst two; reflexivity).
      destruct ((_ <? _) || _); nia. }
    assert (Ha53 : 2 ^ 53 <= a).
    { apply Z.le_trans with (2 ^ (k + 52)); [| exact Ha].
      apply Z.pow_le_mono_r; lia. }
    assert (Hw : 2097152 < 2 ^ 53) by reflexivity.
    remember (2 ^ 53) as word. remember (round_to_multiple a k) as m.
    unfold a in *. clear Heqm Ha k Hk.
    destruct z as [| p | p]; cbn [Z.sgn Z.abs] in *.
    + lia.
    + destruct (Z.ltb_spec 2097152 (1 * m));
        destruct (Z.ltb_spec 2097152 (Z.pos p)); try reflexivity; lia.
    + destruct (Z.ltb_spec 2097152 (-1 * m));
        destruct (Z.ltb_spec 2097152 (Z.neg p)); try reflexivity; lia.
Qed.

(** X16. The check of a replica that is not synchronous, the primary
    and the replica reporting log positions below [2^64]: it always
    completes; "Out of sync" is appended and [status] raised to [DEGRADED]
    exactly when the primary's timeline is set and differs from the
    replica's; the lag diagnostic is appended exactly when the primary is
    more than 2097152 bytes (2 MiB) ahead, never for a replica ahead of the
    primary; "EXTRA MASTER" comes last.  The lag printed is the exact
    difference over [2^20] when that difference is below [2^53] in absolute
    value. *)
Theorem async_replica_diagnostics :
  forall (py : interpreter) (m l : N) (mtl : option N) (r : node),
    state r <> "sync_replica" ->
    log_location r = Some l ->
    (m < 2 ^ 64)%N -> (l < 2 ^ 64)%N ->
    let lag_bytes := Z.of_N m - Z.of_N l in
    let off := truthy mtl && ne_opt (timeline r) mtl in
    exists lag_mb,
      div_1024_1024 lag_bytes = Ok lag_mb
      /\ (Z.abs lag_bytes < 2 ^ 53 -> num lag_mb = lag_bytes)
      /\ forall s,
           check_replica py (Some m) mtl r s
           = ((if off then fst (raise_status DEGRADED s) else s),
              Ok (with_errors r
                    ((if off then ["Out of sync"] else [])
                     ++ (if 2097152 <? lag_bytes
                         then [lag_message lag_mb] else [])
                     ++ extra_master r))).
Proof.
  intros py m l mtl r Hstate Hlog Hm Hl lag_bytes off.
  destruct (div_1024_1024_defined m l Hm Hl) as [f Hf]. fold lag_bytes in Hf.
  exists f. split; [exact Hf |].
  assert (Hnum : float_of_int lag_bytes = Ok (num f)).
  { unfold div_1024_1024 in Hf.
    destruct (float_of_int lag_bytes) as [v | e]; [| discriminate].
    now inversion Hf. }
  split.
  - intros Hsmall. rewrite (float_of_int_exact _ Hsmall) in Hnum.
    now inversion Hnum.
  - intros s. unfold check_replica.
    apply String.eqb_neq in Hstate. rewrite Hstate. fold off.
    assert (Hgt : float_gt f 2 = (2097152 <? lag_bytes)).
    { unfold float_gt. change (2 * 2 ^ 20) with 2097152.
      now apply float_of_int_threshold. }
    set (first := if off then ["Out of sync"] else []).
    set (lag := if 2097152 <? lag_bytes then [lag_message f] else []).
    rewrite (bind_ok _ _ s (if off then fst (raise_status DEGRADED s) else s)
               (with_errors r (first ++ lag))).
    + rewrite extra_master_step. now rewrite <- app_assoc.
    + rewrite (bind_ok _ _ s (if off then fst (raise_status DEGRADED s) else s)
                 (with_errors r first)).
      * unfold bind, lift. cbn [log_location with_errors]. rewrite Hlog.
        cbn [sub_opt]. fold lag_bytes. rewrite Hf, Hgt. unfold lag, ret.
        destruct (2097152 <? lag_bytes).
        -- now rewrite append_error_with_errors.
        -- now rewrite app_nil_r.
      * unfold first. destruct off.
        -- reflexivity.
        -- unfold ret. now rewrite with_errors_nil.
Qed.

Lemma async_replica_diagnostics_witness :
  exists lag_mb,
    num lag_mb = 2097153
    /\ forall s,
         check_replica Py3 (Some 2097153%N) (Some 1%N) (async_replica_at 0 1) s
         = (s, Ok (with_errors (async_replica_at 0 1) [lag_message lag_mb])).
Proof.
  destruct (async_replica_diagnostics Py3 2097153 0 (Some 1%N)
              (async_replica_at 0 1))
    as (lag_mb & _ & Hexact & Hcheck).
  - discriminate.
  - reflexivity.
  - reflexivity.
  - reflexivity.
  - exists lag_mb. split.
    + apply Hexact. reflexivity.
    + intros s. now rewrite Hcheck.
Defined.

(** ** The access list and the member names *)

Lemma prefix_cons (c d : ascii) (s t : string) :
  String.prefix (String c s) (String d t)
  = Ascii.eqb c d && String.prefix s t.
Proof.
  cbn [String.prefix]. destruct (ascii_dec c d) as [-> | Hne].
  - now rewrite Ascii.eqb_refl.
  - apply Ascii.eqb_neq in Hne. now rewrite Hne.
Qed.

Lemma lacks_cons (c d : ascii) (s : string) :
  lacks c (String d s) = true -> Ascii.eqb d c = false /\ lacks c s = true.
Proof.
  cbn [lacks]. rewrite andb_true_iff, negb_true_iff. tauto.
Qed.

(** A word is skipped by the search for a string that starts with the
    separator. *)
Lemma contains_skip (c : ascii) (x w rest : string) :
  lacks c w = true ->
  contains (String c x) (w ++ rest) = contains (String c x) rest.
Proof.
  induction w as [| d w IH]; intros Hw; [reflexivity |].
  apply lacks_cons in Hw as [Hd Hw].
  change (String d w ++ rest) with (String d (w ++ rest)).
  rewrite contains_unfold, prefix_cons, (Ascii.eqb_sym c d), Hd.
  now apply IH.
Qed.

Lemma prefix_field (c : ascii) (f t : string) :
  lacks c f = true ->
  forall w rest,
    lacks c w = true ->
    String.prefix (f ++ String c t) (w ++ String c rest)
    = String.eqb f w && String.prefix t rest.
Proof.
  induction f as [| x f IH]; intros Hf w rest Hw.
  - destruct w as [| d w].
    + cbn [append]. rewrite prefix_cons, Ascii.eqb_refl. reflexivity.
    + apply lacks_cons in Hw as [Hd _].
      cbn [append]. rewrite prefix_cons, (Ascii.eqb_sym c d), Hd. reflexivity.
  - apply lacks_cons in Hf as [Hx Hf]. destruct w as [| d w].
    + cbn [append]. rewrite prefix_cons, Hx. reflexivity.
    + apply lacks_cons in Hw as [_ Hw].
      cbn [append String.eqb]. rewrite prefix_cons, (IH Hf w rest Hw).
      now rewrite andb_assoc.
Qed.

Lemma prefix_field_end (c : ascii) (f t w : string) :
  lacks c w = true -> String.prefix (f ++ String c t) w = false.
Proof.
  revert w. induction f as [| x f IH]; intros [| d w] Hw; try reflexivity.
  - apply lacks_cons in Hw as [Hd _].
    cbn [append]. now rewrite prefix_cons, (Ascii.eqb_sym c d), Hd.
  - apply lacks_cons in Hw as [_ Hw].
    change (String x f ++ String c t) with (String x (f ++ String c t)).
    rewrite prefix_cons, (IH w Hw). apply andb_false_r.
Qed.

(** The search for [" f "] in a line of words finds it exactly when [f]
    is one of the words between the first and the last. *)
Lemma contains_word (f : string) (ws : list string) :
  lacks " " f = true ->
  Forall (fun w => lacks " " w = true) ws ->
  contains (" " ++ f ++ " ") (join_words ws)
  = existsb (String.eqb f) (inner_words ws).
Proof.
  intros Hf Hws. destruct ws as [| w0 ws]; [reflexivity |].
  unfold inner_words. cbn [List.tl].
  revert w0 Hws. induction ws as [| w1 ws IH]; intros w0 Hws.
  - inversion Hws as [| ? ? Hw0 _]; subst. cbn [join_words removelast existsb].
    rewrite <- (append_nil_r w0).
    change (" " ++ f ++ " ") with (String " " (f ++ " ")).
    now rewrite (contains_skip " " _ w0 "" Hw0).
  - inversion Hws as [| ? ? Hw0 Hrest]; subst.
    change (join_words (w0 :: w1 :: ws))
      with (w0 ++ String " " (join_words (w1 :: ws))).
    change (" " ++ f ++ " ") with (String " " (f ++ " ")).
    rewrite (contains_skip " " _ w0 _ Hw0).
    rewrite contains_unfold, prefix_cons, Ascii.eqb_refl. cbn [andb].
    change (String " " (f ++ " ")) with (" " ++ f ++ " ").
    rewrite (IH w1 Hrest).
    inversion Hrest as [| ? ? Hw1 _]; subst.
    destruct ws as [| w2 ws].
    + cbn [join_words removelast existsb].
      change (f ++ " ") with (f ++ String " " "").
      now rewrite (prefix_field_end " " f "" w1 Hw1).
    + change (join_words (w1 :: w2 :: ws))
        with (w1 ++ String " " (join_words (w2 :: ws))).
      change (f ++ " ") with (f ++ String " " "").
      rewrite (prefix_field " " f "" Hf w1 _ Hw1).
      change (removelast (w1 :: w2 :: ws)) with (w1 :: removelast (w2 :: ws)).
      cbn [existsb].
      replace (String.prefix "" (join_words (w2 :: ws))) with true
        by (now destruct (join_words (w2 :: ws))).
      now rewrite andb_true_r.
Qed.

Lemma eqb_field (f t w : string) :
  lacks "/" w = true -> String.eqb (f ++ String "/" t) w = false.
Proof.
  revert w. induction f as [| x f IH]; intros [| d w] Hw; try reflexivity.
  - apply lacks_cons in Hw as [Hd _].
    cbn [append String.eqb]. now rewrite (Ascii.eqb_sym "/" d), Hd.
  - apply lacks_cons in Hw as [_ Hw].
    cbn [append String.eqb]. rewrite (IH w Hw). now destruct (Ascii.eqb x d).
Qed.

Lemma eqb_fields (a b t u : string) :
  lacks "/" a = true -> lacks "/" b = true ->
  String.eqb (a ++ String "/" t) (b ++ String "/" u)
  = String.eqb a b && String.eqb t u.
Proof.
  revert b. induction a as [| x a IH]; intros [| d b] Ha Hb.
  - cbn [append String.eqb]. now rewrite Ascii.eqb_refl.
  - apply lacks_cons in Hb as [Hd _].
    cbn [append String.eqb]. now rewrite (Ascii.eqb_sym "/" d), Hd.
  - apply lacks_cons in Ha as [Hx _].
    cbn [append String.eqb]. now rewrite Hx.
  - apply lacks_cons in Ha as [_ Ha]. apply lacks_cons in Hb as [_ Hb].
    cbn [append String.eqb]. rewrite (IH b Ha Hb).
    now destruct (Ascii.eqb x d).
Qed.

Lemma lacks_append (c : ascii) (a b : string) :
  lacks c (a ++ b) = lacks c a && lacks c b.
Proof.
  induction a as [| x a IH]; [reflexivity |].
  cbn [append lacks]. rewrite IH. now rewrite andb_assoc.
Qed.

(** The entries written for a node reference an address exactly when it
    is the node's. *)
Lemma references_node_entries (a b : string) :
  plain_address a -> plain_address b ->
  references a ("hostssl all postgres " ++ b ++ "/32 md5") = String.eqb a b
  /\ references a ("hostssl replication replicator " ++ b ++ "/32 md5")
     = String.eqb a b.
Proof.
  intros [Ha_sp Ha_sl] [Hb_sp Hb_sl]. unfold references.
  assert (Hfield : lacks " " (a ++ "/32") = true)
    by (rewrite lacks_append, Ha_sp; reflexivity).
  assert (Hword : lacks " " (b ++ "/32") = true)
    by (rewrite lacks_append, Hb_sp; reflexivity).
  assert (Hsub : " " ++ a ++ "/32 " = " " ++ (a ++ "/32") ++ " ")
    by (now rewrite append_assoc).
  rewrite Hsub.
  assert (Heq : String.eqb (a ++ "/32") (b ++ "/32") = String.eqb a b).
  { change "/32" with (String "/" "32").
    rewrite (eqb_fields a b "32" "32" Ha_sl Hb_sl). apply andb_true_r. }
  split.
  - replace ("hostssl all postgres " ++ b ++ "/32 md5")
      with (join_words ["hostssl"; "all"; "postgres"; b ++ "/32"; "md5"])
      by (cbn [join_words append]; now rewrite append_assoc).
    rewrite (contains_word _ _ Hfield) by (repeat constructor; exact Hword).
    unfold inner_words. cbn [List.tl removelast existsb].
    change "/32" with (String "/" "32") at 1 2.
    rewrite !eqb_field by reflexivity.
    change (String "/" "32") with "/32". rewrite Heq.
    now rewrite orb_false_r.
  - replace ("hostssl replication replicator " ++ b ++ "/32 md5")
      with (join_words ["hostssl"; "replication"; "replicator"; b ++ "/32";
                        "md5"])
      by (cbn [join_words append]; now rewrite append_assoc).
    rewrite (contains_word _ _ Hfield) by (repeat constructor; exact Hword).
    unfold inner_words. cbn [List.tl removelast existsb].
    change "/32" with (String "/" "32") at 1 2.
    rewrite !eqb_field by reflexivity.
    change (String "/" "32") with "/32". rewrite Heq.
    now rewrite orb_false_r.
Qed.

Lemma references_defaults (a : string) (ssl : bool) :
  plain_address a ->
  references a "hostssl replication replicator 127.0.0.1/32 md5"
  = String.eqb a "127.0.0.1"
  /\ references a ("hostssl all all 0.0.0.0/0 md5" ++
                   (if ssl then " clientcert=1" else "")) = false.
Proof.
  intros Ha. split.
  - apply (references_node_entries a "127.0.0.1" Ha). now split.
  - destruct Ha as [Ha_sp Ha_sl]. unfold references.
    assert (Hfield : lacks " " (a ++ "/32") = true)
      by (rewrite lacks_append, Ha_sp; reflexivity).
    assert (Hsub : " " ++ a ++ "/32 " = " " ++ (a ++ "/32") ++ " ")
      by (now rewrite append_assoc).
    rewrite Hsub.
    assert (Hnet : String.eqb (a ++ "/32") "0.0.0.0/0" = false).
    { change "/32" with (String "/" "32").
      change "0.0.0.0/0" with ("0.0.0.0" ++ String "/" "0").
      rewrite (eqb_fields a "0.0.0.0" "32" "0" Ha_sl) by reflexivity.
      apply andb_false_r. }
    destruct ssl.
    + change ("hostssl all all 0.0.0.0/0 md5" ++ " clientcert=1")
        with (join_words ["hostssl"; "all"; "all"; "0.0.0.0/0"; "md5";
                          "clientcert=1"]).
      rewrite (contains_word _ _ Hfield) by (repeat constructor).
      unfold inner_words. cbn [List.tl removelast existsb]. rewrite Hnet.
      change "/32" with (String "/" "32").
      now rewrite !eqb_field by reflexivity.
    + change ("hostssl all all 0.0.0.0/0 md5" ++ "")
        with (join_words ["hostssl"; "all"; "all"; "0.0.0.0/0"; "md5"]).
      rewrite (contains_word _ _ Hfield) by (repeat constructor).
      unfold inner_words. cbn [List.tl removelast existsb]. rewrite Hnet.
      change "/32" with (String "/" "32").
      now rewrite !eqb_field by reflexivity.
Qed.

Lemma filter_added_other (a b : string) (pg : list string) :
  plain_address a -> plain_address b -> a <> b ->
  filter (fun entry => negb (references a entry)) (_add_node_to_pg_hba pg b)
  = _add_node_to_pg_hba (filter (fun entry => negb (references a entry)) pg) b.
Proof.
  intros Ha Hb Hne. unfold _add_node_to_pg_hba. cbn [app filter].
  destruct (references_node_entries a b Ha Hb) as [-> ->].
  apply String.eqb_neq in Hne. now rewrite Hne.
Qed.

Lemma filter_added_same (a : string) (pg : list string) :
  filter (fun entry => negb (references a entry)) (_add_node_to_pg_hba pg a)
  = filter (fun entry => negb (references a entry)) pg.
Proof.
  unfold _add_node_to_pg_hba, references. cbn [app filter].
  pose proof (contains_address_field "hostssl all postgres" a) as H1.
  pose proof (contains_address_field "hostssl replication replicator" a) as H2.
  cbn [append] in H1, H2 |- *. now rewrite H1, H2.
Qed.

Lemma filter_bootstrap (a : string) (nodes : list string) :
  plain_address a -> Forall plain_address nodes ->
  forall base,
    filter (fun entry => negb (references a entry))
           (fold_left _add_node_to_pg_hba nodes base)
    = fold_left _add_node_to_pg_hba
        (filter (fun n => negb (String.eqb a n)) nodes)
        (filter (fun entry => negb (references a entry)) base).
Proof.
  intros Ha. induction 1 as [| n ns Hn _ IH]; intros base; [reflexivity |].
  cbn [fold_left filter]. rewrite IH.
  destruct (String.eqb_spec a n) as [<- | Hne]; cbn [negb fold_left].
  - now rewrite filter_added_same.
  - now rewrite (filter_added_other a n base Ha Hn Hne).
Qed.

(** X17. For addresses without a space or a slash, the access-list
    rewrite of [remove_cluster_node] tells the nodes apart: it leaves the
    two entries of every other node where they are, and applied to the list
    that [_create_patroni_config] bootstraps (for an address other than
    127.0.0.1) it gives the list as it would have been bootstrapped without
    the removed node, the two default entries included. *)
Theorem removal_keeps_other_nodes :
  forall (a : string),
    plain_address a ->
    (forall (b : string) (pg_hba : list string),
       plain_address b -> a <> b ->
       filter (fun entry => negb (references a entry))
              (_add_node_to_pg_hba pg_hba b)
       = _add_node_to_pg_hba
           (filter (fun entry => negb (references a entry)) pg_hba) b)
    /\ (forall (ssl_client_verification : bool) (nodes : list string),
          Forall plain_address nodes -> a <> "127.0.0.1" ->
          filter (fun entry => negb (references a entry))
                 (bootstrap_pg_hba ssl_client_verification nodes)
          = bootstrap_pg_hba ssl_client_verification
              (filter (fun n => negb (String.eqb a n)) nodes)).
Proof.
  intros a Ha. split.
  - intros b pg Hb Hne. now apply filter_added_other.
  - intros ssl nodes Hnodes Hlocal. unfold bootstrap_pg_hba.
    rewrite (filter_bootstrap a nodes Ha Hnodes). f_equal.
    cbn [filter]. destruct (references_defaults a ssl Ha) as [-> ->].
    apply String.eqb_neq in Hlocal. now rewrite Hlocal.
Qed.

Lemma removal_keeps_other_nodes_witness :
  filter (fun entry => negb (references "192.0.2.3" entry))
         (bootstrap_pg_hba false ["192.0.2.2"; "192.0.2.3"; "192.0.2.4"])
  = bootstrap_pg_hba false ["192.0.2.2"; "192.0.2.4"].
Proof.
  destruct (removal_keeps_other_nodes "192.0.2.3" (conj eq_refl eq_refl))
    as [_ Hbootstrap].
  apply (Hbootstrap false ["192.0.2.2"; "192.0.2.3"; "192.0.2.4"]).
  - repeat constructor.
  - discriminate.
Defined.

Lemma references_added (a : string) (pg : list string) :
  existsb (references a) (_add_node_to_pg_hba pg a) = true.
Proof.
  unfold _add_node_to_pg_hba, references. cbn [app existsb].
  pose proof (contains_address_field "hostssl all postgres" a) as H1.
  cbn [append] in H1 |- *. now rewrite H1.
Qed.

Lemma join_cases (node_ip : string) (w : world) :
  join_access_list node_ip w =
    if existsb (references node_ip) (pg_hba (dcs_conf w)) then (w, Ok tt)
    else
      let conf :=
        PatroniConfig (_add_node_to_pg_hba (pg_hba (dcs_conf w)) node_ip)
                      (other_settings (dcs_conf w)) in
      (World (services_to_install w) (outside w) (observed w) conf
             (journal w ++ [EtcdSetConfig conf]),
       Ok tt).
Proof.
  unfold join_access_list, bind, _get_patroni_dcs_conf.
  fold (references node_ip).
  now destruct (existsb (references node_ip) (pg_hba (dcs_conf w))).
Qed.

(** X18. The step by which a node joins the access list of the stored
    configuration completes (the etcd commands being taken to succeed);
    afterwards an entry references the node, and running the step again
    writes nothing.  The other settings
    are untouched, and the entries there were are all kept, in their order,
    behind the added ones. *)
Theorem join_access_list_once :
  forall (node_ip : string) (w : world),
    let joined := fst (join_access_list node_ip w) in
    snd (join_access_list node_ip w) = Ok tt
    /\ existsb (references node_ip) (pg_hba (dcs_conf joined)) = true
    /\ join_access_list node_ip joined = (joined, Ok tt)
    /\ other_settings (dcs_conf joined) = other_settings (dcs_conf w)
    /\ (exists added,
          pg_hba (dcs_conf joined) = (added ++ pg_hba (dcs_conf w))%list
          /\ Forall (fun entry => references node_ip entry = true) added).
Proof.
  intros node_ip w joined. unfold joined. rewrite join_cases.
  destruct (existsb (references node_ip) (pg_hba (dcs_conf w))) eqn:Hold;
    cbv zeta; cbn [fst snd dcs_conf pg_hba other_settings].
  - split; [reflexivity |]. split; [exact Hold |].
    split; [now rewrite join_cases, Hold |]. split; [reflexivity |].
    exists []. split; [reflexivity | constructor].
  - split; [reflexivity |]. split; [apply references_added |].
    split.
    { rewrite join_cases. cbn [dcs_conf pg_hba].
      now rewrite references_added. }
    split; [reflexivity |].
    exists (_add_node_to_pg_hba [] node_ip). split; [reflexivity |].
    unfold _add_node_to_pg_hba, references.
    pose proof (contains_address_field "hostssl all postgres" node_ip) as H1.
    pose proof (contains_address_field "hostssl replication replicator"
                  node_ip) as H2.
    cbn [append app] in H1, H2 |- *. now repeat constructor.
Qed.

Lemma filter_unreferenced (a : string) (pg : list string) :
  existsb (references a) pg = false ->
  filter (fun entry => negb (references a entry)) pg = pg.
Proof.
  induction pg as [| e pg IH]; [reflexivity |].
  cbn [existsb filter]. intros H. apply orb_false_iff in H as [He Hpg].
  rewrite He. cbn [negb]. now rewrite (IH Hpg).
Qed.

(** X19. Joining and then removing a node restores the stored
    configuration: when no entry referenced the address before, the join
    step puts the two entries of the node in front, and a removal that goes
    through on a database node (two replicas or more, the address not the
    primary, a member id found) leaves the configuration exactly as it was
    before the join. *)
Theorem join_then_remove_restores_access_list :
  forall (address : string) (w : world) (master : option string)
         (replicas : list string) (c : ascii) (id_rest : string),
    existsb is_database (services_to_install w) = true ->
    snd (_get_cluster_addresses w) = Ok (master, replicas) ->
    (2 <= List.length replicas)%nat ->
    master <> Some address ->
    dict_get address (etcd_members (outside w (S (observed w))))
      = Some (String c id_rest) ->
    existsb (references address) (pg_hba (dcs_conf w)) = false ->
    let joined := fst (join_access_list address w) in
    dcs_conf joined
    = PatroniConfig (_add_node_to_pg_hba (pg_hba (dcs_conf w)) address)
                    (other_settings (dcs_conf w))
    /\ snd (remove_cluster_node address joined) = Ok tt
    /\ dcs_conf (fst (remove_cluster_node address joined)) = dcs_conf w.
Proof.
  intros address w master replicas c id_rest Hdb Hresolve Hlen Hmaster Hid
         Hfree joined.
  assert (Hjoined : joined
                    = World (services_to_install w) (outside w) (observed w)
                        (PatroniConfig
                           (_add_node_to_pg_hba (pg_hba (dcs_conf w)) address)
                           (other_settings (dcs_conf w)))
                        (journal w ++
                         [EtcdSetConfig
                            (PatroniConfig
                               (_add_node_to_pg_hba (pg_hba (dcs_conf w))
                                                    address)
                               (other_settings (dcs_conf w)))])).
  { unfold joined. now rewrite join_cases, Hfree. }
  split; [now rewrite Hjoined |].
  pose proof (resolve_database w Hdb) as Hr.
  rewrite Hr in Hresolve. cbn [snd] in Hresolve. cbv zeta in Hresolve.
  assert (Hdb' : existsb is_database (services_to_install joined) = true)
    by (now rewrite Hjoined).
  pose proof (resolve_database joined Hdb') as Hr'. cbv zeta in Hr'.
  assert (Hseen : outside joined (observed joined) = outside w (observed w))
    by (now rewrite Hjoined).
  rewrite Hseen, Hresolve in Hr'.
  rewrite remove_cases, Hr'.
  destruct (Nat.ltb_spec (List.length replicas) 2) as [Hlt | _]; [lia |].
  rewrite (eq_opt_false _ _ Hmaster).
  rewrite Hjoined.
  cbn [after services_to_install outside observed dcs_conf journal Nat.add
       pg_hba other_settings].
  rewrite Hdb, Hid. cbn [snd fst dcs_conf].
  split; [reflexivity |].
  rewrite filter_added_same, (filter_unreferenced _ _ Hfree).
  now destruct (dcs_conf w).
Qed.

Lemma join_then_remove_restores_access_list_witness :
  dcs_conf (fst (remove_cluster_node "192.0.2.3"
                   (fst (join_access_list "192.0.2.3" two_replicas_example))))
  = dcs_conf two_replicas_example.
Proof.
  apply (join_then_remove_restores_access_list "192.0.2.3"
           two_replicas_example (Some "192.0.2.1")
           ["192.0.2.2"; "192.0.2.3"] "f" "d422379fda50e48"
           eq_refl eq_refl).
  - simpl; lia.
  - discriminate.
  - reflexivity.
  - reflexivity.
Defined.

Lemma replace_dot_injective (a : string) :
  lacks "_" a = true ->
  forall b, lacks "_" b = true ->
            replace "." "_" a = replace "." "_" b -> a = b.
Proof.
  induction a as [| x a IH]; intros Ha [| d b] Hb Heq.
  - reflexivity.
  - cbn [replace] in Heq. destruct (Ascii.eqb d "."); discriminate.
  - cbn [replace] in Heq. destruct (Ascii.eqb x "."); discriminate.
  - apply lacks_cons in Ha as [Hx Ha]. apply lacks_cons in Hb as [Hd Hb].
    cbn [replace] in Heq.
    destruct (Ascii.eqb_spec x ".") as [-> | Hx'];
      destruct (Ascii.eqb_spec d ".") as [-> | Hd'];
      cbn [append] in Heq.
    + injection Heq as Htail. f_equal. now apply IH.
    + injection Heq as Hhead Htail. subst d.
      now rewrite Ascii.eqb_refl in Hd.
    + injection Heq as Hhead Htail. subst x.
      now rewrite Ascii.eqb_refl in Hx.
    + injection Heq as Hhead Htail. subst d. f_equal. now apply IH.
Qed.

(** X20. The member names tell the nodes apart: two addresses without
    an underscore that get the same Patroni name, or the same etcd name,
    are the same address, and no Patroni name is an etcd name. *)
Theorem member_names_tell_nodes_apart :
  forall (a b : string),
    lacks "_" a = true -> lacks "_" b = true ->
    (_get_patroni_id a = _get_patroni_id b -> a = b)
    /\ (_get_etcd_id a = _get_etcd_id b -> a = b)
    /\ _get_patroni_id a <> _get_etcd_id b.
Proof.
  intros a b Ha Hb. unfold _get_patroni_id, _get_etcd_id. repeat split.
  - intros H. cbn [append] in H. inversion H.
    now apply replace_dot_injective.
  - intros H. cbn [append] in H. inversion H.
    now apply replace_dot_injective.
  - discriminate.
Qed.

Lemma member_names_tell_nodes_apart_witness :
  lacks "_" "192.0.2.2" = true
  /\ _get_patroni_id "192.0.2.2" <> _get_etcd_id "192.0.2.2".
Proof.
  split; [reflexivity |].
  apply (member_names_tell_nodes_apart "192.0.2.2" "192.0.2.2"
           eq_refl eq_refl).
Defined.
